(** * excel-generation-api: a shallow embedding of [src/api/utils/excelUtils.ts]
      (the mapping engine, the table builder, the workbook assembler, the
      template inspector and the email service), of the request handlers of
      [src/api/controllers/excelController.ts], of the CORS origins and the
      error handler of [src/api/server.ts], and of the template upload
      middleware. *)

From Stdlib Require Import ZArith List Bool Lia String Ascii Sorted.
From Corelib Require Import SpecFloat.
Import ListNotations.

Open Scope Z_scope.

(** ** JavaScript numbers

    Every JS number is an IEEE-754 binary64 value; arithmetic rounds to
    nearest, ties to even.  We use the Corelib's executable specification
    [spec_float] at precision 53 and maximal exponent 1024. *)
Module Num.

Definition double : Type := spec_float.
Definition prec : Z := 53.
Definition emax : Z := 1024.

Definition of_Z (z : Z) : double := binary_normalize prec emax z 0 false.

Definition add : double -> double -> double := SFadd prec emax.
Definition sub : double -> double -> double := SFsub prec emax.
Definition mul : double -> double -> double := SFmul prec emax.
Definition div : double -> double -> double := SFdiv prec emax.
(** [x < y] on numbers (false as soon as one side is NaN). *)
Definition ltb : double -> double -> bool := SFltb.

(** [Math.floor]. *)
Definition floor (x : double) : double :=
  match x with
  | S754_finite s m e =>
      if 0 <=? e then x
      else
        let q := Z.shiftr (Zpos m) (- e) in
        if s then
          let exact := (Z.shiftl q (- e) =? Zpos m) in
          binary_normalize prec emax (- (if exact then q else q + 1)) 0 true
        else binary_normalize prec emax q 0 false
  | _ => x
  end.

(** [x % y] (Number::remainder): the exact remainder of the truncated
    division, with the sign of [x]. *)
Definition rem (x y : double) : double :=
  match x, y with
  | S754_nan, _ | _, S754_nan => S754_nan
  | S754_infinity _, _ => S754_nan
  | _, S754_zero _ => S754_nan
  | _, S754_infinity _ => x
  | S754_zero _, _ => x
  | S754_finite sx mx ex, S754_finite _ my ey =>
      let e := Z.min ex ey in
      let nx := Z.shiftl (Zpos mx) (ex - e) in
      let ny := Z.shiftl (Zpos my) (ey - e) in
      let r := Z.rem nx ny in
      if r =? 0 then S754_zero sx
      else binary_normalize prec emax (if sx then - r else r) e sx
  end.

(** ToUint16, used by [String.fromCharCode]. *)
Definition to_uint16 (x : double) : Z :=
  match x with
  | S754_finite s m e =>
      let t := Z.shiftl (Zpos m) e in
      (if s then - t else t) mod 65536
  | _ => 0
  end.

(** The value of an integral number (truncation toward zero). *)
Definition trunc_Z (x : double) : Z :=
  match x with
  | S754_finite s m e =>
      let t := Z.shiftl (Zpos m) e in if s then - t else t
  | _ => 0
  end.

(** ToBoolean on numbers: false exactly for [+0], [-0] and [NaN]. *)
Definition truthy (x : double) : bool :=
  match x with
  | S754_zero _ | S754_nan => false
  | _ => true
  end.

End Num.

(** ** JavaScript strings

    A JS string is a sequence of UTF-16 code units. *)
Definition jsstring := list Z.

(** A JS string literal written in ASCII. *)
Definition js (s : string) : jsstring :=
  map (fun a => Z.of_nat (nat_of_ascii a)) (list_ascii_of_string s).

(** ** Column letters ([columnLetterToNumber], [numberToColumnLetter]) *)

(** [columnLetterToNumber]: [result = result * 26 + (code - 65 + 1)] for each
    code unit, in JS arithmetic. *)
Definition columnLetterToNumber (letter : jsstring) : Num.double :=
  fold_left
    (fun result c =>
       Num.add (Num.mul result (Num.of_Z 26))
               (Num.add (Num.sub (Num.of_Z c) (Num.of_Z 65)) (Num.of_Z 1)))
    letter (Num.of_Z 0).

(** One iteration of the [while (num > 0)] loop of [numberToColumnLetter]:
    [num--], prepend [String.fromCharCode(65 + num % 26)],
    [num = Math.floor(num / 26)].  [None] means the loop is still running
    when the fuel is exhausted: this happens for [Infinity], on which the JS
    loop never terminates; for a finite number the loop runs at most a few
    hundred times, far below the fuel. *)
Fixpoint ntcl_loop (fuel : nat) (num : Num.double) (result : jsstring)
  : option jsstring :=
  match fuel with
  | O => None
  | S fuel' =>
      if Num.ltb (Num.of_Z 0) num then
        let num1 := Num.sub num (Num.of_Z 1) in
        let result' :=
          Num.to_uint16 (Num.add (Num.of_Z 65) (Num.rem num1 (Num.of_Z 26)))
            :: result in
        ntcl_loop fuel' (Num.floor (Num.div num1 (Num.of_Z 26))) result'
      else Some result
  end.

Definition ntcl_fuel : nat := 2200.

Definition numberToColumnLetter (num : Num.double) : option jsstring :=
  ntcl_loop ntcl_fuel num [].

(** ** JavaScript values

    The values a JSON request body can hold, plus [JHost]: a value of the
    host engine reached through an inherited property (a built-in method or
    prototype object, such as [({}).constructor]). *)
#[local] Unset Elimination Schemes.
Inductive jsval : Type :=
| JUndefined
| JNull
| JBool (b : bool)
| JNum (n : Num.double)
| JStr (s : jsstring)
| JArr (xs : list jsval)
| JObj (props : list (jsstring * jsval))
| JHost (id : jsstring).
#[local] Set Elimination Schemes.

(** ToBoolean. *)
Definition truthy (v : jsval) : bool :=
  match v with
  | JUndefined | JNull => false
  | JBool b => b
  | JNum n => Num.truthy n
  | JStr s => negb (match s with [] => true | _ => false end)
  | JArr _ | JObj _ | JHost _ => true
  end.

Definition is_undefined (v : jsval) : bool :=
  match v with JUndefined => true | _ => false end.

Definition is_null (v : jsval) : bool :=
  match v with JNull => true | _ => false end.

Fixpoint jsstring_eqb (a b : jsstring) : bool :=
  match a, b with
  | [], [] => true
  | x :: a', y :: b' => (x =? y) && jsstring_eqb a' b'
  | _, _ => false
  end.

(** The own data property [k] of an object: the last binding wins, as in
    [JSON.parse] with a repeated key. *)
Fixpoint assoc_last (k : jsstring) (props : list (jsstring * jsval))
  : option jsval :=
  match props with
  | [] => None
  | (k', v) :: rest =>
      match assoc_last k rest with
      | Some w => Some w
      | None => if jsstring_eqb k k' then Some v else None
      end
  end.

(** A canonical decimal integer string (digits, no leading zero except "0"). *)
Fixpoint digits_value (acc : Z) (s : jsstring) : option Z :=
  match s with
  | [] => Some acc
  | c :: rest =>
      if (48 <=? c) && (c <=? 57) then digits_value (acc * 10 + (c - 48)) rest
      else None
  end.

Definition canonical_index (k : jsstring) : option Z :=
  match k with
  | [] => None
  | [48] => Some 0
  | 48 :: _ => None
  | _ => digits_value 0 k
  end.

(** The JS string "length". *)
Definition key_length : jsstring := [108; 101; 110; 103; 116; 104].

Section Lookup.

(** The host engine's built-ins: the value of property [k] of [v] when [v]
    has no own data property [k] (a member inherited from
    [Object.prototype], [Array.prototype], [String.prototype], ... or
    [undefined]). *)
Variable inherited : jsval -> jsstring -> jsval.

(** [v[k]] for a [v] that is neither [null] nor [undefined]. *)
Definition get (v : jsval) (k : jsstring) : jsval :=
  match v with
  | JObj props =>
      match assoc_last k props with Some w => w | None => inherited v k end
  | JArr xs =>
      if jsstring_eqb k key_length then JNum (Num.of_Z (Z.of_nat (List.length xs)))
      else match canonical_index k with
           | Some i =>
               if i <? 4294967295 then
                 match nth_error xs (Z.to_nat i) with
                 | Some w => w
                 | None => inherited v k
                 end
               else inherited v k
           | None => inherited v k
           end
  | JStr s =>
      if jsstring_eqb k key_length then JNum (Num.of_Z (Z.of_nat (List.length s)))
      else match canonical_index k with
           | Some i =>
               match nth_error s (Z.to_nat i) with
               | Some c => JStr [c]
               | None => inherited v k
               end
           | None => inherited v k
           end
  | JUndefined | JNull => JUndefined
  | _ => inherited v k
  end.

(** [path.split('.')] *)
Fixpoint split_on (sep : Z) (s : jsstring) : list jsstring :=
  match s with
  | [] => [[]]
  | c :: rest =>
      let parts := split_on sep rest in
      if c =? sep then [] :: parts
      else match parts with
           | p :: ps => (c :: p) :: ps
           | [] => [[c]]
           end
  end.

(** The reducer of [getNestedValue]:
    [current && current[key] !== undefined ? current[key] : null].
    When [current] is truthy it is neither [null] nor [undefined], so the
    property access does not throw. *)
Definition gnv_step (current : jsval) (key : jsstring) : jsval :=
  if truthy current && negb (is_undefined (get current key))
  then get current key
  else JNull.

(** [getNestedValue(obj, path)] *)
Definition getNestedValue (obj : jsval) (path : jsstring) : jsval :=
  fold_left gnv_step (split_on 46 path) obj.

End Lookup.

(** ** Exceptions and the outcome of a computation *)

(** A thrown JS value: an instance of [Error] (its class name and
    [message]), or any other value. *)
Inductive jsexn : Type :=
| ErrorObj (name message : jsstring)
| ThrownValue (v : jsval).

(** A computation returns, throws, or does not terminate. *)
Inductive Exc (A : Type) : Type :=
| Ok (a : A)
| Throw (e : jsexn)
| Loop.
Arguments Ok {A} a.
Arguments Throw {A} e.
Arguments Loop {A}.

Definition bind {A B : Type} (m : Exc A) (k : A -> Exc B) : Exc B :=
  match m with
  | Ok a => k a
  | Throw e => Throw e
  | Loop => Loop
  end.

Notation "x <- m ;; k" := (bind m (fun x => k))
  (at level 61, m at next level, right associativity).

(** [try { m } catch (e) { h(e) }] *)
Definition catch {A : Type} (m : Exc A) (h : jsexn -> Exc A) : Exc A :=
  match m with
  | Throw e => h e
  | _ => m
  end.

Definition lift {A : Type} (r : A + jsexn) : Exc A :=
  match r with inl a => Ok a | inr e => Throw e end.

(** A [for ... of] loop whose body may throw. *)
Fixpoint fold_m {A B : Type} (f : B -> A -> Exc B) (xs : list A) (b : B)
  : Exc B :=
  match xs with
  | [] => Ok b
  | x :: rest => b' <- f b x ;; fold_m f rest b'
  end.

(** [forEach((x, index) => ...)] whose body may throw. *)
Fixpoint fold_mi {A B : Type} (f : B -> nat -> A -> Exc B) (i : nat)
  (xs : list A) (b : B) : Exc B :=
  match xs with
  | [] => Ok b
  | x :: rest => b' <- f b i x ;; fold_mi f (S i) rest b'
  end.

(** [forEach((x, index) => ...)] whose body does not throw. *)
Fixpoint fold_i {A B : Type} (f : B -> nat -> A -> B) (i : nat) (xs : list A)
  (b : B) : B :=
  match xs with
  | [] => b
  | x :: rest => fold_i f (S i) rest (f b i x)
  end.

(** [xs.map(f)] whose callback may throw. *)
Fixpoint map_m {A B : Type} (f : A -> Exc B) (xs : list A) : Exc (list B) :=
  match xs with
  | [] => Ok []
  | x :: rest => y <- f x ;; ys <- map_m f rest ;; Ok (y :: ys)
  end.

(** [error instanceof Error ? error.message : dflt] *)
Definition message_or (dflt : jsstring) (e : jsexn) : jsstring :=
  match e with
  | ErrorObj _ m => m
  | ThrownValue _ => dflt
  end.

Definition js_null_name (v : jsval) : jsstring :=
  match v with JNull => js "null" | _ => js "undefined" end.

(** [v[k]] on any value: reading a property of [null] or [undefined] throws
    a [TypeError]. *)
Definition member (inherited : jsval -> jsstring -> jsval) (v : jsval)
  (k : jsstring) : Exc jsval :=
  match v with
  | JUndefined | JNull =>
      Throw (ErrorObj (js "TypeError")
               (js "Cannot read properties of " ++ js_null_name v
                ++ js " (reading '" ++ k ++ js "')"))
  | _ => Ok (get inherited v k)
  end.

(** ** The workbook *)

(** A cell address: row and column numbers. *)
Definition addr : Type := (Num.double * Num.double)%type.

(** Two numbers name the same row or column when they are the same
    property key ([ToString]): [+0] and [-0] coincide. *)
Definition dbl_key_eqb (x y : Num.double) : bool :=
  match x, y with
  | S754_zero _, S754_zero _ => true
  | S754_infinity s, S754_infinity s' => Bool.eqb s s'
  | S754_nan, S754_nan => true
  | S754_finite s m e, S754_finite s' m' e' =>
      Bool.eqb s s' && Pos.eqb m m' && Z.eqb e e'
  | _, _ => false
  end.

Definition addr_eqb (a b : addr) : bool :=
  dbl_key_eqb (fst a) (fst b) && dbl_key_eqb (snd a) (snd b).

Record font : Type := {
  font_color : option jsstring;
  font_size : option Num.double;
  font_bold : option bool;
  font_italic : option bool;
  font_underline : option bool
}.

Definition no_font : font :=
  {| font_color := None; font_size := None; font_bold := None;
     font_italic := None; font_underline := None |}.

(** [{ ...base, ...over }] on fonts. *)
Definition merge_font (base over : font) : font :=
  let pick {T : Type} (b o : option T) := match o with Some _ => o | None => b end in
  {| font_color := pick base.(font_color) over.(font_color);
     font_size := pick base.(font_size) over.(font_size);
     font_bold := pick base.(font_bold) over.(font_bold);
     font_italic := pick base.(font_italic) over.(font_italic);
     font_underline := pick base.(font_underline) over.(font_underline) |}.

(** The value assigned to [cell.value]: a plain value, or
    [{ formula, result }]. *)
Inductive cellvalue : Type :=
| CPlain (v : jsval)
| CFormula (formula : jsstring) (result : jsval).

Record cell : Type := {
  c_value : cellvalue;
  c_fill : option jsstring;      (* solid fill, ARGB *)
  c_font : font;
  c_numFmt : option jsstring
}.

Definition empty_cell : cell :=
  {| c_value := CPlain JNull; c_fill := None; c_font := no_font;
     c_numFmt := None |}.

(** An assignment to a cell property. *)
Inductive cell_op : Type :=
| SetValue (a : addr) (v : cellvalue)
| SetFill (a : addr) (argb : jsstring)
| SetFont (a : addr) (f : font)
| SetNumFmt (a : addr) (fmt : jsstring).

Definition op_addr (o : cell_op) : addr :=
  match o with
  | SetValue a _ | SetFill a _ | SetFont a _ | SetNumFmt a _ => a
  end.

Definition apply_op (c : cell) (o : cell_op) : cell :=
  match o with
  | SetValue _ v => {| c_value := v; c_fill := c.(c_fill); c_font := c.(c_font); c_numFmt := c.(c_numFmt) |}
  | SetFill _ x => {| c_value := c.(c_value); c_fill := Some x; c_font := c.(c_font); c_numFmt := c.(c_numFmt) |}
  | SetFont _ f => {| c_value := c.(c_value); c_fill := c.(c_fill); c_font := f; c_numFmt := c.(c_numFmt) |}
  | SetNumFmt _ x => {| c_value := c.(c_value); c_fill := c.(c_fill); c_font := c.(c_font); c_numFmt := Some x |}
  end.

(** The reference of a table, [`${startCell}:${endCol}${endRow}`], kept as
    its three parts. *)
Record table_ref : Type := {
  ref_start : jsstring;
  ref_endCol : jsstring;
  ref_endRow : Num.double
}.

(** The argument of [worksheet.addTable]. *)
Record table : Type := {
  t_name : jsstring;
  t_ref : table_ref;
  t_headerRow : bool;
  t_theme : jsstring;
  t_showRowStripes : bool;
  t_columns : list jsstring;
  t_rows : list (list jsval)
}.

(** A worksheet: its cells are the result of the assignments made to them,
    kept in the order they were made ([ws_log]). *)
Record worksheet : Type := {
  ws_name : jsstring;
  ws_log : list cell_op;
  ws_tables : list table;
  ws_widths : list (Z * Num.double);  (* [getColumn(c).width = w] *)
  ws_frozen : option Z;               (* [views = [{state:'frozen', ySplit}]] *)
  ws_protection : option jsstring     (* [protect(password, ...)] *)
}.

Definition workbook : Type := list worksheet.

Definition cell_at (ws : worksheet) (a : addr) : cell :=
  fold_left (fun c o => if addr_eqb (op_addr o) a then apply_op c o else c)
    ws.(ws_log) empty_cell.

Definition push (o : cell_op) (ws : worksheet) : worksheet :=
  {| ws_name := ws.(ws_name); ws_log := ws.(ws_log) ++ [o];
     ws_tables := ws.(ws_tables); ws_widths := ws.(ws_widths);
     ws_frozen := ws.(ws_frozen); ws_protection := ws.(ws_protection) |}.

Definition new_worksheet (name : jsstring) : worksheet :=
  {| ws_name := name; ws_log := []; ws_tables := []; ws_widths := [];
     ws_frozen := None; ws_protection := None |}.

(** The spreadsheet library (ExcelJS), which is not part of this
    repository: each operation the code calls that can fail. *)
Record library : Type := {
  (** [workbook.xlsx.load(buffer)]: the sheets of the file, or the error *)
  lib_load : list Z -> workbook + jsexn;
  (** [workbook.addWorksheet(name)]: [Some e] when the name is refused *)
  lib_add_worksheet : workbook -> jsstring -> option jsexn;
  (** [worksheet.getCell(address)]: the decoded address, or the error *)
  lib_decode_address : jsstring -> addr + jsexn;
  (** [worksheet.addTable(t)]: [Some e] when the table is refused *)
  lib_add_table : worksheet -> table -> option jsexn;
  (** [workbook.xlsx.writeBuffer()] *)
  lib_write_buffer : workbook -> list Z + jsexn
}.

(** ** Request types ([MappingConfig], [TableConfig], [ExcelOptions]) *)

Record cellstyle : Type := {
  bgColor : option jsstring;
  fontColor : option jsstring;
  fontSize : option Num.double;
  bold : option bool;
  italic : option bool;
  underline : option bool
}.

Record MappingConfig : Type := {
  m_sheet : jsstring;
  m_cell : jsstring;
  m_fieldName : jsstring;
  m_style : option cellstyle;
  m_formula : option jsstring;
  m_format : option jsstring
}.

Record tablestyle : Type := {
  headerBgColor : option jsstring;
  headerFontColor : option jsstring;
  rowBgColor : option jsstring;
  alternateRowBgColor : option jsstring
}.

Record TableConfig : Type := {
  tc_sheet : jsstring;
  tc_tableName : jsstring;
  tc_startCell : jsstring;
  tc_columns : list jsstring;
  tc_style : option tablestyle
}.

Record ExcelOptions : Type := {
  o_includeHeaders : option bool;
  o_autoFitColumns : option bool;
  o_freezeFirstRow : option bool;
  o_protectSheet : option bool;
  o_password : option jsstring
}.

(** Truthiness of an optional string or boolean field. *)
Definition str_truthy (o : option jsstring) : bool :=
  match o with Some (_ :: _) => true | _ => false end.

Definition bool_truthy (o : option bool) : bool :=
  match o with Some true => true | _ => false end.

(** [a || b] on optional strings. *)
Definition str_or (a b : option jsstring) : option jsstring :=
  if str_truthy a then a else b.

Definition argb (hex : jsstring) : jsstring := js "FF" ++ hex.

(** [/^([A-Z]+)([0-9]+)$/]: the letters and the digits of a reference. *)
Definition is_upper (c : Z) : bool := (65 <=? c) && (c <=? 90).
Definition is_digit (c : Z) : bool := (48 <=? c) && (c <=? 57).

Fixpoint span_upper (s : jsstring) : jsstring * jsstring :=
  match s with
  | c :: rest =>
      if is_upper c then let (l, r) := span_upper rest in (c :: l, r)
      else ([], s)
  | [] => ([], [])
  end.

Definition match_cell_ref (s : jsstring) : option (jsstring * jsstring) :=
  let (letters, digits) := span_upper s in
  match letters, digits with
  | _ :: _, _ :: _ => if forallb is_digit digits then Some (letters, digits) else None
  | _, _ => None
  end.

(** [parseInt(digits)] on a string of decimal digits, correctly rounded. *)
Definition parseInt (digits : jsstring) : Num.double :=
  Num.of_Z (fold_left (fun acc c => acc * 10 + (c - 48)) digits 0).

Section Engine.

Variable inherited : jsval -> jsstring -> jsval.
(** [String.prototype.toLowerCase] of the host. *)
Variable toLowerCase : jsstring -> jsstring.
Variable L : library.

(** [workbook.getWorksheet(name)]: the first sheet with that name. *)
Definition getWorksheet (wb : workbook) (name : jsstring) : option worksheet :=
  find (fun ws => jsstring_eqb ws.(ws_name) name) wb.

(** [getWorksheet(name)], and [addWorksheet(name)] when it is absent. *)
Definition ensure_sheet (wb : workbook) (name : jsstring) : Exc workbook :=
  match getWorksheet wb name with
  | Some _ => Ok wb
  | None =>
      match lib_add_worksheet L wb name with
      | Some e => Throw e
      | None => Ok (wb ++ [new_worksheet name])
      end
  end.

(** Runs [f] on the sheet named [name] (the first one). *)
Fixpoint update_sheet (name : jsstring) (f : worksheet -> Exc worksheet)
  (wb : workbook) : Exc workbook :=
  match wb with
  | [] => Ok []
  | ws :: rest =>
      if jsstring_eqb ws.(ws_name) name then ws' <- f ws ;; Ok (ws' :: rest)
      else rest' <- update_sheet name f rest ;; Ok (ws :: rest')
  end.

(** [applyCellStyle(cell, style)] *)
Definition applyCellStyle (a : addr) (style : option cellstyle)
  (ws : worksheet) : worksheet :=
  match style with
  | None => ws
  | Some st =>
      let ws1 :=
        match st.(bgColor) with
        | Some c => if str_truthy (Some c) then push (SetFill a (argb c)) ws else ws
        | None => ws
        end in
      let fontOptions :=
        {| font_color :=
             match st.(fontColor) with
             | Some c => if str_truthy (Some c) then Some (argb c) else None
             | None => None
             end;
           font_size :=
             match st.(fontSize) with
             | Some n => if Num.truthy n then Some n else None
             | None => None
             end;
           font_bold := if bool_truthy st.(bold) then Some true else None;
           font_italic := if bool_truthy st.(italic) then Some true else None;
           font_underline := if bool_truthy st.(underline) then Some true else None |} in
      if (match fontOptions with
          | {| font_color := None; font_size := None; font_bold := None;
               font_italic := None; font_underline := None |} => false
          | _ => true end)
      then push (SetFont a (merge_font (cell_at ws1 a).(c_font) fontOptions)) ws1
      else ws1
  end.

(** The [switch (format.toLowerCase())] of [applyCellFormat]. *)
Definition format_code (format : jsstring) : jsstring :=
  let f := toLowerCase format in
  if jsstring_eqb f (js "currency") then js "$#,##0.00"
  else if jsstring_eqb f (js "percentage") then js "0.00%"
  else if jsstring_eqb f (js "date") then js "mm/dd/yyyy"
  else if jsstring_eqb f (js "datetime") then js "mm/dd/yyyy hh:mm:ss"
  else if jsstring_eqb f (js "number") then js "#,##0.00"
  else if jsstring_eqb f (js "integer") then js "#,##0"
  else format.

(** [applyCellFormat(cell, format)] *)
Definition applyCellFormat (a : addr) (format : option jsstring)
  (ws : worksheet) : worksheet :=
  match format with
  | Some f => if str_truthy (Some f) then push (SetNumFmt a (format_code f)) ws else ws
  | None => ws
  end.

(** Lines 275-282 of [generateWorkbook]: the value given to the cell. *)
Definition mapping_value (jsonData : jsval) (mapping : MappingConfig)
  : cellvalue :=
  let value := getNestedValue inherited jsonData mapping.(m_fieldName) in
  match mapping.(m_formula) with
  | Some f =>
      if truthy (JStr f)
      then CFormula f (if truthy value then value else JNum (Num.of_Z 0))
      else CPlain (if is_null value then JStr [] else value)
  | None => CPlain (if is_null value then JStr [] else value)
  end.

(** One iteration of the mapping loop of [generateWorkbook]. *)
Definition apply_mapping (jsonData : jsval) (wb : workbook)
  (mapping : MappingConfig) : Exc workbook :=
  wb1 <- ensure_sheet wb mapping.(m_sheet) ;;
  a <- lift (lib_decode_address L mapping.(m_cell)) ;;
  update_sheet mapping.(m_sheet)
    (fun ws =>
       Ok (applyCellFormat a mapping.(m_format)
             (applyCellStyle a mapping.(m_style)
                (push (SetValue a (mapping_value jsonData mapping)) ws))))
    wb1.

(** ** Table builder ([createTable]) *)

(** The fill of a data cell of row [rowIndex] (alternating row colours). *)
Definition row_fill (style : option tablestyle) (rowIndex : nat)
  : option jsstring :=
  match style with
  | None => None
  | Some st =>
      if str_truthy st.(rowBgColor) || str_truthy st.(alternateRowBgColor) then
        let bg := if Nat.even rowIndex then st.(rowBgColor)
                  else str_or st.(alternateRowBgColor) st.(rowBgColor) in
        match bg with
        | Some c => if str_truthy (Some c) then Some (argb c) else None
        | None => None
        end
      else None
  end.

Definition write_data_cell (a : addr) (v : jsval) (fill : option jsstring)
  (ws : worksheet) : worksheet :=
  let ws1 := push (SetValue a (CPlain v)) ws in
  match fill with Some c => push (SetFill a c) ws1 | None => ws1 end.

(** One iteration of the header loop. *)
Definition write_header (tc : TableConfig) (startRow startCol : Num.double)
  (ws : worksheet) (index : nat) (header : jsstring) : worksheet :=
  let a := (startRow, Num.add startCol (Num.of_Z (Z.of_nat index))) in
  let ws1 := push (SetValue a (CPlain (JStr header))) ws in
  let st := tc.(tc_style) in
  let ws2 :=
    match st with
    | Some s =>
        match s.(headerBgColor) with
        | Some c => if str_truthy (Some c) then push (SetFill a (argb c)) ws1 else ws1
        | None => ws1
        end
    | None => ws1
    end in
  let hf := match st with Some s => s.(headerFontColor) | None => None end in
  match hf with
  | Some c =>
      if str_truthy (Some c)
      then push (SetFont a {| font_color := Some (argb c); font_size := None;
                              font_bold := Some true; font_italic := None;
                              font_underline := None |}) ws2
      else push (SetFont a {| font_color := None; font_size := None;
                              font_bold := Some true; font_italic := None;
                              font_underline := None |}) ws2
  | None =>
      push (SetFont a {| font_color := None; font_size := None;
                         font_bold := Some true; font_italic := None;
                         font_underline := None |}) ws2
  end.

(** [row[column] || ''] *)
Definition object_cell (row : jsval) (column : jsstring) : Exc jsval :=
  v <- member inherited row column ;;
  Ok (if truthy v then v else JStr []).

(** One iteration of the data loop: row [rowIndex] of [tableData]. *)
Definition data_row (tc : TableConfig) (startRow startCol : Num.double)
  (ws : worksheet) (rowIndex : nat) (row : jsval) : Exc worksheet :=
  let currentRow :=
    Num.add (Num.add startRow (Num.of_Z (Z.of_nat rowIndex))) (Num.of_Z 1) in
  let ncols := List.length tc.(tc_columns) in
  let fill := row_fill tc.(tc_style) rowIndex in
  match row with
  | JArr vs =>
      Ok (fold_i
            (fun ws colIndex cellValue =>
               if Nat.ltb colIndex ncols
               then write_data_cell
                      (currentRow, Num.add startCol (Num.of_Z (Z.of_nat colIndex)))
                      cellValue fill ws
               else ws)
            0 vs ws)
  | JObj _ | JNull =>
      (* typeof row === 'object' *)
      fold_mi
        (fun ws colIndex column =>
           v <- object_cell row column ;;
           Ok (write_data_cell
                 (currentRow, Num.add startCol (Num.of_Z (Z.of_nat colIndex)))
                 v fill ws))
        0 tc.(tc_columns) ws
  | _ => Ok ws
  end.

(** A row of the [rows] given to [addTable]. *)
Definition table_row (tc : TableConfig) (row : jsval) : Exc (list jsval) :=
  match row with
  | JArr vs => Ok vs
  | _ => map_m (object_cell row) tc.(tc_columns)
  end.

Definition add_table (ws : worksheet) (t : table) : Exc worksheet :=
  match lib_add_table L ws t with
  | Some e => Throw e
  | None =>
      Ok {| ws_name := ws.(ws_name); ws_log := ws.(ws_log);
            ws_tables := ws.(ws_tables) ++ [t]; ws_widths := ws.(ws_widths);
            ws_frozen := ws.(ws_frozen); ws_protection := ws.(ws_protection) |}
  end.

(** [tableData.length === 0] *)
Definition is_length_zero (tableData : jsval) : bool :=
  match get inherited tableData key_length with
  | JNum (S754_zero _) => true
  | _ => false
  end.

(** [createTable(worksheet, tableConfig, tableData)] *)
Definition createTable (ws : worksheet) (tc : TableConfig) (tableData : jsval)
  : Exc worksheet :=
  if negb (truthy tableData) || is_length_zero tableData then Ok ws
  else
    match match_cell_ref tc.(tc_startCell) with
    | None =>
        Throw (ErrorObj (js "Error") (js "Invalid start cell: " ++ tc.(tc_startCell)))
    | Some (letters, digits) =>
        let startCol := columnLetterToNumber letters in
        let startRow := parseInt digits in
        let ws1 := fold_i (write_header tc startRow startCol) 0 tc.(tc_columns) ws in
        match tableData with
        | JArr rows =>
            ws2 <- fold_mi (data_row tc startRow startCol) 0 rows ws1 ;;
            let ncols := Z.of_nat (List.length tc.(tc_columns)) in
            match numberToColumnLetter
                    (Num.sub (Num.add startCol (Num.of_Z ncols)) (Num.of_Z 1)) with
            | None => Loop
            | Some endCol =>
                let endRow := Num.add startRow (Num.of_Z (Z.of_nat (List.length rows))) in
                trows <- map_m (table_row tc) rows ;;
                add_table ws2
                  {| t_name := tc.(tc_tableName);
                     t_ref := {| ref_start := tc.(tc_startCell);
                                 ref_endCol := endCol; ref_endRow := endRow |};
                     t_headerRow := true;
                     t_theme := js "TableStyleMedium9";
                     t_showRowStripes := true;
                     t_columns := tc.(tc_columns);
                     t_rows := trows |}
            end
        | _ =>
            (* [tableData.forEach]: not a function on a non-array *)
            Throw (ErrorObj (js "TypeError") (js "tableData.forEach is not a function"))
        end
    end.

(** ** Workbook assembler ([generateWorkbook]) *)

(** One iteration of the table loop. *)
Definition apply_table (jsonData : jsval) (wb : workbook) (tc : TableConfig)
  : Exc workbook :=
  wb1 <- ensure_sheet wb tc.(tc_sheet) ;;
  tableData <-
    (let v := getNestedValue inherited jsonData (js "tableData") in
     if truthy v then Ok v else member inherited jsonData (js "tableData")) ;;
  if truthy tableData
  then update_sheet tc.(tc_sheet) (fun ws => createTable ws tc tableData) wb1
  else Ok wb1.

(** [autoFitColumns(worksheet)]: width 15 for columns 1 to 10. *)
Definition autoFitColumns (ws : worksheet) : worksheet :=
  {| ws_name := ws.(ws_name); ws_log := ws.(ws_log); ws_tables := ws.(ws_tables);
     ws_widths := ws.(ws_widths)
                    ++ map (fun c => (Z.of_nat c, Num.of_Z 15)) (seq 1 10);
     ws_frozen := ws.(ws_frozen); ws_protection := ws.(ws_protection) |}.

(** The [workbook.eachSheet] callback. *)
Definition apply_options (options : ExcelOptions) (ws : worksheet) : worksheet :=
  let ws1 := match options.(o_autoFitColumns) with
             | Some false => ws
             | _ => autoFitColumns ws
             end in
  let ws2 := if bool_truthy options.(o_freezeFirstRow)
             then {| ws_name := ws1.(ws_name); ws_log := ws1.(ws_log);
                     ws_tables := ws1.(ws_tables); ws_widths := ws1.(ws_widths);
                     ws_frozen := Some 1; ws_protection := ws1.(ws_protection) |}
             else ws1 in
  if bool_truthy options.(o_protectSheet)
  then {| ws_name := ws2.(ws_name); ws_log := ws2.(ws_log);
          ws_tables := ws2.(ws_tables); ws_widths := ws2.(ws_widths);
          ws_frozen := ws2.(ws_frozen);
          ws_protection := Some (match str_or options.(o_password) None with
                                 | Some p => p | None => [] end) |}
  else ws2.

(** The body of the [try] block of [generateWorkbook]. *)
Definition generate_body (jsonData : jsval) (mappingConfig : list MappingConfig)
  (tableConfigs : list TableConfig) (templateBuffer : option (list Z))
  (options : ExcelOptions) : Exc (list Z) :=
  wb0 <- match templateBuffer with
         | Some buf => lift (lib_load L buf)
         | None => ensure_sheet [] (js "Sheet1")
         end ;;
  wb1 <- fold_m (apply_mapping jsonData) mappingConfig wb0 ;;
  wb2 <- fold_m (apply_table jsonData) tableConfigs wb1 ;;
  lift (lib_write_buffer L (map (apply_options options) wb2)).

Definition generation_failure (e : jsexn) : jsexn :=
  ErrorObj (js "Error")
    (js "Failed to generate Excel workbook: " ++ message_or (js "Unknown error") e).

(** [generateWorkbook(jsonData, mappingConfig, tableConfigs, templateBuffer, options)] *)
Definition generateWorkbook (jsonData : jsval) (mappingConfig : list MappingConfig)
  (tableConfigs : list TableConfig) (templateBuffer : option (list Z))
  (options : ExcelOptions) : Exc (list Z) :=
  catch (generate_body jsonData mappingConfig tableConfigs templateBuffer options)
        (fun e => Throw (generation_failure e)).

(** ** Template inspector ([validateTemplate]) *)

Record validation : Type := {
  isValid : bool;
  sheets : list jsstring;
  error : option jsstring
}.

Definition validateTemplate (templateBuffer : list Z) : Exc validation :=
  catch (wb <- lift (lib_load L templateBuffer) ;;
         Ok {| isValid := true; sheets := map ws_name wb; error := None |})
        (fun e => Ok {| isValid := false; sheets := [];
                        error := Some (message_or (js "Invalid template file") e) |}).

End Engine.

(** ** Bulk generation ([bulkGenerate] in the controller) *)

(** Decimal digits of a positive integer. *)
Fixpoint decimal_aux (fuel : nat) (n : Z) (acc : jsstring) : jsstring :=
  match fuel with
  | O => acc
  | S f =>
      let acc' := (48 + n mod 10) :: acc in
      if n / 10 =? 0 then acc' else decimal_aux f (n / 10) acc'
  end.

Definition decimal (n : Z) : jsstring :=
  decimal_aux (S (Z.to_nat (Z.log2 n))) n [].

Record bulk_result : Type := {
  br_index : nat;
  br_fileName : jsval;
  br_data : list Z   (* [fileSize] and the base64 [data] are computed from it *)
}.

Record bulk_error : Type := {
  be_index : nat;
  be_error : jsstring
}.

Inductive bulk_response : Type :=
| BulkRejected                                           (* status 400 *)
| BulkDone (results : list bulk_result) (errors : list bulk_error)
| BulkFailed (message : jsstring).                       (* status 500 *)

Section Bulk.

Variable inherited : jsval -> jsstring -> jsval.
(** [generateWorkbook] called on the untyped fields of one request
    ([jsonData], [mappingConfig], [tables || []], no template,
    [options || {}]); a malformed request makes it throw. *)
Variable generate : jsval -> jsval -> jsval -> jsval -> Exc (list Z).

(** The body of the [try] block for request [i]. *)
Definition bulk_item (i : nat) (request : jsval) : Exc bulk_result :=
  jsonData <- member inherited request (js "jsonData") ;;
  mappingConfig <- member inherited request (js "mappingConfig") ;;
  tables <- member inherited request (js "tables") ;;
  options <- member inherited request (js "options") ;;
  buf <- generate jsonData mappingConfig
           (if truthy tables then tables else JArr [])
           (if truthy options then options else JObj []) ;;
  fileName <- member inherited request (js "fileName") ;;
  Ok {| br_index := i;
        br_fileName :=
          if truthy fileName then fileName
          else JStr (js "generated_" ++ decimal (Z.of_nat i + 1) ++ js ".xlsx");
        br_data := buf |}.

(** [for (let i = 0; i < requests.length; i++) { try { ... } catch ... }] *)
Fixpoint bulk_loop (i : nat) (requests : list jsval)
  (results : list bulk_result) (errors : list bulk_error)
  : Exc (list bulk_result * list bulk_error) :=
  match requests with
  | [] => Ok (results, errors)
  | request :: rest =>
      match bulk_item i request with
      | Ok r => bulk_loop (S i) rest (results ++ [r]) errors
      | Throw e =>
          bulk_loop (S i) rest results
            (errors ++ [{| be_index := i; be_error := message_or (js "Unknown error") e |}])
      | Loop => Loop
      end
  end.

Definition bulkGenerate (body : jsval) : Exc bulk_response :=
  catch
    (requests <- member inherited body (js "requests") ;;
     match requests with
     | JArr ((_ :: _) as rs) =>
         acc <- bulk_loop 0 rs [] [] ;;
         Ok (BulkDone (fst acc) (snd acc))
     | _ => Ok BulkRejected
     end)
    (fun e => Ok (BulkFailed (message_or (js "Unknown error occurred") e))).

End Bulk.

(** ** Concrete environments

    A host whose every value inherits exactly the string-keyed members of
    [Object.prototype], and a spreadsheet library that decodes the
    references the request schema admits and accepts every sheet and
    table. They serve as concrete inputs. *)

Definition object_prototype_members : list jsstring :=
  map js ["constructor"; "__defineGetter__"; "__defineSetter__";
          "hasOwnProperty"; "__lookupGetter__"; "__lookupSetter__";
          "isPrototypeOf"; "propertyIsEnumerable"; "toString"; "valueOf";
          "__proto__"; "toLocaleString"]%string.

Definition object_host (v : jsval) (k : jsstring) : jsval :=
  match v with
  | JUndefined | JNull => JUndefined
  | _ => if existsb (jsstring_eqb k) object_prototype_members
         then JHost (js "Object.prototype." ++ k) else JUndefined
  end.

Definition sample_library : library :=
  {| lib_load := fun buf =>
       match buf with
       | [] => inr (ErrorObj (js "Error")
                      (js "Can't find end of central directory : is this a zip file ?"))
       | _ => inl [new_worksheet (js "Sheet1")]
       end;
     lib_add_worksheet := fun _ _ => None;
     lib_decode_address := fun s =>
       match match_cell_ref s with
       | Some (letters, digits) => inl (parseInt digits, columnLetterToNumber letters)
       | None => inr (ErrorObj (js "Error") (js "Invalid Address: " ++ s))
       end;
     lib_add_table := fun _ _ => None;
     lib_write_buffer := fun _ => inl (js "PK") |}.

(** A mapping of a field [x] to cell [A1] of [Sheet1] with a formula. *)
Definition sample_formula_mapping : MappingConfig :=
  {| m_sheet := js "Sheet1"; m_cell := js "A1"; m_fieldName := js "x";
     m_style := None; m_formula := Some (js "A2*2"); m_format := None |}.


(** The entry the bulk loop records for a request that throws. *)
Definition bulk_entry (i : nat) (e : jsexn) : bulk_error :=
  {| be_index := i; be_error := message_or (js "Unknown error") e |}.

(** A generator that throws on a null document, and requests around it. *)
Definition sample_failure : jsexn := ErrorObj (js "Error") (js "jsonData is required").

Definition sample_generate (jsonData mappingConfig tables options : jsval)
  : Exc (list Z) :=
  if is_null jsonData then Throw sample_failure else Ok (js "PK").

Definition sample_request_ok : jsval :=
  JObj [(js "jsonData", JObj []); (js "fileName", JStr (js "a.xlsx"))].

Definition sample_request_bad : jsval := JObj [(js "jsonData", JNull)].

Definition sample_requests : list jsval :=
  [sample_request_ok; sample_request_bad; sample_request_ok].

Definition sample_result (i : nat) : bulk_result :=
  {| br_index := i; br_fileName := JStr (js "a.xlsx"); br_data := js "PK" |}.

(** Options with every flag unset. *)
Definition no_options : ExcelOptions :=
  {| o_includeHeaders := None; o_autoFitColumns := None; o_freezeFirstRow := None;
     o_protectSheet := None; o_password := None |}.

(** A table of one column [P] at [A1] of [Sheet1]. *)
Definition sample_table_P : TableConfig :=
  {| tc_sheet := js "Sheet1"; tc_tableName := js "T"; tc_startCell := js "A1";
     tc_columns := [js "P"]; tc_style := None |}.

(** ** Integer reading of the column conversions

    [canon N] is the double that denotes the integer [0 < N < 2^53]:
    its mantissa is [N] shifted to 53 significant bits. *)
Definition canon (N : Z) : Num.double :=
  S754_finite false (Z.to_pos (N * 2 ^ (52 - Z.log2 N))) (Z.log2 N - 52).

(** The base-26 value of a column-letter string with digits [A = 1],
    computed on mathematical integers. *)
Definition col_step (r c : Z) : Z := r * 26 + (c - 65 + 1).

Definition col_value (s : jsstring) : Z := fold_left col_step s 0.

(** Every code unit is an upper-case letter [A-Z]. *)
Definition is_letters (s : jsstring) : bool :=
  forallb (fun c => (65 <=? c) && (c <=? 90)) s.

(** The [while (num > 0)] loop of [numberToColumnLetter] on integers. *)
Fixpoint col_letters (fuel : nat) (n : Z) (acc : jsstring) : option jsstring :=
  match fuel with
  | O => None
  | S f =>
      if 0 <? n then col_letters f ((n - 1) / 26) ((65 + (n - 1) mod 26) :: acc)
      else Some acc
  end.


(** ** Table builder: what it writes and registers *)

(** The pairs [(index, element)] of [xs], indices from [k]. *)
Definition enum {A : Type} (k : nat) (xs : list A) : list (nat * A) :=
  combine (seq k (List.length xs)) xs.

(** The [cell.value = v] assignments of a write log, in order. *)
Definition value_writes (log : list cell_op) : list (addr * cellvalue) :=
  flat_map (fun o => match o with SetValue a v => [(a, v)] | _ => [] end) log.

(** [getCell(startRow, startCol + c)] *)
Definition header_addr (startRow startCol : Num.double) (c : nat) : addr :=
  (startRow, Num.add startCol (Num.of_Z (Z.of_nat c))).

(** [getCell(startRow + i + 1, startCol + c)] *)
Definition data_addr (startRow startCol : Num.double) (i c : nat) : addr :=
  (Num.add (Num.add startRow (Num.of_Z (Z.of_nat i))) (Num.of_Z 1),
   Num.add startCol (Num.of_Z (Z.of_nat c))).

(** The header row: column name [c] at column [startCol + c]. *)
Definition header_writes (startRow startCol : Num.double) (cols : list jsstring)
  : list (addr * cellvalue) :=
  map (fun '(c, h) => (header_addr startRow startCol c, CPlain (JStr h))) (enum 0 cols).

(** What the cell of an object row holds: [''] when the lookup finds
    nothing, the value found when it is truthy. *)
Definition object_value_ok (found written : jsval) : Prop :=
  (found = JUndefined -> written = JStr []) /\
  (truthy found = true -> written = found).

(** The assignments made for data row [i]: a value list is written
    positionally, up to [columns.length] values; an object gets one cell per
    column, from the lookup of the column name; other rows get none. *)
Definition row_writes_ok (inherited : jsval -> jsstring -> jsval)
  (cols : list jsstring) (startRow startCol : Num.double) (i : nat)
  (row : jsval) (d : list (addr * cellvalue)) : Prop :=
  match row with
  | JArr vs =>
      d = map (fun '(c, v) => (data_addr startRow startCol i c, CPlain v))
              (enum 0 (firstn (List.length cols) vs))
  | JObj _ | JNull =>
      Forall2 (fun '(c, col) '(a, w) =>
                 a = data_addr startRow startCol i c /\
                 exists v, w = CPlain v /\ object_value_ok (get inherited row col) v)
              (enum 0 cols) d
  | _ => d = []
  end.

(** Two columns [P] and [Q] at [A1] of [Sheet1]. *)
Definition sample_table_PQ : TableConfig :=
  {| tc_sheet := js "Sheet1"; tc_tableName := js "T"; tc_startCell := js "A1";
     tc_columns := [js "P"; js "Q"]; tc_style := None |}.

(** One column [toString] at [A1] of [Sheet1]. *)
Definition sample_table_toString : TableConfig :=
  {| tc_sheet := js "Sheet1"; tc_tableName := js "T"; tc_startCell := js "A1";
     tc_columns := [js "toString"]; tc_style := None |}.

(** The rows of the C4 example: a value list longer than the columns, and
    an object without the second column. *)
Definition sample_rows_mixed : list jsval :=
  [JArr [JNum (Num.of_Z 1); JNum (Num.of_Z 2); JNum (Num.of_Z 3)];
   JObj [(js "P", JNum (Num.of_Z 5))]].




(** ** Host built-ins used by the service layer *)

(** [Math.round]: the integral number closest to [x], ties toward [+Infinity];
    [NaN], the infinities and the zeros are returned unchanged, and a
    number in [[-0.5, 0)] gives [-0]. *)
Definition math_round (x : Num.double) : Num.double :=
  match x with
  | S754_finite s _ _ =>
      let half := Num.div (Num.of_Z 1) (Num.of_Z 2) in
      if negb s && Num.ltb x half then S754_zero false
      else if s && negb (Num.ltb x (Num.sub (S754_zero false) half)) then S754_zero true
      else
        let f := Num.floor x in
        if Num.ltb (Num.sub x f) half then f else Num.add f (Num.of_Z 1)
  | _ => x
  end.

(** The white space and line terminators [parseInt] skips (StrWhiteSpaceChar). *)
Definition js_space_units : list Z :=
  [9; 11; 12; 65279; 32; 160; 5760; 8192; 8193; 8194; 8195; 8196; 8197; 8198;
   8199; 8200; 8201; 8202; 8239; 8287; 12288; 10; 13; 8232; 8233].

Fixpoint trim_start (s : jsstring) : jsstring :=
  match s with
  | c :: rest => if existsb (Z.eqb c) js_space_units then trim_start rest else s
  | [] => []
  end.

(** The value of a code unit as a digit of radix [r] (10 or 16). *)
Definition digit_value (r c : Z) : option Z :=
  let v := if (48 <=? c) && (c <=? 57) then c - 48
           else if (97 <=? c) && (c <=? 122) then c - 87
           else if (65 <=? c) && (c <=? 90) then c - 55
           else r in
  if v <? r then Some v else None.

(** The longest prefix of radix-[r] digits: its value and its length. *)
Fixpoint take_digits (r : Z) (s : jsstring) (acc : Z) (n : nat) : Z * nat :=
  match s with
  | c :: rest =>
      match digit_value r c with
      | Some v => take_digits r rest (acc * r + v) (S n)
      | None => (acc, n)
      end
  | [] => (acc, n)
  end.

(** The global [parseInt(string)] (no radix): leading white space, a sign,
    a [0x]/[0X] prefix for radix 16, then the longest run of digits; [NaN]
    when there is none.  The value is rounded to the nearest double (for
    more than 20 significant decimal digits the standard leaves the
    rounding to the implementation; this is the correctly rounded one). *)
Definition js_parseInt (input : jsstring) : Num.double :=
  let s := trim_start input in
  let neg := match s with 45 :: _ => true | _ => false end in
  let s1 := match s with 45 :: rest | 43 :: rest => rest | _ => s end in
  let '(r, s2) := match s1 with
                  | 48 :: 120 :: rest | 48 :: 88 :: rest => (16, rest)
                  | _ => (10, s1)
                  end in
  let '(v, n) := take_digits r s2 0 O in
  match n with
  | O => S754_nan
  | S _ => if v =? 0 then S754_zero neg else Num.of_Z (if neg then - v else v)
  end.

(** [a.join(',')] *)
Fixpoint join_on (sep : Z) (parts : list jsstring) : jsstring :=
  match parts with
  | [] => []
  | [p] => p
  | p :: rest => p ++ sep :: join_on sep rest
  end.

(** [v === 'text'] *)
Definition is_js_string (v : jsval) (s : jsstring) : bool :=
  match v with JStr t => jsstring_eqb t s | _ => false end.

(** [process.env.K || d]: the variable when it is set to a non-empty value. *)
Definition env_or (env : jsstring -> option jsstring) (k d : jsstring) : jsstring :=
  match env k with Some ((_ :: _) as v) => v | _ => d end.

(** ** Email service ([createEmailTransporter], [sendEmailWithAttachment],
    [sendNotificationEmail], [testEmailConfiguration], [sendBulkEmails]) *)

(** The configuration given to [createTransport]; it stands for the
    transporter made from it. *)
Record email_config : Type := {
  ec_host : jsstring;
  ec_port : Num.double;
  ec_secure : bool;
  ec_user : jsstring;
  ec_pass : jsstring
}.

Record attachment : Type := {
  att_filename : jsval;
  att_content : list Z;
  att_contentType : jsstring
}.

(** The [mailOptions] given to [sendMail]; an absent field is [None]. *)
Record mail : Type := {
  mail_from : jsstring;
  mail_to : jsval;
  mail_subject : jsval;
  mail_text : option jsval;
  mail_html : option jsval;
  mail_attachments : option (list attachment)
}.

(** The mail library (nodemailer), which is not part of this repository:
    [transporter.sendMail(options)] and [transporter.verify()], each
    rejecting with [Some e]. *)
Record mailer : Type := {
  mail_send : email_config -> mail -> option jsexn;
  mail_verify : email_config -> option jsexn
}.

Section Email.

(** [process.env] *)
Variable env : jsstring -> option jsstring.
Variable M : mailer.
(** ToString of a value placed in a template literal (it may throw, e.g.
    on an object whose [toString] is not callable). *)
Variable to_string : jsval -> jsstring + jsexn.
(** [new Date().toLocaleString()] *)
Variable now_locale : jsstring.
(** The fixed text of the two message templates of
    [sendEmailWithAttachment]: the plain-text message, and the HTML page
    around the file name and the date. *)
Variables default_text html_head html_mid html_tail : jsstring.

Definition createEmailTransporter : Exc email_config :=
  let config :=
    {| ec_host := env_or env (js "EMAIL_HOST") (js "smtp.gmail.com");
       ec_port := js_parseInt (env_or env (js "EMAIL_PORT") (js "587"));
       ec_secure := match env (js "EMAIL_SECURE") with
                    | Some s => jsstring_eqb s (js "true")
                    | None => false
                    end;
       ec_user := env_or env (js "EMAIL_USER") [];
       ec_pass := env_or env (js "EMAIL_PASS") [] |} in
  if negb (str_truthy (Some config.(ec_user))) || negb (str_truthy (Some config.(ec_pass)))
  then Throw (ErrorObj (js "Error")
                (js "Email credentials not configured. Please set EMAIL_USER and EMAIL_PASS in .env file"))
  else Ok config.

(** [`"Excel Generator" <${process.env.EMAIL_USER}>`] *)
Definition sender : jsstring :=
  [34] ++ js "Excel Generator" ++ [34] ++ js " <"
  ++ match env (js "EMAIL_USER") with Some u => u | None => js "undefined" end
  ++ js ">".

Definition xlsx_content_type : jsstring :=
  js "application/vnd.openxmlformats-officedocument.spreadsheetml.sheet".

Definition sendEmailWithAttachment (recipient : jsval) (attachmentBuffer : list Z)
  (fileName customSubject customMessage : jsval) : Exc unit :=
  let fileName := if is_undefined fileName then JStr (js "generated.xlsx") else fileName in
  catch
    (transporter <- createEmailTransporter ;;
     let subject := if truthy customSubject then customSubject
                    else JStr (js "Your Generated Excel File") in
     let textMessage := if truthy customMessage then customMessage else JStr default_text in
     name <- lift (to_string fileName) ;;
     let htmlMessage := html_head ++ name ++ html_mid ++ now_locale ++ html_tail in
     match mail_send M transporter
             {| mail_from := sender; mail_to := recipient; mail_subject := subject;
                mail_text := Some textMessage; mail_html := Some (JStr htmlMessage);
                mail_attachments :=
                  Some [{| att_filename := fileName; att_content := attachmentBuffer;
                           att_contentType := xlsx_content_type |}] |} with
     | Some e => Throw e
     | None => Ok tt
     end)
    (fun e => Throw (ErrorObj (js "Error")
                       (js "Failed to send email: " ++ message_or (js "Unknown error") e))).

Definition sendNotificationEmail (recipient subject message isHtml : jsval) : Exc unit :=
  let isHtml := if is_undefined isHtml then JBool false else isHtml in
  catch
    (transporter <- createEmailTransporter ;;
     match mail_send M transporter
             {| mail_from := sender; mail_to := recipient; mail_subject := subject;
                mail_text := if truthy isHtml then None else Some message;
                mail_html := if truthy isHtml then Some message else None;
                mail_attachments := None |} with
     | Some e => Throw e
     | None => Ok tt
     end)
    (fun e => Throw (ErrorObj (js "Error")
                       (js "Failed to send notification: " ++ message_or (js "Unknown error") e))).

(** [{ success, message }] *)
Definition testEmailConfiguration : Exc (bool * jsstring) :=
  catch
    (transporter <- createEmailTransporter ;;
     match mail_verify M transporter with
     | Some e => Throw e
     | None => Ok (true, js "Email configuration is valid and ready to use")
     end)
    (fun e => Ok (false, js "Email configuration error: " ++ message_or (js "Unknown error") e)).

(** The [for (const recipient of recipients)] loop of [sendBulkEmails]. *)
Fixpoint send_each (recipients : list jsval) (attachmentBuffer : list Z)
  (fileName customSubject customMessage : jsval)
  (successful : list jsval) (failed : list (jsval * jsstring))
  : Exc (list jsval * list (jsval * jsstring)) :=
  match recipients with
  | [] => Ok (successful, failed)
  | recipient :: rest =>
      match sendEmailWithAttachment recipient attachmentBuffer fileName customSubject
              customMessage with
      | Ok _ => send_each rest attachmentBuffer fileName customSubject customMessage
                  (successful ++ [recipient]) failed
      | Throw e => send_each rest attachmentBuffer fileName customSubject customMessage
                     successful (failed ++ [(recipient, message_or (js "Unknown error") e)])
      | Loop => Loop
      end
  end.

(** [{ successful, failed }], [failed] as pairs [(email, error)]. *)
Definition sendBulkEmails (recipients : list jsval) (attachmentBuffer : list Z)
  (fileName customSubject customMessage : jsval)
  : Exc (list jsval * list (jsval * jsstring)) :=
  let fileName := if is_undefined fileName then JStr (js "generated.xlsx") else fileName in
  send_each recipients attachmentBuffer fileName customSubject customMessage [] [].

End Email.

(** ** Template details ([getTemplateInfo]) *)

Record sheet_info : Type := {
  si_name : jsstring;
  si_rowCount : Z;
  si_columnCount : Z;
  si_hasData : bool
}.

(** [cell.value !== null && cell.value !== undefined && cell.value !== ''] *)
Definition nonblank (v : jsval) : bool :=
  negb (is_null v) && negb (is_undefined v)
  && negb (match v with JStr [] => true | _ => false end).

Section TemplateInfo.

Variable L : library.
(** What ExcelJS reads off a loaded worksheet: [rowCount], [columnCount],
    and the values of the cells [eachRow]/[eachCell] visit. *)
Variables sheet_rowCount sheet_columnCount : worksheet -> Z.
Variable sheet_values : worksheet -> list jsval.

Definition sheet_details (ws : worksheet) : sheet_info :=
  {| si_name := ws_name ws;
     si_rowCount := sheet_rowCount ws;
     si_columnCount := sheet_columnCount ws;
     si_hasData := existsb nonblank (sheet_values ws) |}.

(** [getTemplateInfo(templateBuffer)]: [{ sheets, totalSheets }]. *)
Definition getTemplateInfo (templateBuffer : list Z) : Exc (list sheet_info * nat) :=
  wb <- lift (lib_load L templateBuffer) ;;
  let sheets := map sheet_details wb in
  Ok (sheets, List.length sheets).

End TemplateInfo.

Definition num (z : Z) : jsval := JNum (Num.of_Z z).

Definition template_info_json (info : list sheet_info * nat) : jsval :=
  JObj [(js "sheets",
         JArr (map (fun s => JObj [(js "name", JStr (si_name s));
                                   (js "rowCount", num (si_rowCount s));
                                   (js "columnCount", num (si_columnCount s));
                                   (js "hasData", JBool (si_hasData s))])
                   (fst info)));
        (js "totalSheets", num (Z.of_nat (snd info)))].

(** ** Request handlers ([src/api/controllers/excelController.ts]) *)

(** An uploaded file as multer gives it ([req.file]). *)
Record upload : Type := {
  up_buffer : list Z;
  up_originalname : jsstring;
  up_size : nat;
  up_mimetype : jsstring
}.

(** What a handler sends: [res.send(buffer)] after [res.setHeader(...)],
    or [res.status(s).json(body)] ([res.json] is status 200). *)
Inductive response : Type :=
| RSend (headers : list (jsstring * jsval)) (body : list Z)
| RJson (status : Z) (body : jsval).

(** Node's check on a header value ([ERR_INVALID_CHAR]): tab, printable
    ASCII and [\x80-\xff]. *)
Definition header_char (c : Z) : bool :=
  (c =? 9) || ((32 <=? c) && (c <=? 126)) || ((128 <=? c) && (c <=? 255)).

(** [res.setHeader(name, value)] for a string value. *)
Definition set_header (name value : jsstring) : Exc (jsstring * jsval) :=
  if forallb header_char value then Ok (name, JStr value)
  else Throw (ErrorObj (js "TypeError")
                (js "Invalid character in header content [" ++ [34] ++ name ++ [34] ++ js "]")).

Definition opt_str (o : option jsstring) : jsval :=
  match o with Some s => JStr s | None => JUndefined end.

Definition validateTemplateUtil := validateTemplate.

Module Controller.

Section Handlers.

Variable inherited : jsval -> jsstring -> jsval.
Variable L : library.
(** [generateWorkbook] called on the untyped fields of the request body
    ([jsonData], [mappingConfig], [tables], the template buffer,
    [options]); a malformed request makes it throw. *)
Variable generate : jsval -> jsval -> jsval -> option (list Z) -> jsval -> Exc (list Z).
(** The environment of the email service. *)
Variable env : jsstring -> option jsstring.
Variable M : mailer.
Variable to_string : jsval -> jsstring + jsexn.
Variables now_locale default_text html_head html_mid html_tail : jsstring.
(** Number::toString, [buffer.toString('base64')], [new Date().toISOString()]. *)
Variable number_string : Num.double -> jsstring.
Variable base64 : list Z -> jsstring.
Variable now_iso : jsstring.
Variables sheet_rowCount sheet_columnCount : worksheet -> Z.
Variable sheet_values : worksheet -> list jsval.

(** [`${Math.round(n / 1024)} KB`] *)
Definition file_size (n : nat) : jsstring :=
  number_string (math_round (Num.div (Num.of_Z (Z.of_nat n)) (Num.of_Z 1024))) ++ js " KB".

Definition field (body : list (jsstring * jsval)) (k : jsstring) : jsval :=
  get inherited (JObj body) k.

(** A destructuring default: [{ k = d } = obj]. *)
Definition default_to (v d : jsval) : jsval := if is_undefined v then d else v.

(** [generateExcel(req, res)], on the parsed body (an object) and the
    uploaded file. *)
Definition generateExcel (body : list (jsstring * jsval)) (file : option upload) : Exc response :=
  let jsonData := field body (js "jsonData") in
  let mappingConfig := field body (js "mappingConfig") in
  let tables := default_to (field body (js "tables")) (JArr []) in
  let mode := default_to (field body (js "mode")) (JStr (js "download")) in
  let emailAddress := field body (js "emailAddress") in
  let fileName := default_to (field body (js "fileName")) (JStr (js "generated.xlsx")) in
  let options := default_to (field body (js "options")) (JObj []) in
  let templateFile := match file with Some f => Some (up_buffer f) | None => None end in
  catch
    (workbookBuffer <- generate jsonData mappingConfig tables templateFile options ;;
     if is_js_string mode (js "download") then
       h1 <- set_header (js "Content-Type") xlsx_content_type ;;
       name <- lift (to_string fileName) ;;
       h2 <- set_header (js "Content-Disposition")
               (js "attachment; filename=" ++ [34] ++ name ++ [34]) ;;
       Ok (RSend [h1; h2; (js "Content-Length", num (Z.of_nat (List.length workbookBuffer)))]
                 workbookBuffer)
     else if is_js_string mode (js "email") then
       if negb (truthy emailAddress) then
         Ok (RJson 400 (JObj
           [(js "error", JStr (js "Email address required for email mode"));
            (js "message", JStr (js "Please provide a valid email address in the emailAddress field"))]))
       else
         _ <- sendEmailWithAttachment env M to_string now_locale default_text html_head
                html_mid html_tail emailAddress workbookBuffer fileName JUndefined JUndefined ;;
         Ok (RJson 200 (JObj
           [(js "success", JBool true);
            (js "message", JStr (js "Excel file generated and sent successfully"));
            (js "details", JObj
               [(js "recipient", emailAddress);
                (js "fileName", fileName);
                (js "fileSize", JStr (file_size (List.length workbookBuffer)));
                (js "timestamp", JStr now_iso)])]))
     else
       Ok (RJson 200 (JObj
         [(js "success", JBool true);
          (js "message", JStr (js "Excel file generated successfully"));
          (js "data", JObj
             [(js "fileName", fileName);
              (js "fileSize", JStr (file_size (List.length workbookBuffer)));
              (js "base64", JStr (base64 workbookBuffer))])])))
    (fun e => Ok (RJson 500 (JObj
       [(js "error", JStr (js "Failed to generate Excel file"));
        (js "message", JStr (message_or (js "Unknown error occurred") e));
        (js "timestamp", JStr now_iso)]))).

(** [req.body.mode = m] *)
Definition set_mode (body : list (jsstring * jsval)) (m : jsstring) : list (jsstring * jsval) :=
  body ++ [(js "mode", JStr m)].

Definition downloadExcel (body : list (jsstring * jsval)) (file : option upload) : Exc response :=
  generateExcel (set_mode body (js "download")) file.

Definition emailExcel (body : list (jsstring * jsval)) (file : option upload) : Exc response :=
  let body := set_mode body (js "email") in
  if negb (truthy (field body (js "emailAddress"))) then
    Ok (RJson 400 (JObj
      [(js "error", JStr (js "Email address required"));
       (js "message", JStr (js "Please provide a valid email address"))]))
  else generateExcel body file.

Definition uploadTemplate (file : option upload) : Exc response :=
  catch
    (match file with
     | None =>
         Ok (RJson 400 (JObj
           [(js "error", JStr (js "No template file provided"));
            (js "message", JStr (js "Please upload an Excel template file (.xlsx or .xls)"))]))
     | Some f =>
         validation <- validateTemplateUtil L (up_buffer f) ;;
         if negb (isValid validation) then
           Ok (RJson 400 (JObj
             [(js "error", JStr (js "Invalid template file"));
              (js "message", opt_str (error validation));
              (js "details", JStr (js "Please ensure the file is a valid Excel workbook"))]))
         else
           templateInfo <- getTemplateInfo L sheet_rowCount sheet_columnCount sheet_values
                             (up_buffer f) ;;
           Ok (RJson 200 (JObj
             [(js "success", JBool true);
              (js "message", JStr (js "Template uploaded and validated successfully"));
              (js "template", JObj
                 [(js "fileName", JStr (up_originalname f));
                  (js "fileSize", JStr (file_size (up_size f)));
                  (js "sheets", JArr (map JStr (sheets validation)));
                  (js "details", template_info_json templateInfo);
                  (js "uploadedAt", JStr now_iso)])]))
     end)
    (fun e => Ok (RJson 500 (JObj
       [(js "error", JStr (js "Failed to process template"));
        (js "message", JStr (message_or (js "Unknown error occurred") e))]))).

Definition validateTemplate (file : option upload) : Exc response :=
  catch
    (match file with
     | None =>
         Ok (RJson 400 (JObj
           [(js "error", JStr (js "No template file provided"));
            (js "message", JStr (js "Please upload an Excel template file for validation"))]))
     | Some f =>
         validation <- validateTemplateUtil L (up_buffer f) ;;
         if negb (isValid validation) then
           Ok (RJson 400 (JObj
             [(js "success", JBool false);
              (js "error", JStr (js "Template validation failed"));
              (js "message", opt_str (error validation));
              (js "details", JObj
                 [(js "fileName", JStr (up_originalname f));
                  (js "fileSize", JStr (file_size (up_size f)));
                  (js "validatedAt", JStr now_iso)])]))
         else
           templateInfo <- getTemplateInfo L sheet_rowCount sheet_columnCount sheet_values
                             (up_buffer f) ;;
           Ok (RJson 200 (JObj
             [(js "success", JBool true);
              (js "message", JStr (js "Template is valid and ready to use"));
              (js "validation", JObj
                 [(js "isValid", JBool true);
                  (js "sheets", JArr (map JStr (sheets validation)));
                  (js "details", template_info_json templateInfo);
                  (js "fileName", JStr (up_originalname f));
                  (js "fileSize", JStr (file_size (up_size f)));
                  (js "validatedAt", JStr now_iso)])]))
     end)
    (fun e => Ok (RJson 500 (JObj
       [(js "success", JBool false);
        (js "error", JStr (js "Validation failed"));
        (js "message", JStr (message_or (js "Unknown error occurred") e))]))).

End Handlers.

End Controller.

Module Info.

Section Info.

Variable env : jsstring -> option jsstring.
Variable M : mailer.
Variable now_iso : jsstring.

Definition strs (l : list string) : jsval := JArr (map (fun s => JStr (js s)) l).

(** [getExcelInfo(req, res)]; [templateId] is the optional route parameter. *)
Definition getExcelInfo (templateId : option jsstring) : Exc response :=
  catch
    (emailTest <- testEmailConfiguration env M ;;
     let info :=
       [(js "service", JStr (js "Excel Generation API"));
        (js "version", JStr (js "1.0.0"));
        (js "capabilities", JObj
           [(js "fileFormats", strs [".xlsx"; ".xls"]%string);
            (js "features", strs
               ["Flexible JSON to Excel mapping"; "Multiple sheet support";
                "Custom cell styling (colors, fonts, formatting)"; "Formula support";
                "Table creation from arrays"; "Template-based generation";
                "Download and email delivery"; "Auto-fit columns"; "Sheet protection";
                "Freeze panes"]%string);
            (js "styling", JObj
               [(js "supportedColors", JStr (js "Hex colors (6-digit format)"));
                (js "fontSizes", JStr (js "8-72 points"));
                (js "fontStyles", strs ["bold"; "italic"; "underline"]%string);
                (js "cellFormats", strs ["currency"; "percentage"; "date"; "datetime";
                                         "number"; "integer"; "custom"]%string)]);
            (js "limits", JObj
               [(js "maxFileSize", JStr (env_or env (js "MAX_FILE_SIZE") (js "10MB")));
                (js "maxSheets", JStr (js "Unlimited"));
                (js "maxCells", JStr (js "Excel limits apply"));
                (js "maxTableRows", JStr (js "Memory dependent"))])]);
        (js "emailConfiguration", JObj
           [(js "configured", JBool (fst emailTest));
            (js "status", JStr (snd emailTest))]);
        (js "endpoints", JObj
           [(js "generate", JStr (js "POST /api/excel/generate"));
            (js "download", JStr (js "POST /api/excel/download"));
            (js "email", JStr (js "POST /api/excel/email"));
            (js "uploadTemplate", JStr (js "POST /api/excel/upload-template"));
            (js "validateTemplate", JStr (js "POST /api/excel/validate-template"));
            (js "examples", JStr (js "GET /api/excel/examples"))]);
        (js "timestamp", JStr now_iso)] in
     let info :=
       match templateId with
       | Some ((_ :: _) as t) =>
           info ++ [(js "templateId", JStr t);
                    (js "message", JStr (js "Information for template: " ++ t))]
       | _ => info
       end in
     Ok (RJson 200 (JObj info)))
    (fun e => Ok (RJson 500 (JObj
       [(js "error", JStr (js "Failed to retrieve service information"));
        (js "message", JStr (message_or (js "Unknown error occurred") e))]))).

End Info.

End Info.

(** ** The server ([src/api/server.ts]) *)

Module Server.

Section Server.

Variable inherited : jsval -> jsstring -> jsval.
Variable env : jsstring -> option jsstring.

(** The [origin] option given to [cors]:
    [process.env.ALLOWED_ORIGINS?.split(',') || [...]]. *)
Definition allowed_origins : list jsstring :=
  match env (js "ALLOWED_ORIGINS") with
  | Some s => split_on 44 s
  | None => [js "http://localhost:3000"; js "http://localhost:8000"]
  end.

(** The global error handler, on the error [err] passed to [next]. *)
Definition error_handler (err : jsval) : Exc response :=
  name <- member inherited err (js "name") ;;
  if is_js_string name (js "ValidationError") then
    details <- member inherited err (js "details") ;;
    Ok (RJson 400 (JObj [(js "error", JStr (js "Validation Error")); (js "details", details)]))
  else
    code <- member inherited err (js "code") ;;
    if is_js_string code (js "LIMIT_FILE_SIZE") then
      Ok (RJson 413 (JObj
        [(js "error", JStr (js "File too large"));
         (js "maxSize", JStr (env_or env (js "MAX_FILE_SIZE") (js "10MB")))]))
    else
      message <- (match env (js "NODE_ENV") with
                  | Some v => if jsstring_eqb v (js "development")
                              then member inherited err (js "message")
                              else Ok (JStr (js "Something went wrong"))
                  | None => Ok (JStr (js "Something went wrong"))
                  end) ;;
      Ok (RJson 500 (JObj [(js "error", JStr (js "Internal Server Error"));
                           (js "message", message)])).

End Server.

End Server.

(** ** Upload middleware ([src/unnamed/part_000]) *)

Module Middleware.

(** What a middleware does: call [next()], or answer. *)
Inductive outcome : Type :=
| Next
| Respond (status : Z) (body : jsval).

Section Middleware.

Variable env : jsstring -> option jsstring.
Variable number_string : Num.double -> jsstring.

(** [parseInt(process.env.MAX_FILE_SIZE || '10485760')] *)
Definition maxSize : Num.double :=
  js_parseInt (env_or env (js "MAX_FILE_SIZE") (js "10485760")).

(** The [validateTemplate] middleware. *)
Definition validateTemplate (file : option upload) : outcome :=
  match file with
  | None =>
      Respond 400 (JObj
        [(js "error", JStr (js "Template file required"));
         (js "message", JStr (js "Please upload an Excel template file (.xlsx or .xls)"))])
  | Some f =>
      if Num.ltb maxSize (Num.of_Z (Z.of_nat (up_size f))) then
        Respond 413 (JObj
          [(js "error", JStr (js "File too large"));
           (js "message", JStr (js "File size must be less than "
              ++ number_string (math_round (Num.div (Num.div maxSize (Num.of_Z 1024))
                                                    (Num.of_Z 1024)))
              ++ js "MB"))])
      else Next
  end.

End Middleware.

End Middleware.

(** [n / 1024] for a canonical [n]: the same mantissa, the exponent lowered by 10. *)
Definition kb (n : Z) : Num.double :=
  S754_finite false (Z.to_pos (n * 2 ^ (52 - Z.log2 n))) (Z.log2 n - 62).

(** ** Concrete inputs of the service layer and the handlers *)

(** A mail transport that accepts every configuration and every message. *)
Definition sample_mailer : mailer :=
  {| mail_send := fun _ _ => None; mail_verify := fun _ => None |}.

(** A process environment with no variable set. *)
Definition empty_env : jsstring -> option jsstring := fun _ => None.

(** A process environment with the mail credentials set. *)
Definition mail_env (k : jsstring) : option jsstring :=
  if jsstring_eqb k (js "EMAIL_USER") then Some (js "api@example.com")
  else if jsstring_eqb k (js "EMAIL_PASS") then Some (js "secret")
  else None.

(** [String(v)] on the strings the samples pass. *)
Definition sample_to_string (v : jsval) : jsstring + jsexn :=
  match v with JStr s => inl s | _ => inl [] end.

(** An uploaded two-kilobyte workbook. *)
Definition sample_upload : upload :=
  {| up_buffer := js "PK"; up_originalname := js "template.xlsx"; up_size := 2048%nat;
     up_mimetype := js "application/vnd.openxmlformats-officedocument.spreadsheetml.sheet" |}.

(** A generator that returns a two-byte workbook, and one that throws. *)
Definition gen_ok (_ _ _ : jsval) (_ : option (list Z)) (_ : jsval) : Exc (list Z) := Ok (js "PK").
Definition gen_fail (_ _ _ : jsval) (_ : option (list Z)) (_ : jsval) : Exc (list Z) :=
  Throw sample_failure.

(** An environment that sets [ALLOWED_ORIGINS]. *)
Definition origins_env (k : jsstring) : option jsstring :=
  if jsstring_eqb k (js "ALLOWED_ORIGINS") then Some (js "https://a.example,https://b.example")
  else None.

(** An environment that sets [MAX_FILE_SIZE] to [s]. *)
Definition size_env (s : jsstring) (k : jsstring) : option jsstring :=
  if jsstring_eqb k (js "MAX_FILE_SIZE") then Some s else None.

(** [Number.prototype.toString] on the numbers [0], [1] and [2]. *)
Definition small_number_string (d : Num.double) : jsstring :=
  if SFeqb d (Num.of_Z 0) then js "0"
  else if SFeqb d (Num.of_Z 1) then js "1"
  else if SFeqb d (Num.of_Z 2) then js "2" else js "?".

(** * Proofs *)

(** ** Lemmas on [getNestedValue] *)

Lemma gnv_step_falsy (inh : jsval -> jsstring -> jsval) (v : jsval) (k : jsstring) :
  truthy v = false -> gnv_step inh v k = JNull.
Proof. intros H. unfold gnv_step. now rewrite H. Qed.

Lemma gnv_fold_falsy (inh : jsval -> jsstring -> jsval) (segs : list jsstring) :
  forall v, truthy v = false -> segs <> [] -> fold_left (gnv_step inh) segs v = JNull.
Proof.
  induction segs as [|k segs IH]; intros v Hv Hne; [congruence|].
  simpl. rewrite (gnv_step_falsy inh v k Hv).
  destruct segs as [|k' segs']; [reflexivity|].
  apply IH; [reflexivity|discriminate].
Qed.

Lemma gnv_step_undefined (inh : jsval -> jsstring -> jsval) (v : jsval) (k : jsstring) :
  get inh v k = JUndefined -> gnv_step inh v k = JNull.
Proof.
  intros H. unfold gnv_step. rewrite H. simpl. now rewrite andb_false_r.
Qed.

Lemma gnv_step_defined (inh : jsval -> jsstring -> jsval) (v : jsval) (k : jsstring) :
  truthy v = true -> is_undefined (get inh v k) = false ->
  gnv_step inh v k = get inh v k.
Proof. intros H1 H2. unfold gnv_step. now rewrite H1, H2. Qed.

Lemma split_on_no_sep (sep : Z) (k : jsstring) :
  ~ In sep k -> split_on sep k = [k].
Proof.
  induction k as [|c k IH]; intros Hn; [reflexivity|].
  simpl. rewrite IH by (intros H; apply Hn; now right).
  destruct (Z.eqb_spec c sep) as [->|_]; [exfalso; apply Hn; now left|reflexivity].
Qed.

Lemma gnv_fold_null (inh : jsval -> jsstring -> jsval) (segs : list jsstring) :
  fold_left (gnv_step inh) segs JNull = JNull.
Proof.
  destruct segs as [|k segs]; [reflexivity|].
  apply gnv_fold_falsy; [reflexivity|discriminate].
Qed.

(** ** C9: a falsy intermediate value makes the result [null] *)

(** C9 (counterexample): [toString] is absent from the document [{}], yet
    [getNestedValue({}, "toString")] yields the inherited
    [Object.prototype.toString], while the document
    [{"toString": null}] resolves to [null]: a present [null] and a missing
    field are distinguishable when the field is named after an inherited
    member. *)
Lemma getNestedValue_missing_inherited :
  getNestedValue object_host (JObj []) (js "toString")
    = JHost (js "Object.prototype.toString")
  /\ getNestedValue object_host (JObj [(js "toString", JNull)]) (js "toString") = JNull.
Proof. split; reflexivity. Qed.

(** C9 (amended): once the value reached after some leading segments of the
    path is falsy and segments remain, [getNestedValue] yields [null]
    whatever they are; at any depth, a field present with value [null]
    resolves to [null], and so does a field absent from its object that the
    object does not inherit; a field absent from its object but inherited
    (such as [toString]) resolves to the inherited member. *)
Theorem getNestedValue_falsy_prefix :
  (forall (inh : jsval -> jsstring -> jsval) obj path pre post,
      split_on 46 path = pre ++ post -> post <> [] ->
      truthy (fold_left (gnv_step inh) pre obj) = false ->
      getNestedValue inh obj path = JNull)
  /\ (forall (inh : jsval -> jsstring -> jsval) obj path pre k post props,
      split_on 46 path = pre ++ k :: post ->
      fold_left (gnv_step inh) pre obj = JObj props ->
      (assoc_last k props = Some JNull
       \/ (assoc_last k props = None /\ inh (JObj props) k = JUndefined)) ->
      getNestedValue inh obj path = JNull)
  /\ (forall (inh : jsval -> jsstring -> jsval) obj path pre k props w,
      split_on 46 path = pre ++ [k] ->
      fold_left (gnv_step inh) pre obj = JObj props ->
      assoc_last k props = None -> inh (JObj props) k = w -> is_undefined w = false ->
      getNestedValue inh obj path = w).
Proof.
  split; [|split].
  - intros inh obj path pre post Hs Hne Hf.
    unfold getNestedValue. rewrite Hs, fold_left_app.
    now apply gnv_fold_falsy.
  - intros inh obj path pre k post props Hs Hf H.
    unfold getNestedValue. rewrite Hs, fold_left_app, Hf. simpl.
    replace (gnv_step inh (JObj props) k) with JNull; [apply gnv_fold_null|].
    destruct H as [H | [H1 H2]].
    + unfold gnv_step. simpl. now rewrite H.
    + symmetry. apply gnv_step_undefined. simpl. now rewrite H1.
  - intros inh obj path pre k props w Hs Hf Hn Hw Hu.
    unfold getNestedValue. rewrite Hs, fold_left_app, Hf. simpl.
    unfold gnv_step. simpl. rewrite Hn, Hw, Hu. reflexivity.
Qed.

Lemma getNestedValue_falsy_prefix_witness :
  getNestedValue object_host
    (JObj [(js "a", JNum (Num.of_Z 0))]) (js "a.b.c") = JNull
  /\ getNestedValue object_host (JObj [(js "u", JObj [(js "x", JNull)])]) (js "u.x") = JNull
  /\ getNestedValue object_host (JObj [(js "u", JObj [])]) (js "u.x.y") = JNull
  /\ getNestedValue object_host (JObj [(js "u", JObj [])]) (js "u.toString")
     = JHost (js "Object.prototype.toString").
Proof.
  split; [|split; [|split]].
  - apply (proj1 getNestedValue_falsy_prefix object_host
             (JObj [(js "a", JNum (Num.of_Z 0))]) (js "a.b.c")
             [js "a"] [js "b"; js "c"]);
      [vm_compute; reflexivity | discriminate | vm_compute; reflexivity].
  - apply (proj1 (proj2 getNestedValue_falsy_prefix) object_host
             (JObj [(js "u", JObj [(js "x", JNull)])]) (js "u.x") [js "u"] (js "x") []
             [(js "x", JNull)]); [reflexivity|reflexivity|].
    left. reflexivity.
  - apply (proj1 (proj2 getNestedValue_falsy_prefix) object_host
             (JObj [(js "u", JObj [])]) (js "u.x.y") [js "u"] (js "x") [js "y"] []);
      [reflexivity|reflexivity|].
    right. split; reflexivity.
  - apply (proj2 (proj2 getNestedValue_falsy_prefix) object_host
             (JObj [(js "u", JObj [])]) (js "u.toString") [js "u"] (js "toString") []);
      reflexivity.
Defined.

(** ** C2: dotted-path resolution *)

(** C2 (counterexample): the segment [length] is not a field of the JSON
    string ["John"], yet resolving [name.length] against
    [{"name":"John"}] yields [4], not [null]: JS property access finds the
    string's own [length]. *)
Lemma getNestedValue_string_length :
  getNestedValue object_host (JObj [(js "name", JStr (js "John"))]) (js "name.length")
    = JNum (Num.of_Z 4)
  /\ getNestedValue object_host (JObj [(js "name", JStr (js "John"))]) (js "name.length")
    <> JNull.
Proof. split; [reflexivity | discriminate]. Qed.

(** C2 (amended): the path is split on ['.'] and each step moves to
    [current[key]]; as soon as that JS lookup yields [undefined] (a key that
    is neither an own property nor inherited from the built-in prototypes),
    or a value reached before the last segment is falsy, the result is
    [null]; [a.b] against [{"a":{"b":5}}] yields [5], and [a.c] yields
    [null] (no built-in member is named [c]). *)
Theorem getNestedValue_resolution :
  (forall (inh : jsval -> jsstring -> jsval) obj path pre k post,
      split_on 46 path = pre ++ k :: post ->
      get inh (fold_left (gnv_step inh) pre obj) k = JUndefined ->
      getNestedValue inh obj path = JNull)
  /\ (forall (inh : jsval -> jsstring -> jsval) obj path pre post,
      split_on 46 path = pre ++ post -> post <> [] ->
      truthy (fold_left (gnv_step inh) pre obj) = false ->
      getNestedValue inh obj path = JNull)
  /\ (forall (inh : jsval -> jsstring -> jsval) v k,
      truthy v = true -> is_undefined (get inh v k) = false ->
      gnv_step inh v k = get inh v k)
  /\ (forall inh : jsval -> jsstring -> jsval,
      getNestedValue inh (JObj [(js "a", JObj [(js "b", JNum (Num.of_Z 5))])]) (js "a.b")
        = JNum (Num.of_Z 5))
  /\ (forall inh : jsval -> jsstring -> jsval,
      inh (JObj [(js "b", JNum (Num.of_Z 5))]) (js "c") = JUndefined ->
      getNestedValue inh (JObj [(js "a", JObj [(js "b", JNum (Num.of_Z 5))])]) (js "a.c")
        = JNull).
Proof.
  split; [|split; [|split; [|split]]].
  - intros inh obj path pre k post Hs Hu.
    unfold getNestedValue. rewrite Hs, fold_left_app. simpl.
    rewrite (gnv_step_undefined inh _ k Hu).
    apply gnv_fold_null.
  - intros inh obj path pre post Hs Hne Hf.
    unfold getNestedValue. rewrite Hs, fold_left_app.
    now apply gnv_fold_falsy.
  - apply gnv_step_defined.
  - intros inh. reflexivity.
  - intros inh H. unfold getNestedValue.
    replace (split_on 46 (js "a.c")) with [js "a"; js "c"] by reflexivity.
    cbn [fold_left].
    replace (gnv_step inh (JObj [(js "a", JObj [(js "b", JNum (Num.of_Z 5))])]) (js "a"))
      with (JObj [(js "b", JNum (Num.of_Z 5))]) by reflexivity.
    apply gnv_step_undefined. exact H.
Qed.

Lemma getNestedValue_resolution_witness :
  getNestedValue object_host
    (JObj [(js "a", JObj [(js "b", JNum (Num.of_Z 5))])]) (js "a.c") = JNull
  /\ getNestedValue object_host (JObj [(js "a", JObj [])]) (js "a.c.d") = JNull
  /\ getNestedValue object_host (JObj [(js "a", JNum (Num.of_Z 0))]) (js "a.toString") = JNull
  /\ gnv_step object_host (JObj [(js "a", JBool true)]) (js "a") = JBool true.
Proof.
  split; [|split; [|split]].
  - apply (proj2 (proj2 (proj2 (proj2 getNestedValue_resolution))) object_host).
    reflexivity.
  - apply (proj1 getNestedValue_resolution object_host
             (JObj [(js "a", JObj [])]) (js "a.c.d") [js "a"] (js "c") [js "d"]);
      reflexivity.
  - apply (proj1 (proj2 getNestedValue_resolution) object_host
             (JObj [(js "a", JNum (Num.of_Z 0))]) (js "a.toString") [js "a"] [js "toString"]);
      [reflexivity|discriminate|vm_compute; reflexivity].
  - apply (proj1 (proj2 (proj2 getNestedValue_resolution))); reflexivity.
Defined.

(** ** Lemmas on worksheets and the mapping loop *)

Lemma cell_at_push (o : cell_op) (ws : worksheet) (a : addr) :
  cell_at (push o ws) a =
  if addr_eqb (op_addr o) a then apply_op (cell_at ws a) o else cell_at ws a.
Proof. unfold cell_at, push. simpl. now rewrite fold_left_app. Qed.





Lemma dbl_key_eqb_refl (x : Num.double) : dbl_key_eqb x x = true.
Proof.
  destruct x as [s|s| |s m e]; simpl; try reflexivity.
  - now destruct s.
  - rewrite Pos.eqb_refl, Z.eqb_refl. now destruct s.
Qed.

Lemma addr_eqb_refl (a : addr) : addr_eqb a a = true.
Proof. unfold addr_eqb. now rewrite !dbl_key_eqb_refl. Qed.

Lemma jsstring_eqb_refl (s : jsstring) : jsstring_eqb s s = true.
Proof. induction s; simpl; [reflexivity|]. now rewrite Z.eqb_refl. Qed.





Lemma applyCellFormat_name (tl : jsstring -> jsstring) (a : addr) (f : option jsstring)
  (ws : worksheet) : ws_name (applyCellFormat tl a f ws) = ws_name ws.
Proof.
  unfold applyCellFormat. destruct f as [f|]; [|reflexivity].
  destruct (str_truthy (Some f)); reflexivity.
Qed.


(** ** C1: the value written by a mapping *)




(** ** C6: bulk generation *)

Lemma bind_ok {A B : Type} (m : Exc A) (k : A -> Exc B) (x : B) :
  bind m k = Ok x -> exists a, m = Ok a /\ k a = Ok x.
Proof. destruct m; simpl; [eauto|discriminate|discriminate]. Qed.

Lemma bulk_item_index (inh : jsval -> jsstring -> jsval)
  (gen : jsval -> jsval -> jsval -> jsval -> Exc (list Z)) (i : nat) (r : jsval)
  (x : bulk_result) :
  bulk_item inh gen i r = Ok x -> br_index x = i.
Proof.
  unfold bulk_item. intros H.
  repeat (apply bind_ok in H; destruct H as [? [_ H]]).
  injection H as <-. reflexivity.
Qed.

Lemma sorted_cons_lt (i : nat) (l : list nat) :
  Forall (le (S i)) l -> Sorted lt l -> Sorted lt (i :: l).
Proof.
  intros Hf Hs. constructor; [exact Hs|].
  destruct l as [|j l]; constructor. inversion Hf. lia.
Qed.

Lemma bulk_loop_spec (inh : jsval -> jsstring -> jsval)
  (gen : jsval -> jsval -> jsval -> jsval -> Exc (list Z)) (requests : list jsval) :
  forall i res errs,
  (forall k r, nth_error requests k = Some r -> bulk_item inh gen (i + k) r <> Loop) ->
  exists R E,
    bulk_loop inh gen i requests res errs = Ok (res ++ R, errs ++ E)
    /\ (List.length R + List.length E = List.length requests)%nat
    /\ (forall k r, nth_error requests k = Some r ->
          (forall x, bulk_item inh gen (i + k) r = Ok x -> In x R)
          /\ (forall e, bulk_item inh gen (i + k) r = Throw e -> In (bulk_entry (i + k) e) E))
    /\ Forall (le i) (map br_index R) /\ Sorted lt (map br_index R)
    /\ Forall (le i) (map be_index E) /\ Sorted lt (map be_index E).
Proof.
  induction requests as [|r rest IH]; intros i res errs Hnl.
  - exists [], []. rewrite !app_nil_r.
    split; [reflexivity|]. split; [reflexivity|].
    split; [intros k r' H; destruct k; discriminate|].
    repeat split; constructor.
  - assert (Hr : bulk_item inh gen i r <> Loop)
      by (specialize (Hnl 0%nat r eq_refl); now rewrite Nat.add_0_r in Hnl).
    assert (Hrest : forall k r', nth_error rest k = Some r' ->
                      bulk_item inh gen (S i + k) r' <> Loop)
      by (intros k r' Hk; specialize (Hnl (S k) r' Hk);
          now rewrite Nat.add_succ_r in Hnl).
    simpl. destruct (bulk_item inh gen i r) as [x|e|] eqn:Ei; [| |congruence].
    + destruct (IH (S i) (res ++ [x]) errs Hrest)
        as [R [E [H1 [H2 [H3 [H4 [H5 [H6 H7]]]]]]]].
      exists (x :: R), E. rewrite H1, <- app_assoc. split; [reflexivity|].
      split; [simpl; lia|].
      split; [|split; [|split; [|split]]].
      * intros [|k] r' Hk; simpl in Hk.
        -- injection Hk as <-. rewrite Nat.add_0_r, Ei.
           split; [intros y Hy; injection Hy as <-; now left|discriminate].
        -- rewrite Nat.add_succ_r. destruct (H3 k r' Hk) as [Ha Hb].
           split; [intros y Hy; right; now apply Ha|intros e' He; now apply Hb].
      * simpl. constructor; [rewrite (bulk_item_index _ _ _ _ _ Ei); lia|].
        eapply Forall_impl; [|exact H4]. intros a Ha; lia.
      * simpl. rewrite (bulk_item_index _ _ _ _ _ Ei). now apply sorted_cons_lt.
      * eapply Forall_impl; [|exact H6]. intros a Ha; lia.
      * exact H7.
    + destruct (IH (S i) res (errs ++ [bulk_entry i e]) Hrest)
        as [R [E [H1 [H2 [H3 [H4 [H5 [H6 H7]]]]]]]].
      exists R, (bulk_entry i e :: E). fold (bulk_entry i e). rewrite H1, <- app_assoc. split; [reflexivity|].
      split; [simpl; lia|].
      split; [|split; [|split; [|split]]].
      * intros [|k] r' Hk; simpl in Hk.
        -- injection Hk as <-. rewrite Nat.add_0_r, Ei.
           split; [discriminate|intros e' He; injection He as <-; now left].
        -- rewrite Nat.add_succ_r. destruct (H3 k r' Hk) as [Ha Hb].
           split; [intros y Hy; now apply Ha|intros e' He; right; now apply Hb].
      * eapply Forall_impl; [|exact H4]. intros a Ha; lia.
      * exact H5.
      * simpl. constructor; [simpl; lia|].
        eapply Forall_impl; [|exact H6]. intros a Ha; lia.
      * simpl. now apply sorted_cons_lt.
Qed.

Lemma bulkGenerate_requests (inh : jsval -> jsstring -> jsval)
  (gen : jsval -> jsval -> jsval -> jsval -> Exc (list Z)) (requests : list jsval) :
  requests <> [] ->
  bulkGenerate inh gen (JObj [(js "requests", JArr requests)]) =
  catch (acc <- bulk_loop inh gen 0 requests [] [] ;;
         Ok (BulkDone (fst acc) (snd acc)))
        (fun e => Ok (BulkFailed (message_or (js "Unknown error occurred") e))).
Proof.
  intros Hne. unfold bulkGenerate. simpl.
  destruct requests as [|r rest]; [congruence|reflexivity].
Qed.

(** C6: the bulk loop visits the requests one after the other in index
    order. Every request is accounted for exactly once: a request whose
    generation ends normally contributes its result, one whose generation
    throws contributes an error entry carrying its index, and the batch goes
    on after it; the indices of both lists increase. With three requests of
    which the one at index 1 throws, the response holds two results and one
    error, whose index is 1. *)
Theorem bulkGenerate_per_item :
  (forall (inh : jsval -> jsstring -> jsval)
          (gen : jsval -> jsval -> jsval -> jsval -> Exc (list Z))
          (requests : list jsval),
     requests <> [] ->
     (forall k r, nth_error requests k = Some r -> bulk_item inh gen k r <> Loop) ->
     exists results errors,
       bulkGenerate inh gen (JObj [(js "requests", JArr requests)])
         = Ok (BulkDone results errors)
       /\ (List.length results + List.length errors = List.length requests)%nat
       /\ (forall k r, nth_error requests k = Some r ->
             (forall x, bulk_item inh gen k r = Ok x -> In x results)
             /\ (forall e, bulk_item inh gen k r = Throw e -> In (bulk_entry k e) errors))
       /\ Sorted lt (map br_index results) /\ Sorted lt (map be_index errors))
  /\ (forall (inh : jsval -> jsstring -> jsval)
             (gen : jsval -> jsval -> jsval -> jsval -> Exc (list Z))
             (r0 r1 r2 : jsval) (x0 x2 : bulk_result) (e1 : jsexn),
        bulk_item inh gen 0 r0 = Ok x0 ->
        bulk_item inh gen 1 r1 = Throw e1 ->
        bulk_item inh gen 2 r2 = Ok x2 ->
        exists results errors,
          bulkGenerate inh gen (JObj [(js "requests", JArr [r0; r1; r2])])
            = Ok (BulkDone results errors)
          /\ List.length results = 2%nat /\ List.length errors = 1%nat
          /\ map be_index errors = [1%nat]).
Proof.
  split.
  - intros inh gen requests Hne Hnl.
    destruct (bulk_loop_spec inh gen requests 0 [] [] Hnl)
      as [R [E [H1 [H2 [H3 [_ [H5 [_ H7]]]]]]]].
    exists R, E. rewrite (bulkGenerate_requests _ _ _ Hne), H1. simpl.
    split; [reflexivity|]. split; [exact H2|]. split; [exact H3|]. now split.
  - intros inh gen r0 r1 r2 x0 x2 e1 E0 E1 E2.
    rewrite bulkGenerate_requests by discriminate.
    simpl. rewrite E0. simpl. rewrite E1. simpl. rewrite E2. simpl.
    eexists _, _. split; [reflexivity|]. now repeat split.
Qed.

Lemma bulkGenerate_per_item_witness :
  (exists results errors,
     bulkGenerate object_host sample_generate
       (JObj [(js "requests", JArr sample_requests)]) = Ok (BulkDone results errors)
     /\ (List.length results + List.length errors = 3)%nat)
  /\ (exists results errors,
        bulkGenerate object_host sample_generate
          (JObj [(js "requests", JArr sample_requests)]) = Ok (BulkDone results errors)
        /\ List.length results = 2%nat /\ List.length errors = 1%nat
        /\ map be_index errors = [1%nat]).
Proof.
  split.
  - destruct (proj1 bulkGenerate_per_item object_host sample_generate sample_requests)
      as [res [errs [H1 [H2 _]]]].
    + discriminate.
    + intros k r H. destruct k as [|[|[|k]]]; simpl in H;
        try (injection H as <-; vm_compute; discriminate).
      destruct k; discriminate.
    + exists res, errs. split; [exact H1|exact H2].
  - apply (proj2 bulkGenerate_per_item object_host sample_generate
             sample_request_ok sample_request_bad sample_request_ok
             (sample_result 0) (sample_result 2) sample_failure);
      vm_compute; reflexivity.
Defined.

(** ** C8: the failure of a generation *)

(** C8: [generateWorkbook] returns a buffer exactly when every stage (the
    template load or the default sheet, each mapping, each table, the
    serialisation) ends normally, and that buffer is the serialisation of the
    final workbook; when any stage throws [e], the call throws one [Error]
    whose message is ["Failed to generate Excel workbook: "] followed by the
    message of [e] (["Unknown error"] when [e] is not an [Error]). *)
Theorem generateWorkbook_failure
  (inh : jsval -> jsstring -> jsval) (toLower : jsstring -> jsstring) (L : library)
  (jsonData : jsval) (mappingConfig : list MappingConfig)
  (tableConfigs : list TableConfig) (templateBuffer : option (list Z))
  (options : ExcelOptions) :
  (forall b,
     generateWorkbook inh toLower L jsonData mappingConfig tableConfigs
       templateBuffer options = Ok b
     <-> exists wb0 wb1 wb2,
           match templateBuffer with
           | Some buf => lift (lib_load L buf)
           | None => ensure_sheet L [] (js "Sheet1")
           end = Ok wb0
           /\ fold_m (apply_mapping inh toLower L jsonData) mappingConfig wb0 = Ok wb1
           /\ fold_m (apply_table inh L jsonData) tableConfigs wb1 = Ok wb2
           /\ lib_write_buffer L (map (apply_options options) wb2) = inl b)
  /\ (forall e,
        generate_body inh toLower L jsonData mappingConfig tableConfigs
          templateBuffer options = Throw e ->
        generateWorkbook inh toLower L jsonData mappingConfig tableConfigs
          templateBuffer options
        = Throw (ErrorObj (js "Error")
                   (js "Failed to generate Excel workbook: "
                    ++ message_or (js "Unknown error") e)))
  /\ (forall e, generateWorkbook inh toLower L jsonData mappingConfig tableConfigs
                  templateBuffer options = Throw e ->
                exists e0, e = generation_failure e0).
Proof.
  unfold generateWorkbook. split; [|split].
  - intros b. split.
    + destruct (generate_body _ _ _ _ _ _ _ _) eqn:Eb; simpl;
        [intros H; injection H as <-|discriminate|discriminate].
      unfold generate_body in Eb.
      apply bind_ok in Eb. destruct Eb as [wb0 [E0 Eb]].
      apply bind_ok in Eb. destruct Eb as [wb1 [E1 Eb]].
      apply bind_ok in Eb. destruct Eb as [wb2 [E2 Eb]].
      exists wb0, wb1, wb2. split; [exact E0|]. split; [exact E1|].
      split; [exact E2|].
      destruct (lib_write_buffer L _); simpl in Eb; congruence.
    + intros [wb0 [wb1 [wb2 [E0 [E1 [E2 E3]]]]]].
      unfold generate_body. rewrite E0. simpl. rewrite E1. simpl. rewrite E2.
      simpl. rewrite E3. reflexivity.
  - intros e He. rewrite He. reflexivity.
  - intros e. destruct (generate_body _ _ _ _ _ _ _ _); simpl; try discriminate.
    intros H. injection H as <-. eauto.
Qed.

Lemma generateWorkbook_failure_witness :
  generate_body object_host (fun s => s) sample_library (JObj []) [] []
    (Some []) no_options
  = Throw (ErrorObj (js "Error")
             (js "Can't find end of central directory : is this a zip file ?"))
  /\ generateWorkbook object_host (fun s => s) sample_library (JObj []) [] []
       (Some []) no_options
     = Throw (ErrorObj (js "Error")
                (js "Failed to generate Excel workbook: "
                 ++ js "Can't find end of central directory : is this a zip file ?")).
Proof.
  split; [reflexivity|].
  apply (proj1 (proj2 (generateWorkbook_failure object_host (fun s => s)
                          sample_library (JObj []) [] [] (Some []) no_options))
           (ErrorObj (js "Error")
              (js "Can't find end of central directory : is this a zip file ?"))).
  reflexivity.
Defined.

(** ** C7: the template inspector *)

(** C7: [validateTemplate] never throws. When the library loads the buffer
    it reports a valid template and the names of its sheets, in order; when
    the load throws it reports an invalid template, no sheets and the
    message of the error, which is non-empty whenever the library's errors
    carry a non-empty message (and ["Invalid template file"] when the thrown
    value is not an [Error]). *)
Theorem validateTemplate_total (L : library) (buf : list Z) :
  (exists v, validateTemplate L buf = Ok v)
  /\ (forall wb, lib_load L buf = inl wb ->
        validateTemplate L buf
        = Ok {| isValid := true; sheets := map ws_name wb; error := None |})
  /\ (forall e, lib_load L buf = inr e ->
        (forall n m, e = ErrorObj n m -> m <> []) ->
        exists msg, validateTemplate L buf
                    = Ok {| isValid := false; sheets := []; error := Some msg |}
                    /\ msg <> []).
Proof.
  unfold validateTemplate. split; [|split].
  - destruct (lib_load L buf); simpl; eauto.
  - intros wb H. rewrite H. reflexivity.
  - intros e H Hm. rewrite H. simpl.
    eexists. split; [reflexivity|].
    destruct e as [n m|v]; simpl; [exact (Hm n m eq_refl)|discriminate].
Qed.

Lemma validateTemplate_total_witness :
  (exists msg, validateTemplate sample_library []
               = Ok {| isValid := false; sheets := []; error := Some msg |}
               /\ msg <> [])
  /\ validateTemplate sample_library [80; 75]
     = Ok {| isValid := true; sheets := [js "Sheet1"]; error := None |}.
Proof.
  split.
  - exact (proj2 (proj2 (validateTemplate_total sample_library []))
              (ErrorObj (js "Error")
                 (js "Can't find end of central directory : is this a zip file ?"))
              eq_refl ltac:(intros n m H; injection H as _ <-; discriminate)).
  - exact (proj1 (proj2 (validateTemplate_total sample_library [80; 75]))
              [new_worksheet (js "Sheet1")] eq_refl).
Defined.

(** ** C10: a null row *)

(** C10: with [tableData = [null]] and the column list [["P"]], the row
    [null] is handled as an object row, reading [null["P"]] throws a
    [TypeError], and [generateWorkbook] fails as a whole: it returns no
    buffer and throws the wrapped message. *)
Theorem generateWorkbook_null_row :
  createTable object_host sample_library (new_worksheet (js "Sheet1"))
    sample_table_P (JArr [JNull])
  = Throw (ErrorObj (js "TypeError") (js "Cannot read properties of null (reading 'P')"))
  /\ generateWorkbook object_host (fun s => s) sample_library
       (JObj [(js "tableData", JArr [JNull])]) [] [sample_table_P] None no_options
     = Throw (ErrorObj (js "Error")
                (js "Failed to generate Excel workbook: "
                 ++ js "Cannot read properties of null (reading 'P')"))
  /\ (forall b, generateWorkbook object_host (fun s => s) sample_library
                  (JObj [(js "tableData", JArr [JNull])]) [] [sample_table_P] None
                  no_options <> Ok b).
Proof.
  split; [vm_compute; reflexivity|].
  split; [vm_compute; reflexivity|].
  intros b. vm_compute. discriminate.
Qed.

(** ** Column letters and numbers *)
Lemma digits2_log2 (p : positive) : Zpos (digits2_pos p) = Z.log2 (Zpos p) + 1.
Proof.
  induction p as [p IH|p IH|]; simpl digits2_pos; [| |reflexivity].
  - rewrite Pos2Z.inj_succ, IH, Pos2Z.inj_xI, Z.log2_succ_double by lia. lia.
  - rewrite Pos2Z.inj_succ, IH, Pos2Z.inj_xO, Z.log2_double by lia. lia.
Qed.

Lemma Zdigits2_log2 (z : Z) : 0 < z -> Zdigits2 z = Z.log2 z + 1.
Proof. destruct z as [|p|p]; intros H; try lia. apply digits2_log2. Qed.

Lemma iter_pos_nat {A : Type} (f : A -> A) (p : positive) (x : A) :
  iter_pos f p x = Nat.iter (Pos.to_nat p) f x.
Proof.
  revert x. induction p as [p IH|p IH|]; intros x.
  - rewrite Pos2Nat.inj_xI. change (iter_pos f p~1 x) with (iter_pos f p (iter_pos f p (f x))).
    rewrite IH, IH, <- Nat.iter_add, <- Nat.iter_succ_r. f_equal. lia.
  - rewrite Pos2Nat.inj_xO. change (iter_pos f p~0 x) with (iter_pos f p (iter_pos f p x)).
    rewrite IH, IH, <- Nat.iter_add. f_equal. lia.
  - reflexivity.
Qed.

Lemma shr_nonneg (mrs : shr_record) (e n : Z) :
  0 <= n -> shr mrs e n = (Nat.iter (Z.to_nat n) shr_1 mrs, e + n).
Proof.
  intros H. destruct n as [|p|p]; [|unfold shr; now rewrite iter_pos_nat|lia].
  simpl. now rewrite Z.add_0_r.
Qed.

Lemma shr_iter_exact (k : nat) (m : Z) :
  0 <= m -> m mod 2 ^ Z.of_nat k = 0 ->
  Nat.iter k shr_1 {| shr_m := m; shr_r := false; shr_s := false |}
  = {| shr_m := m / 2 ^ Z.of_nat k; shr_r := false; shr_s := false |}.
Proof.
  revert m. induction k as [|k IH]; intros m Hm Hmod.
  - simpl. now rewrite Z.div_1_r.
  - apply Z.mod_divide in Hmod; [|apply Z.pow_nonzero; lia].
    destruct Hmod as [t Ht].
    rewrite Nat2Z.inj_succ, Z.pow_succ_r in Ht by lia.
    simpl Nat.iter. rewrite IH.
    + rewrite Nat2Z.inj_succ, Z.pow_succ_r by lia.
      assert (E1 : m / 2 ^ Z.of_nat k = 2 * t).
      { rewrite Ht. replace (t * (2 * 2 ^ Z.of_nat k)) with ((2 * t) * 2 ^ Z.of_nat k) by ring.
        apply Z.div_mul. apply Z.pow_nonzero; lia. }
      assert (E2 : m / (2 * 2 ^ Z.of_nat k) = t).
      { rewrite Ht. apply Z.div_mul. pose proof (Z.pow_pos_nonneg 2 (Z.of_nat k)). lia. }
      rewrite E1, E2.
      assert (Ht0 : 0 <= t).
      { pose proof (Z.pow_pos_nonneg 2 (Z.of_nat k)). nia. }
      destruct t as [|p|p]; [reflexivity|reflexivity|lia].
    + exact Hm.
    + rewrite Ht. replace (t * (2 * 2 ^ Z.of_nat k)) with ((2 * t) * 2 ^ Z.of_nat k) by ring.
      apply Z.mod_mul. apply Z.pow_nonzero; lia.
Qed.

Lemma fexp_val (x : Z) : -1021 <= x -> fexp 53 1024 x = x - 53.
Proof. intros H. unfold fexp, emin. lia. Qed.

Lemma aux_exact (s : bool) (m e : Z) (M : positive) (k : Z) :
  0 <= k -> m = Zpos M * 2 ^ k ->
  -1021 <= Z.log2 m + 1 + e -> Z.log2 m + 1 + e - 53 = e + k -> e + k <= 971 ->
  binary_round_aux 53 1024 s m e loc_Exact = S754_finite s M (e + k).
Proof.
  intros Hk Hm Hlo Hf Hmax.
  assert (Hpk : 0 < 2 ^ k) by (apply Z.pow_pos_nonneg; lia).
  assert (Hm0 : 0 < m) by (rewrite Hm; nia).
  assert (HlogM : Z.log2 m = k + Z.log2 (Zpos M)) by (rewrite Hm; apply Z.log2_mul_pow2; lia).
  pose proof (Z.log2_nonneg (Zpos M)).
  unfold binary_round_aux, shr_fexp.
  rewrite Zdigits2_log2 by exact Hm0.
  rewrite fexp_val by lia.
  replace (Z.log2 m + 1 + e - 53 - e) with k by lia.
  simpl shr_record_of_loc.
  rewrite shr_nonneg by lia.
  rewrite shr_iter_exact by (rewrite ?Z2Nat.id by lia; try lia; rewrite Hm; apply Z.mod_mul; lia).
  rewrite Z2Nat.id by lia.
  replace (m / 2 ^ k) with (Zpos M) by (rewrite Hm; symmetry; apply Z.div_mul; lia).
  simpl loc_of_shr_record. simpl round_nearest_even.
  rewrite Zdigits2_log2 by lia.
  rewrite fexp_val by lia.
  replace (Z.log2 (Zpos M) + 1 + (e + k) - 53 - (e + k)) with 0 by lia.
  simpl shr. cbn [shr_m]. destruct (Z.leb_spec (e + k) (1024 - 53)); [reflexivity|lia].
Qed.

Lemma Pos_iter_xO (p d : positive) : Zpos (Pos.iter xO p d) = Zpos p * 2 ^ Zpos d.
Proof.
  induction d as [|d IH] using Pos.peano_ind.
  - simpl. lia.
  - rewrite Pos.iter_succ, Pos2Z.inj_xO, IH, Pos2Z.inj_succ, Z.pow_succ_r by lia. ring.
Qed.

Lemma shl_align_fst (m : positive) (e e' : Z) :
  e' <= e -> Zpos (fst (shl_align m e e')) = Zpos m * 2 ^ (e - e').
Proof.
  intros H. unfold shl_align.
  destruct (e' - e) as [|d|d] eqn:Ed.
  - simpl. replace (e - e') with 0 by lia. rewrite Z.pow_0_r. lia.
  - lia.
  - simpl. rewrite Pos_iter_xO. replace (e - e') with (Zpos d) by lia. reflexivity.
Qed.

Lemma round_int (s : bool) (N ex : Z) (mx : positive) :
  0 < N < 2 ^ 53 -> ex <= 0 -> Zpos mx = N * 2 ^ (- ex) ->
  binary_round 53 1024 s mx ex
  = S754_finite s (Z.to_pos (N * 2 ^ (52 - Z.log2 N))) (Z.log2 N - 52).
Proof.
  intros HN Hex Hmx.
  assert (HlN : Z.log2 N < 53) by (apply Z.log2_lt_pow2; lia).
  pose proof (Z.log2_nonneg N).
  assert (Hlmx : Z.log2 (Zpos mx) = - ex + Z.log2 N)
    by (rewrite Hmx; apply Z.log2_mul_pow2; lia).
  assert (HM : Zpos (Z.to_pos (N * 2 ^ (52 - Z.log2 N))) = N * 2 ^ (52 - Z.log2 N))
    by (apply Z2Pos.id; pose proof (Z.pow_pos_nonneg 2 (52 - Z.log2 N)); nia).
  unfold binary_round.
  rewrite digits2_log2, fexp_val by lia.
  replace (Z.log2 (Zpos mx) + 1 + ex - 53) with (Z.log2 N - 52) by lia.
  unfold shl_align.
  destruct (Z.log2 N - 52 - ex) as [|d|d] eqn:Ed.
  - replace (Z.log2 N - 52) with (ex + 0) by lia.
    apply aux_exact; try lia.
    rewrite Hmx, HM, Z.pow_0_r, Z.mul_1_r. f_equal. f_equal. lia.
  - replace (Z.log2 N - 52) with (ex + Zpos d) by lia.
    apply aux_exact; try lia.
    rewrite Hmx, HM, Z.mul_comm, <- Z.mul_assoc, <- Z.pow_add_r by lia.
    rewrite Z.mul_comm. f_equal. f_equal. lia.
  - replace (Z.log2 N - 52) with ((Z.log2 N - 52) + 0) at 2 by lia.
    apply aux_exact; try lia.
    + rewrite Pos_iter_xO, Hmx, HM, <- Z.mul_assoc, <- Z.pow_add_r by lia.
      rewrite Z.mul_1_r. f_equal. f_equal. lia.
    + rewrite Pos_iter_xO, Hmx, <- Z.mul_assoc, <- Z.pow_add_r by lia.
      rewrite Z.log2_mul_pow2 by lia. lia.
    + rewrite Pos_iter_xO, Hmx, <- Z.mul_assoc, <- Z.pow_add_r by lia.
      rewrite Z.log2_mul_pow2 by lia. lia.
Qed.

Lemma normalize_int (z e N : Z) (b : bool) :
  0 < N < 2 ^ 53 -> e <= 0 -> z = N * 2 ^ (- e) ->
  binary_normalize 53 1024 z e b = canon N.
Proof.
  intros HN He Hz.
  assert (0 < z) by (rewrite Hz; pose proof (Z.pow_pos_nonneg 2 (- e)); nia).
  destruct z as [|p|p]; try lia.
  apply round_int; assumption.
Qed.

Lemma of_Z_canon (N : Z) : 0 < N < 2 ^ 53 -> Num.of_Z N = canon N.
Proof. intros H. apply normalize_int; [exact H|lia|]. simpl. lia. Qed.

Lemma log2_small (N : Z) : 0 < N < 2 ^ 53 -> 0 <= Z.log2 N <= 52.
Proof.
  intros H. split; [apply Z.log2_nonneg|].
  assert (Z.log2 N < 53) by (apply Z.log2_lt_pow2; lia). lia.
Qed.

Lemma canon_mant (N : Z) : 0 < N < 2 ^ 53 ->
  Zpos (Z.to_pos (N * 2 ^ (52 - Z.log2 N))) = N * 2 ^ (52 - Z.log2 N).
Proof.
  intros H. pose proof (log2_small N H).
  apply Z2Pos.id. pose proof (Z.pow_pos_nonneg 2 (52 - Z.log2 N)). nia.
Qed.

Lemma canon_scale (N ez : Z) : 0 < N < 2 ^ 53 -> ez <= Z.log2 N - 52 ->
  Zpos (fst (shl_align (Z.to_pos (N * 2 ^ (52 - Z.log2 N))) (Z.log2 N - 52) ez))
  = N * 2 ^ (- ez).
Proof.
  intros H Hez. pose proof (log2_small N H).
  rewrite shl_align_fst by exact Hez. rewrite canon_mant by exact H.
  rewrite <- Z.mul_assoc, <- Z.pow_add_r by lia. f_equal. f_equal. lia.
Qed.

Lemma of_Z_0 : Num.of_Z 0 = S754_zero false.
Proof. reflexivity. Qed.

Lemma add_int (a b : Z) : 0 <= a -> 0 <= b -> a + b < 2 ^ 53 ->
  Num.add (Num.of_Z a) (Num.of_Z b) = Num.of_Z (a + b).
Proof.
  intros Ha Hb Hab.
  assert (0 < 2 ^ 53) by lia.
  destruct (Z.eq_dec a 0) as [->|Ha0]; destruct (Z.eq_dec b 0) as [->|Hb0].
  - reflexivity.
  - rewrite Z.add_0_l, of_Z_0, (of_Z_canon b) by lia. reflexivity.
  - rewrite Z.add_0_r, of_Z_0, (of_Z_canon a) by lia. reflexivity.
  - rewrite (of_Z_canon a), (of_Z_canon b), (of_Z_canon (a + b)) by lia.
    unfold Num.add, canon at 1 2, SFadd. cbv beta iota.
    unfold cond_Zopp. unfold Num.prec, Num.emax.
    pose proof (log2_small a ltac:(lia)). pose proof (log2_small b ltac:(lia)).
    apply normalize_int; [lia|lia|].
    rewrite !canon_scale by lia. ring.
Qed.

Lemma sub_int (a b : Z) : 0 <= b <= a -> a < 2 ^ 53 ->
  Num.sub (Num.of_Z a) (Num.of_Z b) = Num.of_Z (a - b).
Proof.
  intros Hb Ha.
  assert (0 < 2 ^ 53) by lia.
  destruct (Z.eq_dec a 0) as [->|Ha0]; [replace b with 0 by lia; reflexivity|].
  destruct (Z.eq_dec b 0) as [->|Hb0].
  - rewrite Z.sub_0_r, of_Z_0, (of_Z_canon a) by lia. reflexivity.
  - rewrite (of_Z_canon a), (of_Z_canon b) by lia.
    unfold Num.sub, canon at 1 2, SFsub. cbv beta iota.
    unfold cond_Zopp. unfold Num.prec, Num.emax.
    pose proof (log2_small a ltac:(lia)). pose proof (log2_small b ltac:(lia)).
    rewrite !canon_scale by lia.
    destruct (Z.eq_dec a b) as [<-|Hne].
    + rewrite Z.sub_diag, Z.sub_diag. reflexivity.
    + rewrite (of_Z_canon (a - b)) by lia.
      apply normalize_int; [lia|lia|]. ring.
Qed.

Lemma mul_int (a b : Z) : 0 <= a -> 0 < b < 2 ^ 53 -> a * b < 2 ^ 53 ->
  Num.mul (Num.of_Z a) (Num.of_Z b) = Num.of_Z (a * b).
Proof.
  intros Ha Hb Hab.
  assert (0 < 2 ^ 53) by lia.
  destruct (Z.eq_dec a 0) as [->|Ha0].
  - rewrite of_Z_0, (of_Z_canon b) by nia. reflexivity.
  - assert (Ha' : a < 2 ^ 53) by nia.
    rewrite (of_Z_canon a), (of_Z_canon b), (of_Z_canon (a * b)) by nia.
    unfold Num.mul, canon, SFmul. cbv beta iota. unfold Num.prec, Num.emax.
    pose proof (log2_small a ltac:(lia)). pose proof (log2_small b ltac:(lia)).
    pose proof (log2_small (a * b) ltac:(nia)).
    pose proof (Z.log2_mul_below a b ltac:(lia) ltac:(lia)).
    assert (Hm : Zpos (Z.to_pos (a * 2 ^ (52 - Z.log2 a)) * Z.to_pos (b * 2 ^ (52 - Z.log2 b)))
                 = a * b * 2 ^ (104 - Z.log2 a - Z.log2 b)).
    { rewrite Pos2Z.inj_mul, !canon_mant by lia.
      replace (104 - Z.log2 a - Z.log2 b) with ((52 - Z.log2 a) + (52 - Z.log2 b)) by lia.
      rewrite Z.pow_add_r by lia. ring. }
    replace (Z.log2 (a * b) - 52)
      with ((Z.log2 a - 52 + (Z.log2 b - 52))
            + (Z.log2 (a * b) - Z.log2 a - Z.log2 b + 52)) by lia.
    apply aux_exact; rewrite ?Hm.
    + lia.
    + rewrite canon_mant by nia. rewrite <- (Z.mul_assoc (a * b)), <- Z.pow_add_r by lia.
      f_equal. f_equal. lia.
    + rewrite Z.log2_mul_pow2 by nia. lia.
    + rewrite Z.log2_mul_pow2 by nia. lia.
    + lia.
Qed.

Lemma ltb_zero_int (n : Z) : 0 <= n < 2 ^ 53 ->
  Num.ltb (Num.of_Z 0) (Num.of_Z n) = (0 <? n).
Proof.
  intros H. destruct (Z.eq_dec n 0) as [->|Hn]; [reflexivity|].
  rewrite (of_Z_canon n) by lia. unfold canon.
  replace (0 <? n) with true by (symmetry; apply Z.ltb_lt; lia). reflexivity.
Qed.

Lemma rem_int (k : Z) : 0 <= k < 2 ^ 53 ->
  Num.rem (Num.of_Z k) (Num.of_Z 26) = Num.of_Z (k mod 26).
Proof.
  intros Hk. assert (0 < 2 ^ 53) by lia.
  destruct (Z.eq_dec k 0) as [->|Hk0]; [reflexivity|].
  rewrite (of_Z_canon k), (of_Z_canon 26) by lia.
  pose proof (log2_small k ltac:(lia)).
  unfold canon, Num.rem. cbv beta iota.
  replace (Z.log2 26) with 4 by reflexivity.
  set (e := Z.min (Z.log2 k - 52) (4 - 52)).
  assert (He : e <= Z.log2 k - 52 /\ e <= 4 - 52 /\ e <= 0) by (unfold e; lia).
  assert (Hx : Z.shiftl (Zpos (Z.to_pos (k * 2 ^ (52 - Z.log2 k)))) (Z.log2 k - 52 - e)
               = k * 2 ^ (- e)).
  { rewrite Z.shiftl_mul_pow2, canon_mant by lia.
    rewrite <- Z.mul_assoc, <- Z.pow_add_r by lia. f_equal. f_equal. lia. }
  assert (Hy : Z.shiftl (Zpos (Z.to_pos (26 * 2 ^ (52 - 4)))) (4 - 52 - e)
               = 26 * 2 ^ (- e)).
  { rewrite Z.shiftl_mul_pow2 by lia.
    rewrite Z2Pos.id by (apply Z.mul_pos_pos; [lia|apply Z.pow_pos_nonneg; lia]).
    rewrite <- Z.mul_assoc, <- Z.pow_add_r by lia. f_equal. f_equal. lia. }
  rewrite Hx, Hy.
  assert (Hp : 0 < 2 ^ (- e)) by (apply Z.pow_pos_nonneg; lia).
  rewrite Z.rem_mod_nonneg by nia.
  rewrite Z.mul_mod_distr_r by lia.
  pose proof (Z.mod_pos_bound k 26 ltac:(lia)).
  destruct (Z.eq_dec (k mod 26) 0) as [E|E].
  - rewrite E. reflexivity.
  - replace (k mod 26 * 2 ^ (- e) =? 0) with false by (symmetry; apply Z.eqb_neq; nia).
    rewrite (of_Z_canon (k mod 26)) by lia.
    apply normalize_int; [lia|lia|reflexivity].
Qed.

Lemma div_core (k : Z) : 0 < k < 2 ^ 53 ->
  exists l, Num.div (Num.of_Z k) (Num.of_Z 26)
            = binary_round_aux 53 1024 false (k * 2 ^ (57 - Z.log2 k) / 26)
                (Z.log2 k - 57) l.
Proof.
  intros Hk.
  rewrite (of_Z_canon k), (of_Z_canon 26) by lia.
  pose proof (log2_small k Hk).
  unfold canon, Num.div, SFdiv. cbv beta iota.
  replace (Z.log2 26) with 4 by reflexivity.
  unfold SFdiv_core_binary.
  rewrite Zdigits2_log2 by (rewrite canon_mant; [|lia]; pose proof (Z.pow_pos_nonneg 2 (52 - Z.log2 k)); nia).
  rewrite canon_mant by lia.
  replace (Z.pos (Z.to_pos (26 * 2 ^ (52 - 4)))) with (26 * 2 ^ 48) by reflexivity.
  replace (Zdigits2 (26 * 2 ^ 48)) with 53 by reflexivity.
  rewrite Z.log2_mul_pow2 by lia.
  unfold Num.prec, Num.emax. rewrite fexp_val by lia.
  replace (Z.min (52 - Z.log2 k + Z.log2 k + 1 + (Z.log2 k - 52) - (53 + (4 - 52)) - 53)
             (Z.log2 k - 52 - (4 - 52))) with (Z.log2 k - 57) by lia.
  replace (Z.log2 k - 52 - (4 - 52) - (Z.log2 k - 57)) with 53 by lia.
  cbv iota beta.
  rewrite Z.shiftl_mul_pow2 by lia.
  destruct (Z.div_eucl (k * 2 ^ (52 - Z.log2 k) * 2 ^ 53) (26 * 2 ^ 48)) as [q r] eqn:E.
  exists (new_location (26 * 2 ^ 48) r). simpl xorb.
  assert (Hq : q = k * 2 ^ (52 - Z.log2 k) * 2 ^ 53 / (26 * 2 ^ 48))
    by (unfold Z.div; rewrite E; reflexivity).
  rewrite Hq.
  replace (k * 2 ^ (52 - Z.log2 k) * 2 ^ 53) with (k * 2 ^ (57 - Z.log2 k) * 2 ^ 48).
  - rewrite Z.div_mul_cancel_r by lia. reflexivity.
  - rewrite <- !Z.mul_assoc, <- !Z.pow_add_r by lia. f_equal. f_equal. lia.
Qed.

Lemma shr_record_of_loc_m (m : Z) (l : location) : shr_m (shr_record_of_loc m l) = m.
Proof. destruct l as [|[]]; reflexivity. Qed.

Lemma shr_record_of_loc_loc (m : Z) (l : location) :
  loc_of_shr_record (shr_record_of_loc m l) = l.
Proof. destruct l as [|[]]; reflexivity. Qed.

Lemma rne_cases (m : Z) (l : location) :
  round_nearest_even m l = m \/ round_nearest_even m l = m + 1.
Proof.
  destruct l as [|[]]; simpl; auto. destruct (Z.even m); auto.
Qed.

Lemma stage2 (q0 e : Z) : 2 ^ 52 <= q0 <= 2 ^ 53 -> -1074 <= e -> e + 1 <= 971 ->
  exists M E, shr_fexp 53 1024 q0 e loc_Exact
              = ({| shr_m := Zpos M; shr_r := false; shr_s := false |}, E)
              /\ e <= E <= e + 1 /\ Zpos M * 2 ^ (E - e) = q0.
Proof.
  intros Hq He He'.
  unfold shr_fexp. rewrite Zdigits2_log2 by lia.
  assert (H52 : 52 <= Z.log2 q0) by (apply Z.log2_le_pow2; lia).
  rewrite fexp_val by lia.
  destruct (Z.eq_dec q0 (2 ^ 53)) as [->|Hne].
  - rewrite Z.log2_pow2 by lia.
    replace (53 + 1 + e - 53 - e) with 1 by lia.
    exists (Z.to_pos (2 ^ 52)), (e + 1). split; [reflexivity|].
    split; [lia|]. replace (e + 1 - e) with 1 by lia. reflexivity.
  - assert (Hl : Z.log2 q0 = 52) by (apply Z.log2_unique; [lia|]; split; [lia|];
                                      change (Z.succ 52) with 53; lia).
    rewrite Hl. replace (52 + 1 + e - 53 - e) with 0 by lia.
    exists (Z.to_pos q0), e. simpl shr. simpl shr_record_of_loc.
    rewrite Z2Pos.id by lia. split; [reflexivity|].
    split; [lia|]. rewrite Z.sub_diag, Z.pow_0_r. lia.
Qed.

Lemma shr_1_half (q : Z) (r s : bool) : 2 <= q ->
  let x := shr_1 {| shr_m := q; shr_r := r; shr_s := s |} in
  let q0 := round_nearest_even (shr_m x) (loc_of_shr_record x) in
  (q0 = q / 2 \/ (q0 = q / 2 + 1 /\ Z.odd q = true)).
Proof.
  intros Hq.
  destruct q as [|p|p]; try lia.
  destruct p as [p|p|]; [| |lia].
  - assert (Hd : Zpos p~1 / 2 = Zpos p)
      by (symmetry; apply Z.div_unique with 1; [lia|rewrite Pos2Z.inj_xI; ring]).
    rewrite Hd. simpl.
    destruct r, s; simpl; try (destruct p; auto; fail); auto.
  - assert (Hd : Zpos p~0 / 2 = Zpos p)
      by (symmetry; apply Z.div_unique with 0; [lia|rewrite Pos2Z.inj_xO; ring]).
    rewrite Hd. simpl.
    destruct r, s; simpl; auto.
Qed.

Lemma aux_near (q e : Z) (l : location) :
  2 ^ 52 <= q < 2 ^ 54 -> -1074 <= e -> e + 2 <= 0 ->
  exists M E, binary_round_aux 53 1024 false q e l = S754_finite false M E
              /\ e <= E <= e + 2
              /\ 2 * (q / 2) <= Zpos M * 2 ^ (E - e) <= q + 1.
Proof.
  intros Hq He He2.
  assert (H52 : 52 <= Z.log2 q) by (apply Z.log2_le_pow2; lia).
  assert (H53 : Z.log2 q < 54) by (apply Z.log2_lt_pow2; lia).
  unfold binary_round_aux. unfold shr_fexp at 1.
  rewrite Zdigits2_log2 by lia. rewrite fexp_val by lia.
  destruct (Z.eq_dec (Z.log2 q) 52) as [Hl|Hl].
  - rewrite Hl. replace (52 + 1 + e - 53 - e) with 0 by lia.
    simpl shr. cbv beta iota.
    rewrite shr_record_of_loc_m, shr_record_of_loc_loc.
    assert (Hq53 : q < 2 ^ 53) by (apply Z.log2_lt_pow2; lia).
    assert (Hr : q <= round_nearest_even q l <= q + 1)
      by (destruct (rne_cases q l) as [-> | ->]; lia).
    destruct (stage2 (round_nearest_even q l) e ltac:(lia) ltac:(lia) ltac:(lia))
      as [M [E [Hs [HE HM]]]].
    rewrite Hs. cbv beta iota. cbn [shr_m].
    destruct (Z.leb_spec E (1024 - 53)); [|lia].
    exists M, E. split; [reflexivity|]. split; [lia|].
    pose proof (Z.mul_div_le q 2 ltac:(lia)). lia.
  - assert (Hq53 : 2 ^ 53 <= q) by (apply Z.log2_le_pow2; lia).
    replace (Z.log2 q + 1 + e - 53 - e) with 1 by lia.
    change (shr (shr_record_of_loc q l) e 1)
      with (shr_1 (shr_record_of_loc q l), e + 1).
    cbv beta iota.
    assert (Hx : shr_record_of_loc q l
                 = {| shr_m := q; shr_r := shr_r (shr_record_of_loc q l);
                      shr_s := shr_s (shr_record_of_loc q l) |})
      by (destruct l as [|[]]; reflexivity).
    rewrite Hx.
    destruct (shr_1_half q (shr_r (shr_record_of_loc q l)) (shr_s (shr_record_of_loc q l))
                ltac:(lia)) as [Hh|[Hh Hodd]];
      cbv zeta in Hh; rewrite Hh.
    + destruct (stage2 (q / 2) (e + 1)) as [M [E [Hs [HE HM]]]].
      * split; [apply Z.div_le_lower_bound; lia|apply Z.div_le_upper_bound; lia].
      * lia.
      * lia.
      * rewrite Hs. cbv beta iota. cbn [shr_m].
        destruct (Z.leb_spec E (1024 - 53)); [|lia].
        exists M, E. split; [reflexivity|]. split; [lia|].
        replace (E - e) with ((E - (e + 1)) + 1) by lia.
        rewrite Z.pow_add_r by lia. rewrite Z.mul_assoc, HM.
        pose proof (Z.mul_div_le q 2 ltac:(lia)). lia.
    + assert (Hqd : q = 2 * (q / 2) + 1).
      { rewrite (Z.div_mod q 2) at 1 by lia. f_equal.
        rewrite Zmod_odd, Hodd. reflexivity. }
      destruct (stage2 (q / 2 + 1) (e + 1)) as [M [E [Hs [HE HM]]]].
      * split; [|lia].
        assert (2 ^ 52 <= q / 2) by (apply Z.div_le_lower_bound; lia). lia.
      * lia.
      * lia.
      * rewrite Hs. cbv beta iota. cbn [shr_m].
        destruct (Z.leb_spec E (1024 - 53)); [|lia].
        exists M, E. split; [reflexivity|]. split; [lia|].
        replace (E - e) with ((E - (e + 1)) + 1) by lia.
        rewrite Z.pow_add_r by lia. rewrite Z.mul_assoc, HM. lia.
Qed.

Lemma floor_div_int (k : Z) : 0 <= k < 2 ^ 53 ->
  Num.floor (Num.div (Num.of_Z k) (Num.of_Z 26)) = Num.of_Z (k / 26).
Proof.
  intros Hk.
  destruct (Z.eq_dec k 0) as [->|Hk0]; [reflexivity|].
  pose proof (log2_small k ltac:(lia)) as Hlk.
  destruct (div_core k ltac:(lia)) as [l Hd]. rewrite Hd.
  set (c := 57 - Z.log2 k).
  assert (Hc : 5 <= c <= 57) by (unfold c; lia).
  set (P := 2 ^ c).
  pose proof (Z.log2_spec k ltac:(lia)) as [Hk1 Hk2].
  assert (HkP1 : 2 ^ 57 <= k * P).
  { unfold P. replace 57 with (Z.log2 k + c) at 1 by (unfold c; lia).
    rewrite Z.pow_add_r by lia. apply Z.mul_le_mono_nonneg_r; [apply Z.pow_nonneg; lia|lia]. }
  assert (HkP2 : k * P < 2 ^ 58).
  { unfold P. replace 58 with (Z.succ (Z.log2 k) + c) by (unfold c; lia).
    rewrite (Z.pow_add_r 2 (Z.succ (Z.log2 k))) by lia.
    apply Z.mul_lt_mono_pos_r; [apply Z.pow_pos_nonneg; lia|lia]. }
  set (q := k * P / 26).
  assert (Hq : 2 ^ 52 <= q < 2 ^ 54).
  { unfold q. split.
    - apply Z.div_le_lower_bound; lia.
    - apply Z.div_lt_upper_bound; lia. }
  replace (Z.log2 k - 57) with (- c) by (unfold c; lia).
  destruct (aux_near q (- c) l Hq ltac:(lia) ltac:(lia)) as [M [E [Ha [HE HY]]]].
  rewrite Ha. unfold Num.floor.
  destruct (Z.leb_spec 0 E) as [HE0|HE0]; [lia|]. cbv beta iota zeta.
  unfold Num.of_Z. f_equal.
  rewrite Z.shiftr_div_pow2 by lia.
  set (Y := Zpos M * 2 ^ (E - - c)) in *.
  assert (HYc : Zpos M / 2 ^ (- E) = Y / P).
  { unfold Y, P. replace c with (- E + (E - - c)) at 2 by lia.
    rewrite Z.pow_add_r by lia. rewrite Z.div_mul_cancel_r; [reflexivity|lia|].
    apply Z.pow_nonzero; lia. }
  rewrite HYc.
  set (m := k / 26). set (jj := k mod 26).
  assert (Hkm : k = 26 * m + jj) by (apply Z.div_mod; lia).
  assert (Hjj : 0 <= jj < 26) by (apply Z.mod_pos_bound; lia).
  assert (HP : P = 2 * 2 ^ (c - 1)) by (unfold P; rewrite <- Z.pow_succ_r by lia; f_equal; lia).
  assert (HP32 : 32 <= P) by (unfold P; replace 32 with (2 ^ 5) by reflexivity;
                              apply Z.pow_le_mono_r; lia).
  assert (Hq1 : 26 * q <= k * P) by (apply Z.mul_div_le; lia).
  assert (Hq2 : k * P < 26 * q + 26).
  { pose proof (Z.mod_pos_bound (k * P) 26 ltac:(lia)).
    pose proof (Z.div_mod (k * P) 26 ltac:(lia)). unfold q. lia. }
  assert (HkP : k * P = 26 * (m * P) + jj * P) by (rewrite Hkm; ring).
  assert (HjP : jj * P <= 25 * P) by (apply Z.mul_le_mono_nonneg_r; lia).
  assert (Hjp0 : 0 <= jj * P) by nia.
  assert (Hm0 : 0 <= m) by (apply Z.div_pos; lia).
  assert (HqmP : m * P <= q) by lia.
  assert (Hq2d : m * 2 ^ (c - 1) <= q / 2).
  { apply Z.div_le_lower_bound; [lia|]. rewrite HP in HqmP. lia. }
  assert (Hlow : m * P <= Y) by (rewrite HP; lia).
  symmetry. apply (Z.div_unique Y P m (Y - P * m)); lia.
Qed.

Lemma to_uint16_int (x : Z) : 0 <= x < 65536 ->
  Num.to_uint16 (Num.of_Z x) = x.
Proof.
  intros Hx. destruct (Z.eq_dec x 0) as [->|Hx0]; [reflexivity|].
  rewrite of_Z_canon by lia. unfold canon, Num.to_uint16.
  pose proof (log2_small x ltac:(lia)).
  rewrite Z.shiftl_div_pow2 by lia.
  rewrite canon_mant by lia.
  replace (- (Z.log2 x - 52)) with (52 - Z.log2 x) by lia.
  rewrite Z.div_mul by (apply Z.pow_nonzero; lia).
  apply Z.mod_small. lia.
Qed.

Lemma ntcl_loop_int (fuel : nat) : forall n acc, 0 <= n < 2 ^ 53 ->
  ntcl_loop fuel (Num.of_Z n) acc = col_letters fuel n acc.
Proof.
  induction fuel as [|f IH]; intros n acc Hn; [reflexivity|].
  cbn [ntcl_loop col_letters]. rewrite ltb_zero_int by exact Hn.
  destruct (Z.ltb_spec 0 n) as [Hpos|Hpos]; [|reflexivity].
  rewrite sub_int by lia.
  rewrite rem_int by lia.
  pose proof (Z.mod_pos_bound (n - 1) 26 ltac:(lia)).
  rewrite add_int by lia.
  rewrite to_uint16_int by lia.
  rewrite floor_div_int by lia.
  apply IH.
  split; [apply Z.div_pos; lia|].
  apply Z.div_lt_upper_bound; lia.
Qed.

Lemma col_fold_ge (s : jsstring) : forall v, is_letters s = true -> 0 <= v ->
  v <= fold_left col_step s v.
Proof.
  induction s as [|c s IH]; intros v Hs Hv; simpl; [lia|].
  simpl in Hs. apply andb_prop in Hs as [Hc Hs].
  apply andb_prop in Hc as [Hc1 Hc2]. apply Z.leb_le in Hc1.
  specialize (IH (col_step v c) Hs). unfold col_step in *. lia.
Qed.

Lemma columnLetterToNumber_fold (s : jsstring) : forall v,
  is_letters s = true -> 0 <= v -> fold_left col_step s v < 2 ^ 53 ->
  fold_left
    (fun result c =>
       Num.add (Num.mul result (Num.of_Z 26))
               (Num.add (Num.sub (Num.of_Z c) (Num.of_Z 65)) (Num.of_Z 1)))
    s (Num.of_Z v)
  = Num.of_Z (fold_left col_step s v).
Proof.
  induction s as [|c s IH]; intros v Hs Hv Hlt; [reflexivity|].
  simpl in Hs. cbn [fold_left] in Hlt |- *. apply andb_prop in Hs as [Hc Hs].
  apply andb_prop in Hc as [Hc1 Hc2]. apply Z.leb_le in Hc1. apply Z.leb_le in Hc2.
  pose proof (col_fold_ge s (col_step v c) Hs ltac:(unfold col_step; lia)).
  unfold col_step in *.
  rewrite sub_int by lia. rewrite add_int by lia.
  rewrite mul_int by lia. rewrite add_int by lia.
  apply IH; [exact Hs|lia|exact Hlt].
Qed.

Lemma columnLetterToNumber_int (s : jsstring) :
  is_letters s = true -> col_value s < 2 ^ 53 ->
  columnLetterToNumber s = Num.of_Z (col_value s).
Proof. intros Hs Hlt. apply columnLetterToNumber_fold; [exact Hs|lia|exact Hlt]. Qed.

Lemma col_value_snoc (s : jsstring) (c : Z) :
  col_value (s ++ [c]) = col_value s * 26 + (c - 65 + 1).
Proof. unfold col_value. now rewrite fold_left_app. Qed.

Lemma is_letters_app (s t : jsstring) :
  is_letters (s ++ t) = is_letters s && is_letters t.
Proof. unfold is_letters. apply forallb_app. Qed.

Lemma col_value_nonneg (s : jsstring) : is_letters s = true -> 0 <= col_value s.
Proof. intros H. apply (col_fold_ge s 0 H). lia. Qed.

Lemma col_letters_value (s : jsstring) : is_letters s = true ->
  forall fuel acc, (List.length s < fuel)%nat ->
  col_letters fuel (col_value s) acc = Some (s ++ acc).
Proof.
  induction s as [|c s IH] using rev_ind; intros Hs fuel acc Hf.
  - destruct fuel as [|f]; [simpl in Hf; lia|reflexivity].
  - rewrite is_letters_app in Hs. apply andb_prop in Hs as [Hs Hc].
    simpl in Hc. rewrite andb_true_r in Hc.
    apply andb_prop in Hc as [Hc1 Hc2]. apply Z.leb_le in Hc1. apply Z.leb_le in Hc2.
    rewrite length_app in Hf. simpl in Hf.
    destruct fuel as [|f]; [lia|].
    pose proof (col_value_nonneg s Hs).
    rewrite col_value_snoc. cbn [col_letters].
    destruct (Z.ltb_spec 0 (col_value s * 26 + (c - 65 + 1))) as [_|]; [|lia].
    replace (col_value s * 26 + (c - 65 + 1) - 1) with (c - 65 + col_value s * 26) by lia.
    rewrite Z.div_add, Z.mod_add by lia.
    rewrite Z.div_small, Z.mod_small by lia.
    rewrite Z.add_0_l. replace (65 + (c - 65)) with c by lia.
    rewrite IH by (assumption || lia).
    now rewrite <- app_assoc.
Qed.

Lemma col_letters_some (fuel : nat) : forall n acc out, 0 <= n ->
  col_letters fuel n acc = Some out ->
  exists l, out = l ++ acc /\ is_letters l = true /\ col_value l = n.
Proof.
  induction fuel as [|f IH]; intros n acc out Hn H; [discriminate|].
  cbn [col_letters] in H.
  destruct (Z.ltb_spec 0 n) as [Hpos|Hpos].
  - pose proof (Z.mod_pos_bound (n - 1) 26 ltac:(lia)).
    assert (Hq : 0 <= (n - 1) / 26) by (apply Z.div_pos; lia).
    destruct (IH _ _ _ Hq H) as [l [Hout [Hl Hv]]].
    exists (l ++ [65 + (n - 1) mod 26]). split; [now rewrite <- app_assoc|].
    split.
    + rewrite is_letters_app, Hl. cbn [is_letters forallb andb].
      unfold is_letters. cbn [forallb].
      replace (65 <=? 65 + (n - 1) mod 26) with true by (symmetry; apply Z.leb_le; lia).
      replace (65 + (n - 1) mod 26 <=? 90) with true by (symmetry; apply Z.leb_le; lia).
      reflexivity.
    + rewrite col_value_snoc, Hv.
      pose proof (Z.div_mod (n - 1) 26 ltac:(lia)).
      lia.
  - injection H as <-. exists []. split; [reflexivity|]. split; [reflexivity|].
    unfold col_value. simpl. lia.
Qed.

Lemma col_letters_total (f : nat) : forall n acc, 0 <= n < 26 ^ Z.of_nat f ->
  col_letters (S f) n acc <> None.
Proof.
  induction f as [|f IH]; intros n acc Hn.
  - simpl in Hn. replace n with 0 by lia. discriminate.
  - cbn [col_letters]. destruct (Z.ltb_spec 0 n) as [Hpos|Hpos]; [|discriminate].
    apply IH. split; [apply Z.div_pos; lia|].
    apply Z.div_lt_upper_bound; [lia|].
    rewrite Nat2Z.inj_succ, Z.pow_succ_r in Hn by lia. lia.
Qed.

Lemma col_value_pow2 (s : jsstring) : forall v, is_letters s = true -> 0 <= v ->
  2 ^ Z.of_nat (List.length s) * (v + 1) <= fold_left col_step s v + 1.
Proof.
  induction s as [|c s IH]; intros v Hs Hv; cbn [List.length fold_left];
    [rewrite Z.pow_0_r; lia|].
  simpl in Hs. apply andb_prop in Hs as [Hc Hs].
  apply andb_prop in Hc as [Hc1 Hc2]. apply Z.leb_le in Hc1.
  specialize (IH (col_step v c) Hs ltac:(unfold col_step; lia)).
  rewrite Nat2Z.inj_succ, Z.pow_succ_r by lia.
  set (X := fold_left col_step s (col_step v c)) in *.
  assert (2 ^ Z.of_nat (List.length s) * (2 * (v + 1)) <=
          2 ^ Z.of_nat (List.length s) * (col_step v c + 1))
    by (apply Z.mul_le_mono_nonneg_l; [apply Z.pow_nonneg|unfold col_step]; lia).
  lia.
Qed.

Lemma col_value_pow27 (s : jsstring) : forall v, is_letters s = true -> 0 <= v ->
  fold_left col_step s v + 1 <= 27 ^ Z.of_nat (List.length s) * (v + 1).
Proof.
  induction s as [|c s IH]; intros v Hs Hv; cbn [List.length fold_left];
    [rewrite Z.pow_0_r; lia|].
  simpl in Hs. apply andb_prop in Hs as [Hc Hs].
  apply andb_prop in Hc as [Hc1 Hc2]. apply Z.leb_le in Hc1. apply Z.leb_le in Hc2.
  specialize (IH (col_step v c) Hs ltac:(unfold col_step; lia)).
  rewrite Nat2Z.inj_succ, Z.pow_succ_r by lia.
  set (X := fold_left col_step s (col_step v c)) in *.
  assert (27 ^ Z.of_nat (List.length s) * (col_step v c + 1) <=
          27 ^ Z.of_nat (List.length s) * (27 * (v + 1)))
    by (apply Z.mul_le_mono_nonneg_l; [apply Z.pow_nonneg|unfold col_step]; lia).
  lia.
Qed.

Lemma col_value_length (s : jsstring) : is_letters s = true ->
  col_value s < 2 ^ 53 -> (List.length s <= 53)%nat.
Proof.
  intros Hs Hlt. pose proof (col_value_pow2 s 0 Hs ltac:(lia)) as H.
  fold (col_value s) in H.
  destruct (Nat.le_gt_cases (List.length s) 53) as [|Hgt]; [assumption|].
  assert (2 ^ 54 <= 2 ^ Z.of_nat (List.length s)) by (apply Z.pow_le_mono_r; lia).
  exfalso. assert (2 ^ 54 = 2 * 2 ^ 53) by reflexivity. lia.
Qed.

Lemma pow53_lt_pow26 : 2 ^ 53 <= 26 ^ Z.of_nat 2199.
Proof.
  apply Z.le_trans with (26 ^ 12); [vm_compute; discriminate|].
  apply Z.pow_le_mono_r; lia.
Qed.

Lemma col_value_nil : col_value [] = 0.
Proof. reflexivity. Qed.

(** C3: the column conversions are inverse to each other as long as the
    numbers stay exact doubles: a non-empty [A-Z] string whose value is below
    2^53 (every string of at most 11 letters) comes back unchanged, and every
    integer [1 <= n < 2^53] comes back from its letters; "A" is 1, "AA" is
    27 and "Z" is 26, and back. *)
Lemma column_letters_round_trip :
  (forall s, s <> [] -> is_letters s = true -> col_value s < 2 ^ 53 ->
     numberToColumnLetter (columnLetterToNumber s) = Some s) /\
  (forall n, 1 <= n < 2 ^ 53 ->
     exists s, numberToColumnLetter (Num.of_Z n) = Some s /\ s <> [] /\
       is_letters s = true /\ columnLetterToNumber s = Num.of_Z n) /\
  (forall s, is_letters s = true -> (List.length s <= 11)%nat -> col_value s < 2 ^ 53) /\
  columnLetterToNumber (js "A") = Num.of_Z 1 /\
  columnLetterToNumber (js "AA") = Num.of_Z 27 /\
  columnLetterToNumber (js "Z") = Num.of_Z 26 /\
  numberToColumnLetter (Num.of_Z 1) = Some (js "A") /\
  numberToColumnLetter (Num.of_Z 27) = Some (js "AA") /\
  numberToColumnLetter (Num.of_Z 26) = Some (js "Z").
Proof.
  split; [|split; [|split]].
  - intros s _ Hs Hlt. pose proof (col_value_nonneg s Hs).
    rewrite columnLetterToNumber_int by assumption.
    unfold numberToColumnLetter. rewrite ntcl_loop_int by lia.
    rewrite col_letters_value by (try assumption; pose proof (col_value_length s Hs Hlt);
      unfold ntcl_fuel; lia).
    now rewrite app_nil_r.
  - intros n Hn. unfold numberToColumnLetter. rewrite ntcl_loop_int by lia.
    pose proof pow53_lt_pow26.
    destruct (col_letters ntcl_fuel n []) as [out|] eqn:E.
    + destruct (col_letters_some ntcl_fuel n [] out ltac:(lia) E) as [l [Hout [Hl Hv]]].
      rewrite app_nil_r in Hout. subst out.
      exists l. split; [reflexivity|]. split.
      * intros ->. rewrite col_value_nil in Hv. lia.
      * split; [assumption|]. rewrite columnLetterToNumber_int by (assumption || lia). now rewrite Hv.
    + exfalso. apply (col_letters_total 2199 n []); [lia|exact E].
  - intros s Hs Hlen. pose proof (col_value_pow27 s 0 Hs ltac:(lia)) as H.
    fold (col_value s) in H.
    assert (27 ^ Z.of_nat (List.length s) <= 27 ^ 11) by (apply Z.pow_le_mono_r; lia).
    assert (27 ^ 11 < 2 ^ 53) by (vm_compute; reflexivity). lia.
  - repeat split; vm_compute; reflexivity.
Qed.

Lemma column_letters_round_trip_witness :
  numberToColumnLetter (columnLetterToNumber (js "XFD")) = Some (js "XFD") /\
  (exists s, numberToColumnLetter (Num.of_Z 16384) = Some s /\ s <> [] /\
     is_letters s = true /\ columnLetterToNumber s = Num.of_Z 16384).
Proof.
  destruct column_letters_round_trip as [H1 [H2 _]]. split.
  - apply H1; [discriminate|vm_compute; reflexivity|vm_compute; reflexivity].
  - apply H2. split; [lia|vm_compute; reflexivity].
Defined.

(** Beyond 2^53 the double arithmetic rounds: twelve Z's come back as
    thirteen letters, and 2^53 + 2 does not come back. *)
Lemma column_letters_round_trip_fails :
  numberToColumnLetter (columnLetterToNumber (js "ZZZZZZZZZZZZ"))
    = Some (js "AAAAAAAAAAAAK") /\
  (exists s, numberToColumnLetter (Num.of_Z (2 ^ 53 + 2)) = Some s /\
     columnLetterToNumber s <> Num.of_Z (2 ^ 53 + 2)).
Proof.
  split; [vm_compute; reflexivity|].
  eexists. split; [vm_compute; reflexivity|]. vm_compute. discriminate.
Qed.

(** ** Table builder *)

Lemma is_length_zero_arr (inh : jsval -> jsstring -> jsval) (rows : list jsval) :
  rows <> [] -> Z.of_nat (List.length rows) < 2 ^ 53 ->
  is_length_zero inh (JArr rows) = false.
Proof.
  intros Hne Hlt. unfold is_length_zero, get. rewrite jsstring_eqb_refl.
  destruct rows as [|r rows]; [congruence|].
  cbn [List.length] in *. rewrite of_Z_canon by lia. reflexivity.
Qed.

Lemma write_data_cell_tables (a : addr) (v : jsval) (fill : option jsstring)
  (ws : worksheet) : ws_tables (write_data_cell a v fill ws) = ws_tables ws.
Proof. unfold write_data_cell. destruct fill; reflexivity. Qed.

Lemma write_header_tables (tc : TableConfig) (sr sc : Num.double) (ws : worksheet)
  (i : nat) (h : jsstring) : ws_tables (write_header tc sr sc ws i h) = ws_tables ws.
Proof.
  unfold write_header.
  destruct (tc_style tc) as [[hb hf rb ab]|]; cbn;
    repeat match goal with
           | |- context [match ?x with _ => _ end] => destruct x
           end; reflexivity.
Qed.

Lemma fold_i_tables {A : Type} (f : worksheet -> nat -> A -> worksheet) :
  (forall ws i x, ws_tables (f ws i x) = ws_tables ws) ->
  forall xs i ws, ws_tables (fold_i f i xs ws) = ws_tables ws.
Proof.
  intros Hf xs. induction xs as [|x xs IH]; intros i ws; simpl; [reflexivity|].
  now rewrite IH, Hf.
Qed.

Lemma fold_mi_tables {A : Type} (f : worksheet -> nat -> A -> Exc worksheet) :
  (forall ws i x ws', f ws i x = Ok ws' -> ws_tables ws' = ws_tables ws) ->
  forall xs i ws ws', fold_mi f i xs ws = Ok ws' -> ws_tables ws' = ws_tables ws.
Proof.
  intros Hf xs. induction xs as [|x xs IH]; intros i ws ws' H; simpl in H.
  - now injection H as <-.
  - destruct (f ws i x) as [w| |] eqn:E; try discriminate.
    simpl in H. rewrite (IH _ _ _ H). exact (Hf _ _ _ _ E).
Qed.

Lemma data_row_tables (inh : jsval -> jsstring -> jsval) (tc : TableConfig)
  (sr sc : Num.double) (ws : worksheet) (i : nat) (row : jsval) (ws' : worksheet) :
  data_row inh tc sr sc ws i row = Ok ws' -> ws_tables ws' = ws_tables ws.
Proof.
  unfold data_row. destruct row; intros H; try (injection H as <-; reflexivity).
  - revert H. apply fold_mi_tables. intros w c x w' Hc.
    destruct (object_cell inh JNull x); try discriminate. injection Hc as <-.
    apply write_data_cell_tables.
  - injection H as <-. apply fold_i_tables. intros w c x.
    destruct (Nat.ltb c _); [apply write_data_cell_tables|reflexivity].
  - revert H. apply fold_mi_tables. intros w c x w' Hc.
    destruct (object_cell inh (JObj props) x); try discriminate. injection Hc as <-.
    apply write_data_cell_tables.
Qed.

(** C5: on a non-empty array of rows, a successful [createTable] registers
    one table on the worksheet, from [startCell] to the cell at column
    [startCol + columns.length - 1] and row [startRow + tableData.length],
    with a header row and the striped theme [TableStyleMedium9]; with columns
    [P], [Q], rows [[1,2]] and [[3,4]] at [A1] the table spans [A1:B3], with
    header [P], [Q] and those two rows. *)
Lemma createTable_registers_table :
  (forall (inh : jsval -> jsstring -> jsval) (L : library) (ws : worksheet)
          (tc : TableConfig) (rows : list jsval) (ws' : worksheet),
     rows <> [] -> Z.of_nat (List.length rows) < 2 ^ 32 ->
     createTable inh L ws tc (JArr rows) = Ok ws' ->
     exists letters digits endCol trows,
       match_cell_ref tc.(tc_startCell) = Some (letters, digits) /\
       numberToColumnLetter
         (Num.sub (Num.add (columnLetterToNumber letters)
                           (Num.of_Z (Z.of_nat (List.length tc.(tc_columns)))))
                  (Num.of_Z 1)) = Some endCol /\
       map_m (table_row inh tc) rows = Ok trows /\
       ws_tables ws' = ws_tables ws ++
         [{| t_name := tc.(tc_tableName);
             t_ref := {| ref_start := tc.(tc_startCell); ref_endCol := endCol;
                         ref_endRow := Num.add (parseInt digits)
                                         (Num.of_Z (Z.of_nat (List.length rows))) |};
             t_headerRow := true;
             t_theme := js "TableStyleMedium9";
             t_showRowStripes := true;
             t_columns := tc.(tc_columns);
             t_rows := trows |}]) /\
  exists ws',
    createTable object_host sample_library (new_worksheet (js "Sheet1")) sample_table_PQ
      (JArr [JArr [JNum (Num.of_Z 1); JNum (Num.of_Z 2)];
             JArr [JNum (Num.of_Z 3); JNum (Num.of_Z 4)]]) = Ok ws' /\
    ws_tables ws' =
      [{| t_name := js "T";
          t_ref := {| ref_start := js "A1"; ref_endCol := js "B";
                      ref_endRow := Num.of_Z 3 |};
          t_headerRow := true;
          t_theme := js "TableStyleMedium9";
          t_showRowStripes := true;
          t_columns := [js "P"; js "Q"];
          t_rows := [[JNum (Num.of_Z 1); JNum (Num.of_Z 2)];
                     [JNum (Num.of_Z 3); JNum (Num.of_Z 4)]] |}] /\
    firstn 2 (value_writes (ws_log ws')) =
      [((Num.of_Z 1, Num.of_Z 1), CPlain (JStr (js "P")));
       ((Num.of_Z 1, Num.of_Z 2), CPlain (JStr (js "Q")))].
Proof.
  split.
  - intros inh L ws tc rows ws' Hne Hlen H.
    unfold createTable in H.
    rewrite is_length_zero_arr in H by (assumption || lia). cbn [truthy negb orb] in H.
    destruct (match_cell_ref (tc_startCell tc)) as [[letters digits]|] eqn:Em;
      [|discriminate].
    apply bind_ok in H. destruct H as [ws2 [Ef H]]. cbv beta zeta in H.
    destruct (numberToColumnLetter
                (Num.sub (Num.add (columnLetterToNumber letters)
                   (Num.of_Z (Z.of_nat (List.length (tc_columns tc))))) (Num.of_Z 1)))
      as [endCol|] eqn:Ec; [|discriminate].
    apply bind_ok in H. destruct H as [trows [Et H]].
    unfold add_table in H.
    destruct (lib_add_table L _ _); [discriminate|]. injection H as <-.
    exists letters, digits, endCol, trows.
    split; [reflexivity|]. split; [first [exact Ec | reflexivity]|]. split; [exact Et|].
    assert (Hw : ws_tables ws2 = ws_tables ws).
    { rewrite (fold_mi_tables _ (data_row_tables inh tc _ _) _ _ _ _ Ef).
      apply fold_i_tables. intros. apply write_header_tables. }
    cbn [ws_tables]. rewrite Hw. reflexivity.
  - lazymatch goal with
    | |- exists w, ?lhs = Ok w /\ _ =>
        let r := eval vm_compute in lhs in
        lazymatch r with Ok ?w => exists w end
    end.
    split; [vm_compute; reflexivity|]. split; vm_compute; reflexivity.
Qed.


Lemma createTable_registers_table_witness :
  exists ws' letters digits endCol trows,
    createTable object_host sample_library (new_worksheet (js "Sheet1")) sample_table_PQ
      (JArr [JArr [JNum (Num.of_Z 1); JNum (Num.of_Z 2)];
             JArr [JNum (Num.of_Z 3); JNum (Num.of_Z 4)]]) = Ok ws' /\
    match_cell_ref (js "A1") = Some (letters, digits) /\
    numberToColumnLetter
      (Num.sub (Num.add (columnLetterToNumber letters) (Num.of_Z 2)) (Num.of_Z 1))
      = Some endCol /\
    map_m (table_row object_host sample_table_PQ)
      [JArr [JNum (Num.of_Z 1); JNum (Num.of_Z 2)];
       JArr [JNum (Num.of_Z 3); JNum (Num.of_Z 4)]] = Ok trows /\
    ws_tables ws' = [] ++
      [{| t_name := js "T";
          t_ref := {| ref_start := js "A1"; ref_endCol := endCol;
                      ref_endRow := Num.add (parseInt digits) (Num.of_Z 2) |};
          t_headerRow := true;
          t_theme := js "TableStyleMedium9";
          t_showRowStripes := true;
          t_columns := [js "P"; js "Q"];
          t_rows := trows |}].
Proof.
  destruct createTable_registers_table as [H [ws' [E _]]].
  assert (Hne : [JArr [JNum (Num.of_Z 1); JNum (Num.of_Z 2)];
                 JArr [JNum (Num.of_Z 3); JNum (Num.of_Z 4)]] <> []) by discriminate.
  destruct (H object_host sample_library (new_worksheet (js "Sheet1")) sample_table_PQ
              _ ws' Hne ltac:(simpl; lia) E)
    as [letters [digits [endCol [trows [H1 [H2 [H3 H4]]]]]]].
  exists ws', letters, digits, endCol, trows.
  split; [exact E|]. split; [exact H1|]. split; [exact H2|]. split; [exact H3|].
  exact H4.
Defined.

Lemma value_writes_app (l1 l2 : list cell_op) :
  value_writes (l1 ++ l2) = value_writes l1 ++ value_writes l2.
Proof. unfold value_writes. apply flat_map_app. Qed.

Lemma enum_cons {A : Type} (k : nat) (x : A) (xs : list A) :
  enum k (x :: xs) = (k, x) :: enum (S k) xs.
Proof. reflexivity. Qed.

Lemma vw_push_value (a : addr) (v : cellvalue) (ws : worksheet) :
  value_writes (ws_log (push (SetValue a v) ws)) = value_writes (ws_log ws) ++ [(a, v)].
Proof. cbn [push ws_log]. rewrite value_writes_app. reflexivity. Qed.

Lemma vw_push_fill (a : addr) (x : jsstring) (ws : worksheet) :
  value_writes (ws_log (push (SetFill a x) ws)) = value_writes (ws_log ws).
Proof. cbn [push ws_log]. rewrite value_writes_app, app_nil_r. reflexivity. Qed.

Lemma vw_push_font (a : addr) (f : font) (ws : worksheet) :
  value_writes (ws_log (push (SetFont a f) ws)) = value_writes (ws_log ws).
Proof. cbn [push ws_log]. rewrite value_writes_app, app_nil_r. reflexivity. Qed.

Lemma vw_write_data_cell (a : addr) (v : jsval) (fill : option jsstring) (ws : worksheet) :
  value_writes (ws_log (write_data_cell a v fill ws))
  = value_writes (ws_log ws) ++ [(a, CPlain v)].
Proof.
  unfold write_data_cell. destruct fill; [rewrite vw_push_fill|]; apply vw_push_value.
Qed.

Lemma vw_write_header (tc : TableConfig) (sr sc : Num.double) (ws : worksheet)
  (i : nat) (h : jsstring) :
  value_writes (ws_log (write_header tc sr sc ws i h))
  = value_writes (ws_log ws) ++ [(header_addr sr sc i, CPlain (JStr h))].
Proof.
  unfold write_header.
  destruct (tc_style tc) as [[hb hf rb ab]|]; cbn [headerBgColor headerFontColor];
    repeat match goal with
           | |- context [match ?x with _ => _ end] => destruct x
           end;
    repeat first [rewrite vw_push_font | rewrite vw_push_fill];
    apply vw_push_value.
Qed.

Lemma vw_headers (tc : TableConfig) (sr sc : Num.double) (cols : list jsstring) :
  forall k ws,
  value_writes (ws_log (fold_i (write_header tc sr sc) k cols ws))
  = value_writes (ws_log ws)
    ++ map (fun '(c, h) => (header_addr sr sc c, CPlain (JStr h))) (enum k cols).
Proof.
  induction cols as [|h cols IH]; intros k ws; cbn [fold_i].
  - now rewrite app_nil_r.
  - rewrite IH, vw_write_header, enum_cons. cbn [map]. now rewrite <- app_assoc.
Qed.

Lemma enum_firstn_0 {A : Type} (xs : list A) : forall k k',
  (k <= k')%nat -> filter (fun p => Nat.ltb (fst p) k) (enum k' xs) = [].
Proof.
  induction xs as [|x xs IH]; intros k k' Hk; [reflexivity|].
  rewrite enum_cons. cbn [filter fst].
  replace (Nat.ltb k' k) with false by (symmetry; apply Nat.ltb_ge; lia).
  apply IH. lia.
Qed.

Lemma enum_firstn {A : Type} (xs : list A) : forall k n,
  filter (fun p => Nat.ltb (fst p) (k + n)) (enum k xs) = enum k (firstn n xs).
Proof.
  induction xs as [|x xs IH]; intros k n; [now destruct n|].
  destruct n as [|m].
  - rewrite Nat.add_0_r, enum_firstn_0 by lia. reflexivity.
  - rewrite enum_cons. cbn [filter fst firstn].
    replace (Nat.ltb k (k + S m)) with true by (symmetry; apply Nat.ltb_lt; lia).
    rewrite enum_cons. f_equal. replace (k + S m)%nat with (S k + m)%nat by lia.
    apply IH.
Qed.

Lemma vw_array_row (n : nat) (rowAddr : nat -> addr) (fill : option jsstring)
  (vs : list jsval) : forall k ws,
  value_writes (ws_log
    (fold_i (fun ws colIndex cellValue =>
               if Nat.ltb colIndex n
               then write_data_cell (rowAddr colIndex) cellValue fill ws
               else ws) k vs ws))
  = value_writes (ws_log ws)
    ++ map (fun '(c, v) => (rowAddr c, CPlain v))
           (filter (fun p => Nat.ltb (fst p) n) (enum k vs)).
Proof.
  induction vs as [|v vs IH]; intros k ws; cbn [fold_i].
  - now rewrite app_nil_r.
  - rewrite IH, enum_cons. cbn [filter fst].
    destruct (Nat.ltb k n).
    + rewrite vw_write_data_cell. cbn [map]. now rewrite <- app_assoc.
    + reflexivity.
Qed.

Lemma object_cell_value (inh : jsval -> jsstring -> jsval) (row : jsval)
  (col : jsstring) (v : jsval) :
  object_cell inh row col = Ok v ->
  v = if truthy (get inh row col) then get inh row col else JStr [].
Proof.
  unfold object_cell, member. intros H.
  destruct row; try discriminate; injection H as <-; reflexivity.
Qed.

Lemma object_cell_ok (inh : jsval -> jsstring -> jsval) (row : jsval)
  (col : jsstring) (v : jsval) :
  object_cell inh row col = Ok v -> object_value_ok (get inh row col) v.
Proof.
  intros H. apply object_cell_value in H. subst v.
  split; intros Hg; rewrite Hg; reflexivity.
Qed.

Lemma vw_object_row (inh : jsval -> jsstring -> jsval) (row : jsval)
  (rowAddr : nat -> addr) (fill : option jsstring) (cols : list jsstring) :
  forall k ws ws',
  fold_mi (fun ws colIndex column =>
             v <- object_cell inh row column ;;
             Ok (write_data_cell (rowAddr colIndex) v fill ws)) k cols ws = Ok ws' ->
  exists d,
    Forall2 (fun '(c, col) '(a, w) =>
               a = rowAddr c /\
               exists v, w = CPlain v /\ object_value_ok (get inh row col) v)
            (enum k cols) d /\
    value_writes (ws_log ws') = value_writes (ws_log ws) ++ d.
Proof.
  induction cols as [|col cols IH]; intros k ws ws' H; cbn [fold_mi] in H.
  - injection H as <-. exists []. split; [constructor|]. now rewrite app_nil_r.
  - apply bind_ok in H. destruct H as [w [Hw H]].
    apply bind_ok in Hw. destruct Hw as [v [Hv Hw]]. injection Hw as <-.
    destruct (IH _ _ _ H) as [d [Hd Hvw]].
    exists ((rowAddr k, CPlain v) :: d). split.
    + rewrite enum_cons. constructor; [|exact Hd].
      split; [reflexivity|]. exists v. split; [reflexivity|].
      exact (object_cell_ok inh row col v Hv).
    + rewrite Hvw, vw_write_data_cell. now rewrite <- app_assoc.
Qed.

Lemma vw_data_row (inh : jsval -> jsstring -> jsval) (tc : TableConfig)
  (sr sc : Num.double) (ws : worksheet) (i : nat) (row : jsval) (ws' : worksheet) :
  data_row inh tc sr sc ws i row = Ok ws' ->
  exists d, row_writes_ok inh tc.(tc_columns) sr sc i row d /\
    value_writes (ws_log ws') = value_writes (ws_log ws) ++ d.
Proof.
  unfold data_row. intros H.
  destruct row as [| | b | n | s | vs | props | id];
    try (injection H as <-; exists []; split; [reflexivity|]; now rewrite app_nil_r).
  - apply (vw_object_row inh JNull (fun c => data_addr sr sc i c)) in H. exact H.
  - injection H as <-. eexists. split; [reflexivity|].
    rewrite (vw_array_row (List.length (tc_columns tc)) (fun c => data_addr sr sc i c)).
    pose proof (enum_firstn vs 0 (List.length (tc_columns tc))) as E.
    cbn [Nat.add] in E. rewrite E. reflexivity.
  - apply (vw_object_row inh (JObj props) (fun c => data_addr sr sc i c)) in H. exact H.
Qed.

Lemma vw_data_rows (inh : jsval -> jsstring -> jsval) (tc : TableConfig)
  (sr sc : Num.double) (rows : list jsval) : forall k ws ws',
  fold_mi (data_row inh tc sr sc) k rows ws = Ok ws' ->
  exists ds,
    Forall2 (fun '(i, row) d => row_writes_ok inh tc.(tc_columns) sr sc i row d)
            (enum k rows) ds /\
    value_writes (ws_log ws') = value_writes (ws_log ws) ++ List.concat ds.
Proof.
  induction rows as [|row rows IH]; intros k ws ws' H; cbn [fold_mi] in H.
  - injection H as <-. exists []. split; [constructor|]. now rewrite app_nil_r.
  - apply bind_ok in H. destruct H as [w [Hw H]].
    destruct (vw_data_row inh tc sr sc ws k row w Hw) as [d [Hd Hvd]].
    destruct (IH _ _ _ H) as [ds [Hds Hvds]].
    exists (d :: ds). split.
    + rewrite enum_cons. constructor; assumption.
    + rewrite Hvds, Hvd. cbn [List.concat]. now rewrite <- app_assoc.
Qed.

(** C4: on an array of rows, a successful [createTable] assigns the header
    cells and then, for the row at index [i], cells of sheet row
    [startRow + i + 1] only: a value list positionally, its values beyond
    [columns.length] dropped; an object one cell per column, holding [''] when
    the lookup of the column name finds nothing and the value found when it is
    truthy. *)
Lemma createTable_row_writes :
  (forall (inh : jsval -> jsstring -> jsval) (L : library) (ws : worksheet)
          (tc : TableConfig) (rows : list jsval) (ws' : worksheet),
     rows <> [] -> Z.of_nat (List.length rows) < 2 ^ 32 ->
     createTable inh L ws tc (JArr rows) = Ok ws' ->
     exists letters digits ds,
       match_cell_ref tc.(tc_startCell) = Some (letters, digits) /\
       Forall2 (fun '(i, row) d =>
                  row_writes_ok inh tc.(tc_columns) (parseInt digits)
                    (columnLetterToNumber letters) i row d)
               (enum 0 rows) ds /\
       value_writes (ws_log ws') =
         value_writes (ws_log ws)
         ++ header_writes (parseInt digits) (columnLetterToNumber letters)
              tc.(tc_columns)
         ++ List.concat ds) /\
  exists ws',
    createTable object_host sample_library (new_worksheet (js "Sheet1"))
      sample_table_PQ (JArr sample_rows_mixed) = Ok ws' /\
    value_writes (ws_log ws') =
      [((Num.of_Z 1, Num.of_Z 1), CPlain (JStr (js "P")));
       ((Num.of_Z 1, Num.of_Z 2), CPlain (JStr (js "Q")));
       ((Num.of_Z 2, Num.of_Z 1), CPlain (JNum (Num.of_Z 1)));
       ((Num.of_Z 2, Num.of_Z 2), CPlain (JNum (Num.of_Z 2)));
       ((Num.of_Z 3, Num.of_Z 1), CPlain (JNum (Num.of_Z 5)));
       ((Num.of_Z 3, Num.of_Z 2), CPlain (JStr []))].
Proof.
  split.
  - intros inh L ws tc rows ws' Hne Hlen H.
    unfold createTable in H.
    rewrite is_length_zero_arr in H by (assumption || lia). cbn [truthy negb orb] in H.
    destruct (match_cell_ref (tc_startCell tc)) as [[letters digits]|] eqn:Em;
      [|discriminate].
    apply bind_ok in H. destruct H as [ws2 [Ef H]]. cbv beta zeta in H.
    destruct (numberToColumnLetter
                (Num.sub (Num.add (columnLetterToNumber letters)
                   (Num.of_Z (Z.of_nat (List.length (tc_columns tc))))) (Num.of_Z 1)))
      as [endCol|] eqn:Ec; [|discriminate].
    apply bind_ok in H. destruct H as [trows [Et H]].
    unfold add_table in H.
    destruct (lib_add_table L _ _); [discriminate|]. injection H as <-.
    destruct (vw_data_rows inh tc _ _ rows 0 _ _ Ef) as [ds [Hds Hvw]].
    exists letters, digits, ds.
    split; [reflexivity|]. split; [exact Hds|].
    cbn [ws_log]. rewrite Hvw, vw_headers, <- app_assoc. reflexivity.
  - lazymatch goal with
    | |- exists w, ?lhs = Ok w /\ _ =>
        let r := eval vm_compute in lhs in
        lazymatch r with Ok ?w => exists w end
    end.
    split; vm_compute; reflexivity.
Qed.

Lemma createTable_row_writes_witness :
  exists ws' letters digits ds,
    createTable object_host sample_library (new_worksheet (js "Sheet1"))
      sample_table_PQ (JArr sample_rows_mixed) = Ok ws' /\
    match_cell_ref (js "A1") = Some (letters, digits) /\
    Forall2 (fun '(i, row) d =>
               row_writes_ok object_host [js "P"; js "Q"] (parseInt digits)
                 (columnLetterToNumber letters) i row d)
            (enum 0 sample_rows_mixed) ds /\
    value_writes (ws_log ws') =
      [] ++ header_writes (parseInt digits) (columnLetterToNumber letters)
              [js "P"; js "Q"] ++ List.concat ds.
Proof.
  destruct createTable_row_writes as [H [ws' [E _]]].
  assert (Hne : sample_rows_mixed <> []) by discriminate.
  destruct (H object_host sample_library (new_worksheet (js "Sheet1")) sample_table_PQ
              _ ws' Hne ltac:(simpl; lia) E)
    as [letters [digits [ds [H1 [H2 H3]]]]].
  exists ws', letters, digits, ds.
  split; [exact E|]. split; [exact H1|]. split; [exact H2|]. exact H3.
Defined.

(** An object row is looked up with JavaScript property access: a column
    named after an inherited member ([toString]) finds the member, not
    [''], although the row has no such key. *)
Lemma createTable_inherited_column :
  exists ws',
    createTable object_host sample_library (new_worksheet (js "Sheet1"))
      sample_table_toString (JArr [JObj []]) = Ok ws' /\
    value_writes (ws_log ws') =
      [((Num.of_Z 1, Num.of_Z 1), CPlain (JStr (js "toString")));
       ((Num.of_Z 2, Num.of_Z 1),
        CPlain (JHost (js "Object.prototype.toString")))].
Proof.
  lazymatch goal with
  | |- exists w, ?lhs = Ok w /\ _ =>
      let r := eval vm_compute in lhs in
      lazymatch r with Ok ?w => exists w end
  end.
  split; vm_compute; reflexivity.
Qed.

Lemma split_on_nonempty (sep : Z) (s : jsstring) : split_on sep s <> [].
Proof.
  destruct s as [|c s]; simpl; [discriminate|].
  destruct (c =? sep); [discriminate|]. destruct (split_on sep s); discriminate.
Qed.

Lemma getNestedValue_falsy (inh : jsval -> jsstring -> jsval) (d : jsval) (p : jsstring) :
  truthy d = false -> getNestedValue inh d p = JNull.
Proof. intros H. unfold getNestedValue. apply gnv_fold_falsy; [exact H|apply split_on_nonempty]. Qed.

(** X1: When jsonData is falsy, every mapping writes the empty string to its cell, or a
    formula with cached result 0 when the mapping has a non-empty formula. *)
Theorem mapping_value_falsy_data (inh : jsval -> jsstring -> jsval) (d : jsval)
  (m : MappingConfig) :
  truthy d = false ->
  mapping_value inh d m =
  match m_formula m with
  | Some ((_ :: _) as f) => CFormula f (JNum (Num.of_Z 0))
  | _ => CPlain (JStr [])
  end.
Proof.
  intros H. unfold mapping_value. rewrite (getNestedValue_falsy inh d _ H).
  destruct (m_formula m) as [[|c f]|]; reflexivity.
Qed.

(** X2: createTable leaves the worksheet unchanged on an empty array, and throws "Invalid
    start cell: ..." on a non-empty array when the start cell is not a cell reference. *)
Theorem createTable_start_cell (inh : jsval -> jsstring -> jsval) (L : library)
  (ws : worksheet) (tc : TableConfig) :
  createTable inh L ws tc (JArr []) = Ok ws
  /\ (forall rows, rows <> [] -> Z.of_nat (List.length rows) < 2 ^ 53 ->
      match_cell_ref (tc_startCell tc) = None ->
      createTable inh L ws tc (JArr rows)
      = Throw (ErrorObj (js "Error") (js "Invalid start cell: " ++ tc_startCell tc))).
Proof.
  split.
  - unfold createTable. simpl. reflexivity.
  - intros rows Hne Hlen Hm. unfold createTable.
    rewrite (is_length_zero_arr inh rows Hne Hlen). simpl. now rewrite Hm.
Qed.

Lemma cell_at_push_here (o : cell_op) (ws : worksheet) (a : addr) :
  op_addr o = a -> cell_at (push o ws) a = apply_op (cell_at ws a) o.
Proof. intros <-. rewrite cell_at_push. now rewrite addr_eqb_refl. Qed.

Lemma merge_font_empty (f : font) :
  merge_font f {| font_color := None; font_size := None; font_bold := None;
                  font_italic := None; font_underline := None |} = f.
Proof. destruct f; reflexivity. Qed.

(** X3: applyCellStyle keeps the value and number format of the cell; it sets the fill,
    font colour, size, bold, italic and underline that the style gives with a truthy
    value and keeps the other font and fill attributes. *)
Theorem applyCellStyle_cell (a : addr) (st : cellstyle) (ws : worksheet) :
  let c0 := cell_at ws a in
  let c1 := cell_at (applyCellStyle a (Some st) ws) a in
  c_value c1 = c_value c0 /\ c_numFmt c1 = c_numFmt c0
  /\ c_fill c1 = (if str_truthy (bgColor st) then option_map argb (bgColor st)
                  else c_fill c0)
  /\ font_color (c_font c1) =
       (if str_truthy (fontColor st) then option_map argb (fontColor st)
        else font_color (c_font c0))
  /\ font_size (c_font c1) =
       match fontSize st with
       | Some n => if Num.truthy n then Some n else font_size (c_font c0)
       | None => font_size (c_font c0)
       end
  /\ font_bold (c_font c1) = (if bool_truthy (bold st) then Some true else font_bold (c_font c0))
  /\ font_italic (c_font c1) =
       (if bool_truthy (italic st) then Some true else font_italic (c_font c0))
  /\ font_underline (c_font c1) =
       (if bool_truthy (underline st) then Some true else font_underline (c_font c0)).
Proof.
  intros c0 c1. subst c0 c1. unfold applyCellStyle.
  set (ws1 := match bgColor st with
              | Some c => if str_truthy (Some c) then push (SetFill a (argb c)) ws else ws
              | None => ws end).
  assert (H1 : c_value (cell_at ws1 a) = c_value (cell_at ws a)
               /\ c_numFmt (cell_at ws1 a) = c_numFmt (cell_at ws a)
               /\ c_font (cell_at ws1 a) = c_font (cell_at ws a)
               /\ c_fill (cell_at ws1 a) =
                  (if str_truthy (bgColor st) then option_map argb (bgColor st)
                   else c_fill (cell_at ws a))).
  { subst ws1. destruct (bgColor st) as [[|x c]|]; simpl;
      [auto| |auto].
    rewrite (cell_at_push_here (SetFill a _) ws a eq_refl). simpl. auto. }
  destruct H1 as [Hv [Hn [Hf Hfill]]].
  match goal with |- context [merge_font _ ?fo] => remember fo as FO eqn:HFO end.
  set (c1 := cell_at _ a).
  assert (Hc1 : c_value c1 = c_value (cell_at ws1 a) /\ c_numFmt c1 = c_numFmt (cell_at ws1 a)
                /\ c_fill c1 = c_fill (cell_at ws1 a)
                /\ c_font c1 = merge_font (c_font (cell_at ws1 a)) FO).
  { subst c1.
    match goal with |- context [if ?t then _ else _] => destruct t eqn:T end.
    - rewrite (cell_at_push_here (SetFont a _) ws1 a eq_refl). simpl. auto.
    - subst FO.
      destruct (fontColor st) as [[|x c]|]; destruct (fontSize st) as [n|];
        try destruct (Num.truthy n); destruct (bool_truthy (bold st));
        destruct (bool_truthy (italic st)); destruct (bool_truthy (underline st));
        simpl in T; try discriminate; simpl; rewrite ?merge_font_empty; auto. }
  clearbody c1. destruct Hc1 as [E1 [E2 [E3 E4]]].
  rewrite E1, E2, E3, E4, Hv, Hn, Hfill, Hf. subst FO. cbn [merge_font font_color font_size font_bold font_italic font_underline].
  split; [reflexivity|]. split; [reflexivity|]. split; [reflexivity|].
  split; [destruct (fontColor st) as [[|x c]|]; reflexivity|].
  split; [destruct (fontSize st) as [n|]; [destruct (Num.truthy n)|]; reflexivity|].
  split; [destruct (bool_truthy (bold st)); reflexivity|].
  split; [destruct (bool_truthy (italic st)); reflexivity|].
  destruct (bool_truthy (underline st)); reflexivity.
Qed.

Lemma jsstring_eqb_eq (a b : jsstring) : jsstring_eqb a b = true <-> a = b.
Proof.
  revert b. induction a as [|x a IH]; intros [|y b]; simpl; try easy.
  rewrite andb_true_iff, Z.eqb_eq, IH. split; [intros [-> ->]; reflexivity|].
  intros H; injection H as -> ->; auto.
Qed.





Lemma push_name (o : cell_op) (ws : worksheet) : ws_name (push o ws) = ws_name ws.
Proof. reflexivity. Qed.







Lemma applyCellFormat_name' (tl : jsstring -> jsstring) (a : addr) (f : option jsstring)
  (ws : worksheet) : ws_name (applyCellFormat tl a f ws) = ws_name ws.
Proof. apply applyCellFormat_name. Qed.










Lemma digits_value_app (a : Z) (ds rest : jsstring) :
  digits_value a (ds ++ rest) =
  match digits_value a ds with Some v => digits_value v rest | None => None end.
Proof.
  revert a. induction ds as [|c ds IH]; intros a; simpl; [reflexivity|].
  destruct ((48 <=? c) && (c <=? 57)); [apply IH|reflexivity].
Qed.

Lemma decimal_aux_spec (f : nat) : forall n acc, 0 < n < 10 ^ Z.of_nat f ->
  exists ds, decimal_aux f n acc = ds ++ acc
             /\ (forall a, digits_value a ds = Some (a * 10 ^ Z.of_nat (List.length ds) + n))
             /\ (exists c rest, ds = c :: rest /\ c <> 48).
Proof.
  induction f as [|f IH]; intros n acc Hn; [simpl in Hn; lia|].
  cbn [decimal_aux]. rewrite Nat2Z.inj_succ, Z.pow_succ_r in Hn by lia.
  pose proof (Z.mod_pos_bound n 10 ltac:(lia)) as Hm.
  destruct (Z.eqb_spec (n / 10) 0) as [Hq|Hq].
  - exists [48 + n mod 10]. split; [reflexivity|]. split.
    + intros a. cbn [digits_value]. replace ((48 <=? 48 + n mod 10) && (48 + n mod 10 <=? 57)) with true
        by (symmetry; apply andb_true_iff; split; apply Z.leb_le; lia).
      f_equal. change (Z.of_nat (List.length [48 + n mod 10])) with 1.
      pose proof (Z.div_mod n 10 ltac:(lia)). rewrite Hq in *. lia.
    + exists (48 + n mod 10), []. split; [reflexivity|].
      pose proof (Z.div_mod n 10 ltac:(lia)). rewrite Hq in *. lia.
  - assert (Hq' : 0 < n / 10 < 10 ^ Z.of_nat f).
    { assert (H10 : 10 <= n).
      { destruct (Z_lt_le_dec n 10) as [Hl|Hl]; [|exact Hl].
        rewrite Z.div_small in Hq by lia. congruence. }
      split; [apply Z.div_str_pos; lia|]. apply Z.div_lt_upper_bound; lia. }
    destruct (IH (n / 10) ((48 + n mod 10) :: acc) Hq') as [ds [E [Hv Hh]]].
    exists (ds ++ [48 + n mod 10]). split; [rewrite E, <- app_assoc; reflexivity|]. split.
    + intros a. rewrite digits_value_app, Hv. cbn [digits_value].
      replace ((48 <=? 48 + n mod 10) && (48 + n mod 10 <=? 57)) with true
        by (symmetry; apply andb_true_iff; split; apply Z.leb_le; lia).
      f_equal. rewrite length_app. simpl List.length.
      rewrite Nat2Z.inj_add, Z.pow_add_r by lia.
      change (Z.of_nat (List.length [48 + n mod 10])) with 1.
      pose proof (Z.div_mod n 10 ltac:(lia)). nia.
    + destruct Hh as [c [rest [-> Hc]]]. exists c, (rest ++ [48 + n mod 10]). auto.
Qed.

Lemma canonical_index_cons (c : Z) (rest : jsstring) :
  c <> 48 -> canonical_index (c :: rest) = digits_value 0 (c :: rest).
Proof.
  intros H. unfold canonical_index.
  destruct c as [|p|p]; try reflexivity.
  do 6 (destruct p as [p|p|]; try reflexivity).
  all: exfalso; apply H; reflexivity.
Qed.

Lemma decimal_canonical (n : Z) : 0 < n -> canonical_index (decimal n) = Some n.
Proof.
  intros Hn. unfold decimal.
  assert (Hb : 0 < n < 10 ^ Z.of_nat (S (Z.to_nat (Z.log2 n)))).
  { split; [lia|]. rewrite Nat2Z.inj_succ, Z2Nat.id by (apply Z.log2_nonneg).
    apply Z.lt_le_trans with (2 ^ Z.succ (Z.log2 n)).
    - apply Z.log2_spec. lia.
    - apply Z.pow_le_mono_l. pose proof (Z.log2_nonneg n). lia. }
  destruct (decimal_aux_spec _ n [] Hb) as [ds [E [Hv [c [rest [Hds Hc]]]]]].
  rewrite E, app_nil_r. rewrite Hds in *.
  assert (Hd : digits_value 0 (c :: rest) = Some n) by (rewrite Hv; f_equal; lia).
  now rewrite canonical_index_cons.
Qed.

Lemma bulk_item_name (inh : jsval -> jsstring -> jsval)
  (gen : jsval -> jsval -> jsval -> jsval -> Exc (list Z)) (i : nat) (req : jsval)
  (r : bulk_result) :
  bulk_item inh gen i req = Ok r -> truthy (get inh req (js "fileName")) = false ->
  br_fileName r = JStr (js "generated_" ++ decimal (Z.of_nat i + 1) ++ js ".xlsx").
Proof.
  unfold bulk_item. intros H Hf.
  apply bind_ok in H. destruct H as [jd [E1 H]].
  do 4 (apply bind_ok in H; destruct H as [? [_ H]]).
  apply bind_ok in H. destruct H as [fn [E2 H]]. injection H as <-. simpl.
  assert (fn = get inh req (js "fileName")) as ->.
  { unfold member in E1, E2. destruct req; try discriminate; congruence. }
  now rewrite Hf.
Qed.

(** X6: In the bulk loop, a request without a truthy fileName gets generated_<i+1>.xlsx,
    so two such requests at different indices get different names. *)
Theorem bulk_default_file_names (inh : jsval -> jsstring -> jsval)
  (gen : jsval -> jsval -> jsval -> jsval -> Exc (list Z))
  (i j : nat) (req1 req2 : jsval) (r1 r2 : bulk_result) :
  bulk_item inh gen i req1 = Ok r1 -> bulk_item inh gen j req2 = Ok r2 ->
  truthy (get inh req1 (js "fileName")) = false ->
  truthy (get inh req2 (js "fileName")) = false ->
  (exists ds, br_fileName r1 = JStr (js "generated_" ++ ds ++ js ".xlsx")
              /\ canonical_index ds = Some (Z.of_nat i + 1))
  /\ (i <> j -> br_fileName r1 <> br_fileName r2).
Proof.
  intros H1 H2 F1 F2.
  rewrite (bulk_item_name inh gen i req1 r1 H1 F1), (bulk_item_name inh gen j req2 r2 H2 F2).
  split.
  - eexists; split; [reflexivity|]. apply decimal_canonical. lia.
  - intros Hij E. injection E as E. apply app_inv_tail in E.
    apply Hij. apply (f_equal canonical_index) in E.
    rewrite !decimal_canonical in E by lia. injection E. lia.
Qed.

Lemma ensure_sheet_total (L : library) (wb : workbook) (n : jsstring) :
  (forall wb n, lib_add_worksheet L wb n = None) ->
  exists wb1, ensure_sheet L wb n = Ok wb1.
Proof.
  intros HL. unfold ensure_sheet. destruct (getWorksheet wb n); [eauto|].
  rewrite HL. eauto.
Qed.

Lemma update_sheet_total (n : jsstring) (g : worksheet -> worksheet) (wb : workbook) :
  exists wb', update_sheet n (fun w => Ok (g w)) wb = Ok wb'.
Proof.
  induction wb as [|w wb [r IH]]; simpl; [eauto|].
  destruct (jsstring_eqb (ws_name w) n); simpl; [eauto|]. rewrite IH. simpl. eauto.
Qed.

Lemma mapping_loop_total (inh : jsval -> jsstring -> jsval) (tl : jsstring -> jsstring)
  (L : library) (d : jsval) (ms : list MappingConfig) :
  (forall wb n, lib_add_worksheet L wb n = None) ->
  (forall m, In m ms -> exists a, lib_decode_address L (m_cell m) = inl a) ->
  forall wb, exists wb', fold_m (apply_mapping inh tl L d) ms wb = Ok wb'.
Proof.
  intros HL. induction ms as [|m ms IH]; intros Hd wb; simpl; [eauto|].
  unfold apply_mapping at 1.
  destruct (ensure_sheet_total L wb (m_sheet m) HL) as [wb1 E1]. rewrite E1. simpl.
  destruct (Hd m (or_introl eq_refl)) as [a Ea]. rewrite Ea. simpl.
  edestruct update_sheet_total as [wb2 E2]. rewrite E2. simpl.
  apply IH. intros m' Hm'. apply Hd. now right.
Qed.

(** X7: When jsonData is null or undefined and at least one table is given,
    generateWorkbook fails with the TypeError reading 'tableData', wrapped as
    "Failed to generate Excel workbook: ...", as soon as the workbook has been
    loaded or created, every mapping has been applied and the first table's sheet
    has been found or added. *)
Theorem generateWorkbook_tables_without_data (inh : jsval -> jsstring -> jsval)
  (tl : jsstring -> jsstring) (L : library) (d : jsval) (ms : list MappingConfig)
  (tc : TableConfig) (tcs : list TableConfig) (tpl : option (list Z)) (opts : ExcelOptions)
  (wb0 wb1 wb2 : workbook) :
  (d = JNull \/ d = JUndefined) ->
  match tpl with
  | Some buf => lift (lib_load L buf)
  | None => ensure_sheet L [] (js "Sheet1")
  end = Ok wb0 ->
  fold_m (apply_mapping inh tl L d) ms wb0 = Ok wb1 ->
  ensure_sheet L wb1 (tc_sheet tc) = Ok wb2 ->
  generateWorkbook inh tl L d ms (tc :: tcs) tpl opts
  = Throw (ErrorObj (js "Error")
             (js "Failed to generate Excel workbook: Cannot read properties of "
              ++ js_null_name d ++ js " (reading 'tableData')")).
Proof.
  intros Hd E0 E1 E2. unfold generateWorkbook, generate_body.
  rewrite E0. simpl. rewrite E1. simpl.
  unfold apply_table at 1. rewrite E2. simpl.
  rewrite getNestedValue_falsy by (destruct Hd as [-> | ->]; reflexivity). simpl.
  destruct Hd as [-> | ->]; reflexivity.
Qed.

Lemma createEmailTransporter_cases (env : jsstring -> option jsstring) :
  (exists cfg, createEmailTransporter env = Ok cfg
               /\ ec_user cfg <> [] /\ ec_pass cfg <> [])
  \/ ((env_or env (js "EMAIL_USER") [] = [] \/ env_or env (js "EMAIL_PASS") [] = [])
      /\ createEmailTransporter env
         = Throw (ErrorObj (js "Error")
             (js "Email credentials not configured. Please set EMAIL_USER and EMAIL_PASS in .env file"))).
Proof.
  unfold createEmailTransporter. cbn [ec_user ec_pass].
  destruct (env_or env (js "EMAIL_USER") []) as [|u us] eqn:Eu;
  destruct (env_or env (js "EMAIL_PASS") []) as [|p ps] eqn:Ep; simpl;
    try (right; split; [auto|reflexivity]).
  left. eexists. split; [reflexivity|]. simpl. split; discriminate.
Qed.

Lemma createEmailTransporter_missing (env : jsstring -> option jsstring) :
  env_or env (js "EMAIL_USER") [] = [] \/ env_or env (js "EMAIL_PASS") [] = [] ->
  createEmailTransporter env
  = Throw (ErrorObj (js "Error")
      (js "Email credentials not configured. Please set EMAIL_USER and EMAIL_PASS in .env file")).
Proof.
  intros H. unfold createEmailTransporter. cbn [ec_user ec_pass].
  destruct H as [H|H]; rewrite H; simpl;
    [reflexivity|now destruct (env_or env (js "EMAIL_USER") [])].
Qed.

Lemma sendEmail_result (env : jsstring -> option jsstring) (M : mailer)
  (ts : jsval -> jsstring + jsexn) (nl dt hh hm ht : jsstring)
  (recipient : jsval) (buf : list Z) (fileName subject message : jsval) :
  sendEmailWithAttachment env M ts nl dt hh hm ht recipient buf fileName subject message = Ok tt
  \/ exists msg,
       sendEmailWithAttachment env M ts nl dt hh hm ht recipient buf fileName subject message
       = Throw (ErrorObj (js "Error") (js "Failed to send email: " ++ msg)).
Proof.
  unfold sendEmailWithAttachment.
  destruct (createEmailTransporter_cases env) as [[cfg [E _]]|[_ E]]; rewrite E;
    simpl; [|right; eexists; reflexivity].
  destruct (ts _) as [name|e]; simpl; [|right; eexists; reflexivity].
  destruct (mail_send M cfg _); simpl; [right; eexists; reflexivity|left; reflexivity].
Qed.

Lemma sendEmail_missing (env : jsstring -> option jsstring) (M : mailer)
  (ts : jsval -> jsstring + jsexn) (nl dt hh hm ht : jsstring)
  (recipient : jsval) (buf : list Z) (fileName subject message : jsval) :
  env_or env (js "EMAIL_USER") [] = [] \/ env_or env (js "EMAIL_PASS") [] = [] ->
  sendEmailWithAttachment env M ts nl dt hh hm ht recipient buf fileName subject message
  = Throw (ErrorObj (js "Error")
      (js "Failed to send email: "
       ++ js "Email credentials not configured. Please set EMAIL_USER and EMAIL_PASS in .env file")).
Proof.
  intros H. unfold sendEmailWithAttachment.
  rewrite (createEmailTransporter_missing env H). reflexivity.
Qed.

(** X8: sendEmailWithAttachment either succeeds or throws an Error whose message starts
    with "Failed to send email: "; without EMAIL_USER or EMAIL_PASS it throws the wrapped
    credentials message. *)
Theorem sendEmailWithAttachment_outcome (env : jsstring -> option jsstring) (M : mailer)
  (ts : jsval -> jsstring + jsexn) (nl dt hh hm ht : jsstring)
  (recipient : jsval) (buf : list Z) (fileName subject message : jsval) :
  (sendEmailWithAttachment env M ts nl dt hh hm ht recipient buf fileName subject message = Ok tt
   \/ exists msg,
        sendEmailWithAttachment env M ts nl dt hh hm ht recipient buf fileName subject message
        = Throw (ErrorObj (js "Error") (js "Failed to send email: " ++ msg)))
  /\ (env_or env (js "EMAIL_USER") [] = [] \/ env_or env (js "EMAIL_PASS") [] = [] ->
      sendEmailWithAttachment env M ts nl dt hh hm ht recipient buf fileName subject message
      = Throw (ErrorObj (js "Error")
          (js "Failed to send email: "
           ++ js "Email credentials not configured. Please set EMAIL_USER and EMAIL_PASS in .env file"))).
Proof.
  split; [apply sendEmail_result|apply sendEmail_missing].
Qed.

Section BulkEmail.

Variable env : jsstring -> option jsstring.
Variable M : mailer.
Variable ts : jsval -> jsstring + jsexn.
Variables nl dt hh hm ht : jsstring.
Variables (buf : list Z) (fn s m : jsval).

Let sent (r : jsval) : bool :=
  match sendEmailWithAttachment env M ts nl dt hh hm ht r buf fn s m with
  | Ok _ => true
  | _ => false
  end.

Lemma send_each_spec (rs : list jsval) : forall succ fail,
  exists f,
    send_each env M ts nl dt hh hm ht rs buf fn s m succ fail
    = Ok (succ ++ filter sent rs, fail ++ f)
    /\ map fst f = filter (fun r => negb (sent r)) rs
    /\ Forall (fun p => exists msg, snd p = js "Failed to send email: " ++ msg) f.
Proof.
  induction rs as [|r rs IH]; intros succ fail.
  - exists []. simpl. rewrite !app_nil_r. auto.
  - cbn [send_each filter].
    destruct (sendEmail_result env M ts nl dt hh hm ht r buf fn s m) as [E|[msg E]].
    + assert (Hs : sent r = true) by (unfold sent; now rewrite E).
      rewrite E, Hs.
      destruct (IH (succ ++ [r]) fail) as [f [H1 [H2 H3]]].
      exists f. rewrite H1, <- app_assoc. auto.
    + assert (Hs : sent r = false) by (unfold sent; now rewrite E).
      rewrite E, Hs. cbn [message_or].
      destruct (IH succ (fail ++ [(r, js "Failed to send email: " ++ msg)])) as [f [H1 [H2 H3]]].
      exists ((r, js "Failed to send email: " ++ msg) :: f).
      split; [etransitivity; [exact H1|]; now rewrite <- app_assoc|].
      simpl. rewrite H2. split; [reflexivity|].
      constructor; [eexists; reflexivity|exact H3].
Qed.

End BulkEmail.

(** X9: sendBulkEmails never throws: it returns the recipients whose send succeeded, in
    order, and the others with an error message starting with "Failed to send email: ";
    without credentials every recipient fails. *)
Theorem sendBulkEmails_partition (env : jsstring -> option jsstring) (M : mailer)
  (ts : jsval -> jsstring + jsexn) (nl dt hh hm ht : jsstring)
  (rs : list jsval) (buf : list Z) (fileName s m : jsval) :
  let fn := if is_undefined fileName then JStr (js "generated.xlsx") else fileName in
  let sent r :=
    match sendEmailWithAttachment env M ts nl dt hh hm ht r buf fn s m with
    | Ok _ => true
    | _ => false
    end in
  (exists failed,
     sendBulkEmails env M ts nl dt hh hm ht rs buf fileName s m = Ok (filter sent rs, failed)
     /\ map fst failed = filter (fun r => negb (sent r)) rs
     /\ Forall (fun p => exists msg, snd p = js "Failed to send email: " ++ msg) failed)
  /\ (env_or env (js "EMAIL_USER") [] = [] \/ env_or env (js "EMAIL_PASS") [] = [] ->
      sendBulkEmails env M ts nl dt hh hm ht rs buf fileName s m
      = Ok ([], map (fun r => (r, js "Failed to send email: "
              ++ js "Email credentials not configured. Please set EMAIL_USER and EMAIL_PASS in .env file")) rs)).
Proof.
  intros fn sent. split.
  - destruct (send_each_spec env M ts nl dt hh hm ht buf fn s m rs [] []) as [f [H1 [H2 H3]]].
    exists f. unfold sendBulkEmails. fold fn. rewrite H1. auto.
  - intros Hc. unfold sendBulkEmails. fold fn.
    assert (G : forall succ fail,
      send_each env M ts nl dt hh hm ht rs buf fn s m succ fail
      = Ok (succ, fail ++ map (fun r => (r, js "Failed to send email: "
              ++ js "Email credentials not configured. Please set EMAIL_USER and EMAIL_PASS in .env file")) rs)).
    { induction rs as [|r rs IH]; intros succ fail; simpl.
      - now rewrite app_nil_r.
      - rewrite (sendEmail_missing env M ts nl dt hh hm ht r buf fn s m Hc).
        simpl. rewrite IH, <- app_assoc. reflexivity. }
    apply G.
Qed.

Lemma testEmail_cases (env : jsstring -> option jsstring) (M : mailer) :
  exists ok msg, testEmailConfiguration env M = Ok (ok, msg)
    /\ (ok = true <-> exists cfg, createEmailTransporter env = Ok cfg /\ mail_verify M cfg = None)
    /\ (ok = true -> msg = js "Email configuration is valid and ready to use")
    /\ (env_or env (js "EMAIL_USER") [] = [] \/ env_or env (js "EMAIL_PASS") [] = [] ->
        ok = false
        /\ msg = js "Email configuration error: "
                 ++ js "Email credentials not configured. Please set EMAIL_USER and EMAIL_PASS in .env file").
Proof.
  unfold testEmailConfiguration.
  destruct (createEmailTransporter_cases env) as [[cfg [E [Hu Hp]]]|[Hm E]]; rewrite E; simpl.
  - destruct (mail_verify M cfg) as [e|] eqn:V; simpl.
    + exists false, (js "Email configuration error: " ++ message_or (js "Unknown error") e).
      split; [reflexivity|]. split; [|split].
      * split; [discriminate|]. intros [cfg' [E' V']]. injection E' as <-. congruence.
      * discriminate.
      * intros H. exfalso. unfold createEmailTransporter in E. cbn [ec_user ec_pass] in E.
        destruct H as [H|H]; rewrite H in E; simpl in E;
          [discriminate|destruct (env_or env (js "EMAIL_USER") []); discriminate].
    + exists true, (js "Email configuration is valid and ready to use").
      split; [reflexivity|]. split; [|split].
      * split; [intros _; eauto|reflexivity].
      * reflexivity.
      * intros H. exfalso. unfold createEmailTransporter in E. cbn [ec_user ec_pass] in E.
        destruct H as [H|H]; rewrite H in E; simpl in E;
          [discriminate|destruct (env_or env (js "EMAIL_USER") []); discriminate].
  - eexists false, _. split; [reflexivity|]. split; [|split].
    + split; [discriminate|]. intros [cfg [E' _]]. congruence.
    + discriminate.
    + intros _. split; reflexivity.
Qed.

(** X10: testEmailConfiguration never throws: it reports success exactly when a
    transporter is created and verified, and reports the credentials error when they are
    missing. *)
Theorem testEmailConfiguration_never_throws (env : jsstring -> option jsstring) (M : mailer) :
  exists ok msg, testEmailConfiguration env M = Ok (ok, msg)
    /\ (ok = true <-> exists cfg, createEmailTransporter env = Ok cfg /\ mail_verify M cfg = None)
    /\ (ok = true -> msg = js "Email configuration is valid and ready to use")
    /\ (env_or env (js "EMAIL_USER") [] = [] \/ env_or env (js "EMAIL_PASS") [] = [] ->
        ok = false
        /\ msg = js "Email configuration error: "
                 ++ js "Email credentials not configured. Please set EMAIL_USER and EMAIL_PASS in .env file").
Proof. apply testEmail_cases. Qed.

(** X11: getExcelInfo always answers 200 with the email configuration status of
    testEmailConfiguration, and names the templateId only when it is non-empty. *)
Theorem getExcelInfo_always_200 (env : jsstring -> option jsstring) (M : mailer)
  (now : jsstring) (templateId : option jsstring) :
  exists ok msg info,
    testEmailConfiguration env M = Ok (ok, msg)
    /\ Info.getExcelInfo env M now templateId = Ok (RJson 200 (JObj info))
    /\ assoc_last (js "emailConfiguration") info
       = Some (JObj [(js "configured", JBool ok); (js "status", JStr msg)])
    /\ assoc_last (js "templateId") info
       = match templateId with Some ((_ :: _) as t) => Some (JStr t) | _ => None end.
Proof.
  destruct (testEmail_cases env M) as [ok [msg [E _]]].
  exists ok, msg. unfold Info.getExcelInfo. rewrite E. simpl.
  eexists. split; [reflexivity|]. split; [reflexivity|].
  destruct templateId as [[|c t]|]; split; reflexivity.
Qed.

Lemma assoc_last_app (k : jsstring) (l1 l2 : list (jsstring * jsval)) :
  assoc_last k (l1 ++ l2)
  = match assoc_last k l2 with Some w => Some w | None => assoc_last k l1 end.
Proof.
  induction l1 as [|[k' v] l1 IH]; simpl.
  - now destruct (assoc_last k l2).
  - rewrite IH. destruct (assoc_last k l2); [reflexivity|].
    destruct (assoc_last k l1); reflexivity.
Qed.

Section Handlers.

Variable inh : jsval -> jsstring -> jsval.
Variable gen : jsval -> jsval -> jsval -> option (list Z) -> jsval -> Exc (list Z).
Variable env : jsstring -> option jsstring.
Variable M : mailer.
Variable ts : jsval -> jsstring + jsexn.
Variables nl dt hh hm ht : jsstring.
Variable ns : Num.double -> jsstring.
Variable b64 : list Z -> jsstring.
Variable now : jsstring.

Let generate_of (body : list (jsstring * jsval)) (file : option upload) : Exc (list Z) :=
  gen (Controller.field inh body (js "jsonData")) (Controller.field inh body (js "mappingConfig"))
      (Controller.default_to (Controller.field inh body (js "tables")) (JArr []))
      (match file with Some f => Some (up_buffer f) | None => None end)
      (Controller.default_to (Controller.field inh body (js "options")) (JObj [])).

Lemma generateExcel_throw (body : list (jsstring * jsval)) (file : option upload) (e : jsexn) :
  generate_of body file = Throw e ->
  Controller.generateExcel inh gen env M ts nl dt hh hm ht ns b64 now body file
  = Ok (RJson 500 (JObj
      [(js "error", JStr (js "Failed to generate Excel file"));
       (js "message", JStr (message_or (js "Unknown error occurred") e));
       (js "timestamp", JStr now)])).
Proof.
  intros H. unfold Controller.generateExcel. unfold generate_of in H. rewrite H. reflexivity.
Qed.

Lemma download_branch (body : list (jsstring * jsval)) (file : option upload)
  (buf : list Z) (name : jsstring) :
  is_js_string (Controller.default_to (Controller.field inh body (js "mode"))
                  (JStr (js "download"))) (js "download") = true ->
  generate_of body file = Ok buf ->
  ts (Controller.default_to (Controller.field inh body (js "fileName"))
        (JStr (js "generated.xlsx"))) = inl name ->
  Controller.generateExcel inh gen env M ts nl dt hh hm ht ns b64 now body file
  = Ok (if forallb header_char name then
          RSend [(js "Content-Type", JStr xlsx_content_type);
                 (js "Content-Disposition", JStr (js "attachment; filename=" ++ [34] ++ name ++ [34]));
                 (js "Content-Length", num (Z.of_nat (List.length buf)))] buf
        else
          RJson 500 (JObj
            [(js "error", JStr (js "Failed to generate Excel file"));
             (js "message", JStr (js "Invalid character in header content ["
                                  ++ [34] ++ js "Content-Disposition" ++ [34] ++ js "]"));
             (js "timestamp", JStr now)])).
Proof.
  intros Hm Hg Hn.
  assert (Hc : forall l, forallb header_char (js "attachment; filename=" ++ [34] ++ l ++ [34])
                         = forallb header_char l).
  { intros l. rewrite !forallb_app. simpl. now rewrite andb_true_r. }
  unfold Controller.generateExcel. unfold generate_of in Hg. rewrite Hg, Hm, Hn.
  cbv beta iota delta [bind lift]. unfold set_header. rewrite Hc.
  destruct (forallb header_char name); reflexivity.
Qed.



(** Every plain object inherits from [Object.prototype]: what it inherits
    does not depend on its own properties. *)
Hypothesis inh_plain : forall p q k, inh (JObj p) k = inh (JObj q) k.

Lemma field_set_mode (body : list (jsstring * jsval)) (m k : jsstring) :
  jsstring_eqb k (js "mode") = false ->
  Controller.field inh (Controller.set_mode body m) k = Controller.field inh body k.
Proof.
  intros Hk. unfold Controller.field, Controller.set_mode. simpl get.
  rewrite assoc_last_app. simpl. rewrite Hk.
  destruct (assoc_last k body); [reflexivity|apply inh_plain].
Qed.

Lemma field_set_mode_mode (body : list (jsstring * jsval)) (m : jsstring) :
  Controller.field inh (Controller.set_mode body m) (js "mode") = JStr m.
Proof.
  unfold Controller.field, Controller.set_mode. simpl get.
  rewrite assoc_last_app. reflexivity.
Qed.

Lemma generate_of_set_mode (body : list (jsstring * jsval)) (m : jsstring) (file : option upload) :
  generate_of (Controller.set_mode body m) file = generate_of body file.
Proof. unfold generate_of. rewrite !field_set_mode by reflexivity. reflexivity. Qed.

(** X12: When generation throws, generateExcel answers 500 with the error message and a
    timestamp, whatever the mode. *)
Theorem generateExcel_generation_failure (body : list (jsstring * jsval)) (file : option upload)
  (e : jsexn) :
  gen (Controller.field inh body (js "jsonData")) (Controller.field inh body (js "mappingConfig"))
      (Controller.default_to (Controller.field inh body (js "tables")) (JArr []))
      (match file with Some f => Some (up_buffer f) | None => None end)
      (Controller.default_to (Controller.field inh body (js "options")) (JObj [])) = Throw e ->
  Controller.generateExcel inh gen env M ts nl dt hh hm ht ns b64 now body file
  = Ok (RJson 500 (JObj
      [(js "error", JStr (js "Failed to generate Excel file"));
       (js "message", JStr (message_or (js "Unknown error occurred") e));
       (js "timestamp", JStr now)])).
Proof. apply generateExcel_throw. Qed.

(** X13: downloadExcel sends the generated buffer with the content type, disposition and
    length headers when the file name is valid header content, and answers 500 otherwise. *)
Theorem downloadExcel_sends_file (body : list (jsstring * jsval)) (file : option upload)
  (buf : list Z) (name : jsstring) :
  gen (Controller.field inh body (js "jsonData")) (Controller.field inh body (js "mappingConfig"))
      (Controller.default_to (Controller.field inh body (js "tables")) (JArr []))
      (match file with Some f => Some (up_buffer f) | None => None end)
      (Controller.default_to (Controller.field inh body (js "options")) (JObj [])) = Ok buf ->
  ts (Controller.default_to (Controller.field inh body (js "fileName"))
        (JStr (js "generated.xlsx"))) = inl name ->
  Controller.downloadExcel inh gen env M ts nl dt hh hm ht ns b64 now body file
  = Ok (if forallb header_char name then
          RSend [(js "Content-Type", JStr xlsx_content_type);
                 (js "Content-Disposition", JStr (js "attachment; filename=" ++ [34] ++ name ++ [34]));
                 (js "Content-Length", num (Z.of_nat (List.length buf)))] buf
        else
          RJson 500 (JObj
            [(js "error", JStr (js "Failed to generate Excel file"));
             (js "message", JStr (js "Invalid character in header content ["
                                  ++ [34] ++ js "Content-Disposition" ++ [34] ++ js "]"));
             (js "timestamp", JStr now)])).
Proof.
  intros Hg Hn. unfold Controller.downloadExcel.
  apply download_branch.
  - rewrite field_set_mode_mode. reflexivity.
  - rewrite generate_of_set_mode. exact Hg.
  - rewrite field_set_mode by reflexivity. exact Hn.
Qed.

(** X14: emailExcel answers 400 without generating anything when emailAddress is falsy. *)
Theorem emailExcel_requires_address (body : list (jsstring * jsval)) (file : option upload) :
  truthy (Controller.field inh body (js "emailAddress")) = false ->
  Controller.emailExcel inh gen env M ts nl dt hh hm ht ns b64 now body file
  = Ok (RJson 400 (JObj
      [(js "error", JStr (js "Email address required"));
       (js "message", JStr (js "Please provide a valid email address"))])).
Proof.
  intros H. unfold Controller.emailExcel.
  rewrite field_set_mode by reflexivity. now rewrite H.
Qed.

(** X15: emailExcel with an address but no mail credentials answers 500 with the wrapped
    credentials message. *)
Theorem emailExcel_without_credentials (body : list (jsstring * jsval)) (file : option upload)
  (buf : list Z) :
  truthy (Controller.field inh body (js "emailAddress")) = true ->
  gen (Controller.field inh body (js "jsonData")) (Controller.field inh body (js "mappingConfig"))
      (Controller.default_to (Controller.field inh body (js "tables")) (JArr []))
      (match file with Some f => Some (up_buffer f) | None => None end)
      (Controller.default_to (Controller.field inh body (js "options")) (JObj [])) = Ok buf ->
  env_or env (js "EMAIL_USER") [] = [] \/ env_or env (js "EMAIL_PASS") [] = [] ->
  Controller.emailExcel inh gen env M ts nl dt hh hm ht ns b64 now body file
  = Ok (RJson 500 (JObj
      [(js "error", JStr (js "Failed to generate Excel file"));
       (js "message", JStr (js "Failed to send email: "
          ++ js "Email credentials not configured. Please set EMAIL_USER and EMAIL_PASS in .env file"));
       (js "timestamp", JStr now)])).
Proof.
  intros Ha Hg Hc. unfold Controller.emailExcel.
  rewrite field_set_mode by reflexivity. rewrite Ha. cbv iota beta. cbn [negb].
  unfold Controller.generateExcel.
  fold (generate_of (Controller.set_mode body (js "email")) file).
  assert (Hg' : generate_of body file = Ok buf) by exact Hg.
  rewrite generate_of_set_mode, Hg'. cbv beta iota delta [bind].
  rewrite field_set_mode_mode. cbn [is_js_string jsstring_eqb js].
  rewrite !field_set_mode by reflexivity. rewrite Ha. cbn [negb].
  rewrite (sendEmail_missing env M ts nl dt hh hm ht _ buf _ JUndefined JUndefined Hc).
  reflexivity.
Qed.

End Handlers.

Section Templates.

Variable L : library.
Variable ns : Num.double -> jsstring.
Variable now : jsstring.
Variables rc cc : worksheet -> Z.
Variable sv : worksheet -> list jsval.

(** X16: uploadTemplate answers 400 without a file, 400 with the load error on an
    unreadable workbook, and 200 with the sheet names and details otherwise. *)
Theorem uploadTemplate_responses (f : upload) :
  Controller.uploadTemplate L ns now rc cc sv None
  = Ok (RJson 400 (JObj
      [(js "error", JStr (js "No template file provided"));
       (js "message", JStr (js "Please upload an Excel template file (.xlsx or .xls)"))]))
  /\ (forall e, lib_load L (up_buffer f) = inr e ->
      Controller.uploadTemplate L ns now rc cc sv (Some f)
      = Ok (RJson 400 (JObj
          [(js "error", JStr (js "Invalid template file"));
           (js "message", JStr (message_or (js "Invalid template file") e));
           (js "details", JStr (js "Please ensure the file is a valid Excel workbook"))])))
  /\ (forall wb, lib_load L (up_buffer f) = inl wb ->
      Controller.uploadTemplate L ns now rc cc sv (Some f)
      = Ok (RJson 200 (JObj
          [(js "success", JBool true);
           (js "message", JStr (js "Template uploaded and validated successfully"));
           (js "template", JObj
              [(js "fileName", JStr (up_originalname f));
               (js "fileSize", JStr (Controller.file_size ns (up_size f)));
               (js "sheets", JArr (map JStr (map ws_name wb)));
               (js "details", template_info_json (map (sheet_details rc cc sv) wb, List.length wb));
               (js "uploadedAt", JStr now)])]))).
Proof.
  split; [reflexivity|split].
  - intros e E. unfold Controller.uploadTemplate, validateTemplateUtil, validateTemplate.
    rewrite E. reflexivity.
  - intros wb E. unfold Controller.uploadTemplate, validateTemplateUtil, validateTemplate.
    unfold getTemplateInfo. rewrite E. simpl. now rewrite length_map.
Qed.

(** X17: The validateTemplate handler answers 400 without a file, 400 with success false
    and the load error on an unreadable workbook, and 200 with the sheet names and
    details otherwise. *)
Theorem validateTemplate_handler_responses (f : upload) :
  Controller.validateTemplate L ns now rc cc sv None
  = Ok (RJson 400 (JObj
      [(js "error", JStr (js "No template file provided"));
       (js "message", JStr (js "Please upload an Excel template file for validation"))]))
  /\ (forall e, lib_load L (up_buffer f) = inr e ->
      Controller.validateTemplate L ns now rc cc sv (Some f)
      = Ok (RJson 400 (JObj
          [(js "success", JBool false);
           (js "error", JStr (js "Template validation failed"));
           (js "message", JStr (message_or (js "Invalid template file") e));
           (js "details", JObj
              [(js "fileName", JStr (up_originalname f));
               (js "fileSize", JStr (Controller.file_size ns (up_size f)));
               (js "validatedAt", JStr now)])])))
  /\ (forall wb, lib_load L (up_buffer f) = inl wb ->
      Controller.validateTemplate L ns now rc cc sv (Some f)
      = Ok (RJson 200 (JObj
          [(js "success", JBool true);
           (js "message", JStr (js "Template is valid and ready to use"));
           (js "validation", JObj
              [(js "isValid", JBool true);
               (js "sheets", JArr (map JStr (map ws_name wb)));
               (js "details", template_info_json (map (sheet_details rc cc sv) wb, List.length wb));
               (js "fileName", JStr (up_originalname f));
               (js "fileSize", JStr (Controller.file_size ns (up_size f)));
               (js "validatedAt", JStr now)])]))).
Proof.
  split; [reflexivity|split].
  - intros e E. unfold Controller.validateTemplate, validateTemplateUtil, validateTemplate.
    rewrite E. reflexivity.
  - intros wb E. unfold Controller.validateTemplate, validateTemplateUtil, validateTemplate.
    unfold getTemplateInfo. rewrite E. simpl. now rewrite length_map.
Qed.

End Templates.

Lemma join_on_cons (sep : Z) (p q : jsstring) (r : list jsstring) :
  join_on sep (p :: q :: r) = p ++ sep :: join_on sep (q :: r).
Proof. reflexivity. Qed.

Lemma join_split_on (sep : Z) (s : jsstring) : join_on sep (split_on sep s) = s.
Proof.
  induction s as [|c s IH]; [reflexivity|]. simpl split_on.
  pose proof (split_on_nonempty sep s) as Hne.
  destruct (split_on sep s) as [|p ps] eqn:E; [contradiction|].
  destruct (Z.eqb_spec c sep) as [->|Hc].
  - rewrite join_on_cons, IH. reflexivity.
  - destruct ps as [|q r].
    + simpl in *. now rewrite IH.
    + rewrite join_on_cons. rewrite join_on_cons in IH. cbn [app]. now rewrite IH.
Qed.

Lemma split_on_parts (sep : Z) (s : jsstring) : Forall (fun p => ~ In sep p) (split_on sep s).
Proof.
  induction s as [|c s IH]; simpl.
  - constructor; [simpl; tauto|constructor].
  - destruct (Z.eqb_spec c sep) as [->|Hc].
    + constructor; [simpl; tauto|exact IH].
    + destruct (split_on sep s) as [|p ps]; [constructor; [simpl; intuition|constructor]|].
      inversion IH as [|x y Hp Hps]; subst.
      constructor; [simpl; intros [H|H]; [congruence|contradiction]|exact Hps].
Qed.

(** X18: The CORS origins are the two localhost defaults when ALLOWED_ORIGINS is unset,
    and otherwise its comma-separated parts, which join back to the variable. *)
Theorem allowed_origins_from_env (env : jsstring -> option jsstring) :
  (env (js "ALLOWED_ORIGINS") = None ->
   Server.allowed_origins env = [js "http://localhost:3000"; js "http://localhost:8000"])
  /\ (forall s, env (js "ALLOWED_ORIGINS") = Some s ->
      Server.allowed_origins env <> []
      /\ join_on 44 (Server.allowed_origins env) = s
      /\ Forall (fun o => ~ In 44 o) (Server.allowed_origins env)).
Proof.
  unfold Server.allowed_origins. split.
  - intros H. now rewrite H.
  - intros s H. rewrite H. split; [apply split_on_nonempty|split].
    + apply join_split_on.
    + apply split_on_parts.
Qed.

(** X19: Outside development, for an error that is neither null nor undefined, the error
    handler answers 400 with the details for a ValidationError, 413 for LIMIT_FILE_SIZE,
    and otherwise 500 with the fixed message "Something went wrong". *)
Theorem error_handler_hides_message (inh : jsval -> jsstring -> jsval)
  (env : jsstring -> option jsstring) (err : jsval) :
  is_null err = false -> is_undefined err = false ->
  env (js "NODE_ENV") <> Some (js "development") ->
  Server.error_handler inh env err
  = Ok (if is_js_string (get inh err (js "name")) (js "ValidationError") then
          RJson 400 (JObj [(js "error", JStr (js "Validation Error"));
                           (js "details", get inh err (js "details"))])
        else if is_js_string (get inh err (js "code")) (js "LIMIT_FILE_SIZE") then
          RJson 413 (JObj [(js "error", JStr (js "File too large"));
                           (js "maxSize", JStr (env_or env (js "MAX_FILE_SIZE") (js "10MB")))])
        else
          RJson 500 (JObj [(js "error", JStr (js "Internal Server Error"));
                           (js "message", JStr (js "Something went wrong"))])).
Proof.
  intros Hn Hu He.
  assert (Hm : forall k, member inh err k = Ok (get inh err k))
    by (intros k; destruct err; try discriminate; reflexivity).
  unfold Server.error_handler. rewrite !Hm. cbv beta iota delta [bind].
  destruct (is_js_string (get inh err (js "name")) (js "ValidationError")); [reflexivity|].
  destruct (is_js_string (get inh err (js "code")) (js "LIMIT_FILE_SIZE")); [reflexivity|].
  destruct (env (js "NODE_ENV")) as [v|]; [|reflexivity].
  destruct (jsstring_eqb v (js "development")) eqn:E; [|reflexivity].
  exfalso. apply He. f_equal. now apply jsstring_eqb_eq.
Qed.

Lemma ltb_int (a b : Z) : 0 <= a < 2 ^ 53 -> 0 <= b < 2 ^ 53 ->
  Num.ltb (Num.of_Z a) (Num.of_Z b) = (a <? b).
Proof.
  intros Ha Hb.
  destruct (Z.eq_dec a 0) as [->|Ha0]; [apply ltb_zero_int; exact Hb|].
  destruct (Z.eq_dec b 0) as [->|Hb0].
  - rewrite (of_Z_canon a) by lia. replace (a <? 0) with false by (symmetry; apply Z.ltb_ge; lia).
    reflexivity.
  - rewrite (of_Z_canon a), (of_Z_canon b) by lia.
    unfold canon, Num.ltb, SFltb, SFcompare.
    pose proof (log2_small a ltac:(lia)). pose proof (log2_small b ltac:(lia)).
    pose proof (Z.log2_spec a ltac:(lia)) as [Ha1 Ha2].
    pose proof (Z.log2_spec b ltac:(lia)) as [Hb1 Hb2].
    destruct (Z.compare_spec (Z.log2 a - 52) (Z.log2 b - 52)) as [E|E|E].
    + assert (El : Z.log2 a = Z.log2 b) by lia.
      rewrite Pos.compare_cont_spec. fold (Z.compare (Zpos (Z.to_pos (a * 2 ^ (52 - Z.log2 a))))
                                                   (Zpos (Z.to_pos (b * 2 ^ (52 - Z.log2 b))))).
      rewrite !canon_mant by lia. rewrite El.
      assert (Hp : 0 < 2 ^ (52 - Z.log2 b)) by (apply Z.pow_pos_nonneg; lia).
      destruct (Z.compare_spec (a * 2 ^ (52 - Z.log2 b)) (b * 2 ^ (52 - Z.log2 b))) as [C|C|C].
      * symmetry. apply Z.ltb_ge. nia.
      * symmetry. apply Z.ltb_lt. nia.
      * symmetry. apply Z.ltb_ge. nia.
    + symmetry. apply Z.ltb_lt.
      assert (2 ^ Z.succ (Z.log2 a) <= 2 ^ Z.log2 b) by (apply Z.pow_le_mono_r; lia). lia.
    + symmetry. apply Z.ltb_ge.
      assert (2 ^ Z.succ (Z.log2 b) <= 2 ^ Z.log2 a) by (apply Z.pow_le_mono_r; lia). lia.
Qed.

Lemma trim_start_digit (c : Z) (s : jsstring) : 48 <= c <= 57 ->
  trim_start (c :: s) = c :: s.
Proof.
  intros Hc. simpl trim_start. unfold js_space_units. simpl existsb.
  repeat match goal with
         | |- context [Z.eqb c ?k] =>
             replace (Z.eqb c k) with false by (symmetry; apply Z.eqb_neq; lia)
         end.
  reflexivity.
Qed.

Lemma digit_value_dec (c : Z) : 48 <= c <= 57 -> digit_value 10 c = Some (c - 48).
Proof.
  intros Hc. unfold digit_value.
  replace ((48 <=? c) && (c <=? 57)) with true by (symmetry; apply andb_true_iff; split; apply Z.leb_le; lia).
  replace (c - 48 <? 10) with true by (symmetry; apply Z.ltb_lt; lia). reflexivity.
Qed.

Lemma take_digits_app (ds rest : jsstring) : forall acc v n,
  digits_value acc ds = Some v ->
  (forall c t, rest = c :: t -> digit_value 10 c = None) ->
  take_digits 10 (ds ++ rest) acc n = (v, (n + List.length ds)%nat).
Proof.
  induction ds as [|c ds IH]; intros acc v n Hd Hr.
  - simpl in Hd. injection Hd as <-. rewrite Nat.add_0_r.
    destruct rest as [|c t]; [reflexivity|]. simpl. now rewrite (Hr c t eq_refl).
  - simpl in Hd. destruct ((48 <=? c) && (c <=? 57)) eqn:Ec; [|discriminate].
    apply andb_true_iff in Ec. destruct Ec as [E1 E2]. apply Z.leb_le in E1, E2.
    simpl. rewrite digit_value_dec by lia.
    rewrite (IH _ _ _ Hd Hr). f_equal. simpl. lia.
Qed.

Lemma js_parseInt_dec (c : Z) (l : jsstring) : 48 <= c <= 57 ->
  (c = 48 -> forall x t, l = x :: t -> x <> 120 /\ x <> 88) ->
  js_parseInt (c :: l)
  = let '(v, n) := take_digits 10 (c :: l) 0 O in
    match n with
    | O => S754_nan
    | S _ => if v =? 0 then S754_zero false else Num.of_Z v
    end.
Proof.
  intros Hc Hx. unfold js_parseInt. rewrite trim_start_digit by exact Hc.
  assert (Hcs : c = 48 \/ c = 49 \/ c = 50 \/ c = 51 \/ c = 52 \/ c = 53 \/ c = 54
                \/ c = 55 \/ c = 56 \/ c = 57) by lia.
  destruct Hcs as [->|Hcs]; [|repeat destruct Hcs as [->|Hcs]; try reflexivity; subst; reflexivity].
  destruct l as [|x t]; [reflexivity|].
  destruct (Hx eq_refl x t eq_refl) as [Hx1 Hx2].
  destruct x as [|p|p]; try reflexivity.
  repeat (destruct p as [p|p|]; try reflexivity).
  all: lia.
Qed.

Lemma js_parseInt_digits (ds rest : jsstring) (v : Z) :
  ds <> [] -> digits_value 0 ds = Some v ->
  (forall c t, rest = c :: t -> digit_value 10 c = None /\ (ds = [48] -> c <> 120 /\ c <> 88)) ->
  js_parseInt (ds ++ rest) = Num.of_Z v.
Proof.
  intros Hne Hd Hr.
  destruct ds as [|c ds]; [contradiction|].
  assert (Hc : 48 <= c <= 57).
  { simpl in Hd. destruct ((48 <=? c) && (c <=? 57)) eqn:Ec; [|discriminate].
    apply andb_true_iff in Ec. destruct Ec as [E1 E2]. apply Z.leb_le in E1, E2. lia. }
  assert (Hx : c = 48 -> forall x t, ds ++ rest = x :: t -> x <> 120 /\ x <> 88).
  { intros -> x t E. destruct ds as [|d ds].
    - apply (proj2 (Hr x t E) eq_refl).
    - simpl in Hd, E. injection E as -> _.
      destruct ((48 <=? x) && (x <=? 57)) eqn:Ex; [|discriminate].
      apply andb_true_iff in Ex. destruct Ex as [E1 E2]. apply Z.leb_le in E1, E2. lia. }
  cbn [app]. rewrite (js_parseInt_dec c (ds ++ rest) Hc Hx).
  change (c :: ds ++ rest) with ((c :: ds) ++ rest).
  rewrite (take_digits_app (c :: ds) rest 0 v O Hd (fun c t E => proj1 (Hr c t E))).
  simpl Nat.add. cbv iota beta zeta.
  destruct (Z.eqb_spec v 0) as [->|Hv]; reflexivity.
Qed.

Lemma js_parseInt_nan (s l : jsstring) (c : Z) :
  trim_start s = c :: l -> digit_value 10 c = None -> c <> 45 -> c <> 43 ->
  js_parseInt s = S754_nan.
Proof.
  intros Ht Hd H45 H43.
  assert (Ht2 : forall l', take_digits 10 (c :: l') 0 O = (0, O))
    by (intros l'; simpl; now rewrite Hd).
  unfold js_parseInt. rewrite Ht.
  destruct c as [|p|p]; [reflexivity| |reflexivity].
  do 7 (try (destruct p as [p|p|])).
  all: try (exfalso; lia).
  all: try discriminate Hd.
  all: cbv beta iota zeta; rewrite Ht2; reflexivity.
Qed.

Lemma digits_value_nonneg (s : jsstring) : forall acc v,
  0 <= acc -> digits_value acc s = Some v -> 0 <= v.
Proof.
  induction s as [|c s IH]; intros acc v Ha Hd; simpl in Hd.
  - injection Hd as <-. exact Ha.
  - destruct ((48 <=? c) && (c <=? 57)) eqn:Ec; [|discriminate].
    apply andb_true_iff in Ec. destruct Ec as [E1 E2]. apply Z.leb_le in E1, E2.
    apply (IH (acc * 10 + (c - 48))); [lia|exact Hd].
Qed.

(** X20: The upload middleware answers 400 without a file. When MAX_FILE_SIZE (10485760
    by default) starts with a run of decimal digits whose value is below 2^53, followed
    by nothing or by a character that is not a digit (and not the x or X of a 0x prefix),
    a file below 2^53 bytes gets 413 exactly when its size exceeds that value and passes
    otherwise. When MAX_FILE_SIZE, after its leading white space, starts with neither a
    digit nor a sign, every file passes. *)
Theorem upload_size_limit (env : jsstring -> option jsstring) (ns : Num.double -> jsstring)
  (f : upload) :
  Middleware.validateTemplate env ns None
  = Middleware.Respond 400 (JObj
      [(js "error", JStr (js "Template file required"));
       (js "message", JStr (js "Please upload an Excel template file (.xlsx or .xls)"))])
  /\ (forall ds rest v,
      env_or env (js "MAX_FILE_SIZE") (js "10485760") = ds ++ rest ->
      ds <> [] -> digits_value 0 ds = Some v ->
      (forall c t, rest = c :: t -> digit_value 10 c = None /\ (ds = [48] -> c <> 120 /\ c <> 88)) ->
      v < 2 ^ 53 -> Z.of_nat (up_size f) < 2 ^ 53 ->
      Middleware.validateTemplate env ns (Some f)
      = if v <? Z.of_nat (up_size f)
        then Middleware.Respond 413 (JObj
          [(js "error", JStr (js "File too large"));
           (js "message", JStr (js "File size must be less than "
              ++ ns (math_round (Num.div (Num.div (Num.of_Z v) (Num.of_Z 1024)) (Num.of_Z 1024)))
              ++ js "MB"))])
        else Middleware.Next)
  /\ (env_or env (js "MAX_FILE_SIZE") (js "10485760") = js "10485760" ->
      Z.of_nat (up_size f) < 2 ^ 53 ->
      Middleware.validateTemplate env ns (Some f)
      = if 10485760 <? Z.of_nat (up_size f)
        then Middleware.Respond 413 (JObj
          [(js "error", JStr (js "File too large"));
           (js "message", JStr (js "File size must be less than " ++ ns (Num.of_Z 10) ++ js "MB"))])
        else Middleware.Next)
  /\ (forall c l, trim_start (env_or env (js "MAX_FILE_SIZE") (js "10485760")) = c :: l ->
      digit_value 10 c = None -> c <> 45 -> c <> 43 ->
      Middleware.validateTemplate env ns (Some f) = Middleware.Next).
Proof.
  assert (G : forall ds rest v,
      env_or env (js "MAX_FILE_SIZE") (js "10485760") = ds ++ rest ->
      ds <> [] -> digits_value 0 ds = Some v ->
      (forall c t, rest = c :: t -> digit_value 10 c = None /\ (ds = [48] -> c <> 120 /\ c <> 88)) ->
      v < 2 ^ 53 -> Z.of_nat (up_size f) < 2 ^ 53 ->
      Middleware.validateTemplate env ns (Some f)
      = if v <? Z.of_nat (up_size f)
        then Middleware.Respond 413 (JObj
          [(js "error", JStr (js "File too large"));
           (js "message", JStr (js "File size must be less than "
              ++ ns (math_round (Num.div (Num.div (Num.of_Z v) (Num.of_Z 1024)) (Num.of_Z 1024)))
              ++ js "MB"))])
        else Middleware.Next).
  { intros ds rest v E Hne Hd Hr Hv Hs.
    pose proof (digits_value_nonneg ds 0 v ltac:(lia) Hd) as Hv0.
    unfold Middleware.validateTemplate, Middleware.maxSize. rewrite E.
    rewrite (js_parseInt_digits ds rest v Hne Hd Hr).
    rewrite ltb_int by lia. reflexivity. }
  split; [reflexivity|split; [exact G|split]].
  - intros E Hs. rewrite (G (js "10485760") [] 10485760); [| rewrite app_nil_r; exact E
      | discriminate | reflexivity | intros c t Ht; discriminate | lia | exact Hs].
    destruct (10485760 <? Z.of_nat (up_size f)); [|reflexivity].
    vm_compute. reflexivity.
  - intros c l Ht Hd H45 H43. unfold Middleware.validateTemplate, Middleware.maxSize.
    rewrite (js_parseInt_nan _ l c Ht Hd H45 H43). reflexivity.
Qed.

Lemma div_1024 (n : Z) : 0 < n < 2 ^ 53 ->
  Num.div (Num.of_Z n) (Num.of_Z 1024) = kb n.
Proof.
  intros Hn.
  rewrite (of_Z_canon n), (of_Z_canon 1024) by lia.
  pose proof (log2_small n Hn) as Hl.
  unfold canon, Num.div, SFdiv. cbv beta iota.
  replace (Z.log2 1024) with 10 by reflexivity.
  unfold SFdiv_core_binary.
  assert (Hm : 2 ^ 52 <= n * 2 ^ (52 - Z.log2 n) < 2 ^ 53).
  { pose proof (Z.log2_spec n ltac:(lia)) as [H1 H2].
    split.
    - replace 52 with (Z.log2 n + (52 - Z.log2 n)) at 1 by lia.
      rewrite Z.pow_add_r by lia. apply Z.mul_le_mono_nonneg_r; [apply Z.pow_nonneg; lia|lia].
    - replace 53 with (Z.succ (Z.log2 n) + (52 - Z.log2 n)) by lia.
      rewrite (Z.pow_add_r 2 (Z.succ (Z.log2 n))) by lia.
      apply Z.mul_lt_mono_pos_r; [apply Z.pow_pos_nonneg; lia|lia]. }
  rewrite canon_mant by lia.
  rewrite Zdigits2_log2 by lia.
  replace (Z.log2 (n * 2 ^ (52 - Z.log2 n))) with 52
    by (symmetry; apply Z.log2_unique; lia).
  replace (Z.pos (Z.to_pos (1024 * 2 ^ (52 - 10)))) with (2 ^ 52) by reflexivity.
  replace (Zdigits2 (2 ^ 52)) with 53 by reflexivity.
  unfold Num.prec, Num.emax. rewrite fexp_val by lia.
  replace (Z.min (52 + 1 + (Z.log2 n - 52) - (53 + (10 - 52)) - 53) (Z.log2 n - 52 - (10 - 52)))
    with (Z.log2 n - 63) by lia.
  replace (Z.log2 n - 52 - (10 - 52) - (Z.log2 n - 63)) with 53 by lia.
  cbv iota beta.
  rewrite Z.shiftl_mul_pow2 by lia.
  replace (n * 2 ^ (52 - Z.log2 n) * 2 ^ 53) with ((2 * (n * 2 ^ (52 - Z.log2 n))) * 2 ^ 52)
    by (replace 53 with (1 + 52) by lia; rewrite Z.pow_add_r by lia; ring).
  assert (E : Z.div_eucl (2 * (n * 2 ^ (52 - Z.log2 n)) * 2 ^ 52) (2 ^ 52)
              = (2 * (n * 2 ^ (52 - Z.log2 n)), 0)).
  { pose proof (Z_div_mod (2 * (n * 2 ^ (52 - Z.log2 n)) * 2 ^ 52) (2 ^ 52) ltac:(lia)) as D.
    destruct (Z.div_eucl _ _) as [q r] eqn:Eq.
    destruct D as [D1 D2].
    assert (r = 0 /\ q = 2 * (n * 2 ^ (52 - Z.log2 n))) as [-> ->] by nia.
    reflexivity. }
  rewrite E. cbv beta iota. simpl xorb.
  replace (new_location (2 ^ 52) 0) with loc_Exact by reflexivity.
  unfold kb.
  replace (Z.log2 n - 62) with (Z.log2 n - 63 + 1) by lia.
  assert (Hl2 : Z.log2 (2 * (n * 2 ^ (52 - Z.log2 n))) = 53)
    by (apply Z.log2_unique; lia).
  apply aux_exact; rewrite ?Hl2; try lia.
Qed.

Lemma round_dy (s : bool) (N ex d : Z) (mx : positive) :
  0 < N < 2 ^ 53 -> ex <= d -> -1000 <= d <= 0 -> Zpos mx = N * 2 ^ (d - ex) ->
  binary_round 53 1024 s mx ex
  = S754_finite s (Z.to_pos (N * 2 ^ (52 - Z.log2 N))) (Z.log2 N - 52 + d).
Proof.
  intros HN Hex Hd Hmx.
  assert (HlN : Z.log2 N < 53) by (apply Z.log2_lt_pow2; lia).
  pose proof (Z.log2_nonneg N).
  assert (Hlmx : Z.log2 (Zpos mx) = d - ex + Z.log2 N)
    by (rewrite Hmx; apply Z.log2_mul_pow2; lia).
  assert (HM : Zpos (Z.to_pos (N * 2 ^ (52 - Z.log2 N))) = N * 2 ^ (52 - Z.log2 N))
    by (apply Z2Pos.id; pose proof (Z.pow_pos_nonneg 2 (52 - Z.log2 N)); nia).
  unfold binary_round.
  rewrite digits2_log2, fexp_val by lia.
  replace (Z.log2 (Zpos mx) + 1 + ex - 53) with (Z.log2 N - 52 + d) by lia.
  unfold shl_align.
  destruct (Z.log2 N - 52 + d - ex) as [|d'|d'] eqn:Ed.
  - replace (Z.log2 N - 52 + d) with (ex + 0) by lia.
    apply aux_exact; try lia.
    rewrite Hmx, HM, Z.pow_0_r, Z.mul_1_r. f_equal. f_equal. lia.
  - replace (Z.log2 N - 52 + d) with (ex + Zpos d') by lia.
    apply aux_exact; try lia.
    rewrite Hmx, HM, Z.mul_comm, <- Z.mul_assoc, <- Z.pow_add_r by lia.
    rewrite Z.mul_comm. f_equal. f_equal. lia.
  - replace (Z.log2 N - 52 + d) with ((Z.log2 N - 52 + d) + 0) at 2 by lia.
    apply aux_exact; try lia.
    + rewrite Pos_iter_xO, Hmx, HM, <- Z.mul_assoc, <- Z.pow_add_r by lia.
      rewrite Z.mul_1_r. f_equal. f_equal. lia.
    + rewrite Pos_iter_xO, Hmx, <- Z.mul_assoc, <- Z.pow_add_r by lia.
      rewrite Z.log2_mul_pow2 by lia. lia.
    + rewrite Pos_iter_xO, Hmx, <- Z.mul_assoc, <- Z.pow_add_r by lia.
      rewrite Z.log2_mul_pow2 by lia. lia.
Qed.

Lemma half_val : Num.div (Num.of_Z 1) (Num.of_Z 2) = S754_finite false (2 ^ 52) (-53).
Proof. vm_compute. reflexivity. Qed.

Lemma pos_compare_cont_Z (a b : positive) :
  Pos.compare_cont Eq a b = Z.compare (Zpos a) (Zpos b).
Proof. reflexivity. Qed.

Lemma ltb_half (N : Z) : 0 < N < 2 ^ 53 ->
  Num.ltb (kb N) (Num.div (Num.of_Z 1) (Num.of_Z 2)) = (N <? 512).
Proof.
  intros HN. rewrite half_val.
  unfold kb, Num.ltb, SFltb, SFcompare.
  pose proof (log2_small N HN).
  pose proof (Z.log2_spec N ltac:(lia)) as [H1 H2].
  destruct (Z.compare_spec (Z.log2 N - 62) (-53)) as [E|E|E].
  - assert (El : Z.log2 N = 9) by lia.
    rewrite pos_compare_cont_Z.
    rewrite canon_mant by lia. rewrite El in *.
    replace (Zpos (2 ^ 52)) with (2 ^ 52) by reflexivity.
    destruct (Z.compare_spec (N * 2 ^ (52 - 9)) (2 ^ 52)) as [C|C|C];
      symmetry; first [apply Z.ltb_ge | apply Z.ltb_lt];
      replace (2 ^ (52 - 9)) with (2 ^ 43) in C by reflexivity;
      replace (2 ^ 52) with (2 ^ 43 * 512) in C by reflexivity;
      assert (0 < 2 ^ 43) by reflexivity; nia.
  - symmetry. apply Z.ltb_lt.
    assert (2 ^ Z.succ (Z.log2 N) <= 2 ^ 9) by (apply Z.pow_le_mono_r; lia). lia.
  - symmetry. apply Z.ltb_ge.
    assert (2 ^ 10 <= 2 ^ Z.log2 N) by (apply Z.pow_le_mono_r; lia). lia.
Qed.

Lemma floor_kb (n : Z) : 0 < n < 2 ^ 53 -> Num.floor (kb n) = Num.of_Z (n / 1024).
Proof.
  intros Hn. pose proof (log2_small n Hn).
  unfold kb, Num.floor.
  replace (0 <=? Z.log2 n - 62) with false by (symmetry; apply Z.leb_gt; lia).
  rewrite canon_mant by lia.
  rewrite Z.shiftr_div_pow2 by lia.
  replace (- (Z.log2 n - 62)) with ((52 - Z.log2 n) + 10) by lia.
  rewrite Z.pow_add_r, <- Z.div_div by (try apply Z.pow_pos_nonneg; lia).
  rewrite Z.div_mul by (apply Z.pow_nonzero; lia).
  reflexivity.
Qed.

Lemma sub_kb (n : Z) : 1024 <= n < 2 ^ 53 ->
  Num.sub (kb n) (Num.of_Z (n / 1024))
  = binary_normalize 53 1024 ((n mod 1024) * 2 ^ (52 - Z.log2 n)) (Z.log2 n - 62) false.
Proof.
  intros Hn. pose proof (log2_small n ltac:(lia)).
  assert (Hq : 1 <= n / 1024 < 2 ^ 53) by (split; [apply Z.div_le_lower_bound|apply Z.div_lt_upper_bound]; lia).
  assert (HL : 10 <= Z.log2 n).
  { replace 10 with (Z.log2 1024) by reflexivity. apply Z.log2_le_mono. lia. }
  assert (Hlq : Z.log2 (n / 1024) = Z.log2 n - 10).
  { replace 1024 with (2 ^ 10) by reflexivity. rewrite <- Z.shiftr_div_pow2 by lia.
    rewrite Z.log2_shiftr by lia. lia. }
  rewrite (of_Z_canon (n / 1024)) by lia.
  unfold kb, canon, Num.sub, SFsub. cbv beta iota.
  rewrite Hlq. replace (Z.log2 n - 10 - 52) with (Z.log2 n - 62) by lia.
  rewrite Z.min_id. unfold cond_Zopp.
  rewrite shl_align_fst by lia. rewrite canon_mant by lia.
  pose proof (canon_scale (n / 1024) (Z.log2 n - 62) ltac:(lia) ltac:(lia)) as Hs.
  rewrite Hlq in Hs. replace (Z.log2 n - 10 - 52) with (Z.log2 n - 62) in Hs by lia.
  rewrite Hs. unfold Num.prec, Num.emax. f_equal.
  rewrite Z.sub_diag, Z.pow_0_r, Z.mul_1_r.
  replace (- (Z.log2 n - 62)) with (10 + (52 - Z.log2 n)) by lia.
  rewrite Z.pow_add_r by lia.
  rewrite (Z.mod_eq n 1024) by lia. replace (2 ^ 10) with 1024 by reflexivity. ring.
Qed.

Lemma math_round_finite (m : positive) (e : Z) :
  math_round (S754_finite false m e)
  = let half := Num.div (Num.of_Z 1) (Num.of_Z 2) in
    if Num.ltb (S754_finite false m e) half then S754_zero false
    else let f := Num.floor (S754_finite false m e) in
      if Num.ltb (Num.sub (S754_finite false m e) f) half then f else Num.add f (Num.of_Z 1).
Proof. reflexivity. Qed.

Lemma math_round_kib (n : Z) : 0 <= n < 2 ^ 53 ->
  math_round (Num.div (Num.of_Z n) (Num.of_Z 1024)) = Num.of_Z ((n + 512) / 1024).
Proof.
  intros Hn.
  destruct (Z.eq_dec n 0) as [->|Hn0]; [vm_compute; reflexivity|].
  rewrite div_1024 by lia.
  assert (Hk : exists m e, kb n = S754_finite false m e) by (eexists; eexists; reflexivity).
  destruct Hk as (m & e & Hk).
  pose proof (math_round_finite m e) as R. rewrite <- Hk in R. rewrite R. clear R.
  cbv zeta. rewrite ltb_half by lia.
  destruct (Z.ltb_spec n 512) as [Hs|Hs].
  { rewrite Z.div_small by lia. reflexivity. }
  rewrite floor_kb by lia.
  destruct (Z.lt_ge_cases n 1024) as [Hb|Hb].
  - rewrite (Z.div_small n 1024) by lia. rewrite of_Z_0.
    rewrite Hk. cbn [Num.sub SFsub]. rewrite <- Hk, ltb_half by lia.
    replace (n <? 512) with false by (symmetry; apply Z.ltb_ge; lia).
    replace ((n + 512) / 1024) with 1 by (apply Z.div_unique with (n + 512 - 1024); lia).
    rewrite <- of_Z_0. apply add_int; lia.
  - rewrite sub_kb by lia.
    pose proof (Z.mod_pos_bound n 1024 ltac:(lia)) as Hr.
    pose proof (log2_small n ltac:(lia)).
    destruct (Z.eq_dec (n mod 1024) 0) as [Hr0|Hr0].
    + rewrite Hr0. cbn [Z.mul binary_normalize].
      replace (Num.ltb (S754_zero false) (Num.div (Num.of_Z 1) (Num.of_Z 2))) with true
        by (vm_compute; reflexivity).
      f_equal. apply Z.div_unique with (n mod 1024 + 512); [lia|].
      pose proof (Z.div_mod n 1024 ltac:(lia)). lia.
    + assert (Hpos : 0 < n mod 1024 * 2 ^ (52 - Z.log2 n))
        by (pose proof (Z.pow_pos_nonneg 2 (52 - Z.log2 n)); nia).
      destruct (n mod 1024 * 2 ^ (52 - Z.log2 n)) as [|p|p] eqn:Ep; try lia.
      unfold binary_normalize.
      assert (Hr1 : n mod 1024 < 2 ^ 53) by lia.
      rewrite (round_dy false (n mod 1024) (Z.log2 n - 62) (-10) p); [|lia|lia|lia|].
      2: { rewrite <- Ep. f_equal. f_equal. lia. }
      replace (Z.log2 (n mod 1024) - 52 + -10) with (Z.log2 (n mod 1024) - 62) by lia.
      fold (kb (n mod 1024)). rewrite ltb_half by lia.
      pose proof (Z.div_mod n 1024 ltac:(lia)).
      destruct (Z.ltb_spec (n mod 1024) 512).
      * f_equal. apply Z.div_unique with (n mod 1024 + 512); lia.
      * replace ((n + 512) / 1024) with (n / 1024 + 1)
          by (apply Z.div_unique with (n mod 1024 - 512); lia).
        apply add_int; try lia.
Qed.

Lemma file_size_kib (ns : Num.double -> jsstring) (n : nat) : (Z.of_nat n < 2 ^ 53)%Z ->
  Controller.file_size ns n = ns (Num.of_Z ((Z.of_nat n + 512) / 1024)) ++ js " KB".
Proof. intros H. unfold Controller.file_size. rewrite math_round_kib by lia. reflexivity. Qed.

(** X21: fileSize is the byte count divided by 1024 and rounded half up, followed by "
    KB". *)
Theorem file_size_rounds_to_kilobytes (ns : Num.double -> jsstring) (n : nat) :
  (Z.of_nat n < 2 ^ 53)%Z ->
  Controller.file_size ns n = ns (Num.of_Z ((Z.of_nat n + 512) / 1024)) ++ js " KB".
Proof. apply file_size_kib. Qed.

Section Modes.

Variable inh : jsval -> jsstring -> jsval.
Variable gen : jsval -> jsval -> jsval -> option (list Z) -> jsval -> Exc (list Z).
Variable env : jsstring -> option jsstring.
Variable M : mailer.
Variable ts : jsval -> jsstring + jsexn.
Variables nl dt hh hm ht : jsstring.
Variable ns : Num.double -> jsstring.
Variable b64 : list Z -> jsstring.
Variable now : jsstring.

(** X22: In a mode other than download and email, generateExcel answers 200 with the file
    name, the size in kilobytes rounded half up, and the base64 of the buffer. *)
Theorem generateExcel_json_mode (body : list (jsstring * jsval)) (file : option upload)
  (buf : list Z) :
  gen (Controller.field inh body (js "jsonData")) (Controller.field inh body (js "mappingConfig"))
      (Controller.default_to (Controller.field inh body (js "tables")) (JArr []))
      (match file with Some f => Some (up_buffer f) | None => None end)
      (Controller.default_to (Controller.field inh body (js "options")) (JObj [])) = Ok buf ->
  is_js_string (Controller.default_to (Controller.field inh body (js "mode"))
                  (JStr (js "download"))) (js "download") = false ->
  is_js_string (Controller.default_to (Controller.field inh body (js "mode"))
                  (JStr (js "download"))) (js "email") = false ->
  (Z.of_nat (List.length buf) < 2 ^ 53)%Z ->
  Controller.generateExcel inh gen env M ts nl dt hh hm ht ns b64 now body file
  = Ok (RJson 200 (JObj
      [(js "success", JBool true);
       (js "message", JStr (js "Excel file generated successfully"));
       (js "data", JObj
          [(js "fileName", Controller.default_to (Controller.field inh body (js "fileName"))
                             (JStr (js "generated.xlsx")));
           (js "fileSize", JStr (ns (Num.of_Z ((Z.of_nat (List.length buf) + 512) / 1024))
                                 ++ js " KB"));
           (js "base64", JStr (b64 buf))])])).
Proof.
  intros Hg Hd He Hl. unfold Controller.generateExcel. rewrite Hg, Hd, He.
  cbv beta iota delta [bind]. rewrite file_size_kib by exact Hl. reflexivity.
Qed.

(** X23: In email mode with a falsy emailAddress, generateExcel answers 400 once
    generation succeeds, whatever the mail setup. *)
Theorem generateExcel_email_mode_no_address (body : list (jsstring * jsval))
  (file : option upload) (buf : list Z) :
  gen (Controller.field inh body (js "jsonData")) (Controller.field inh body (js "mappingConfig"))
      (Controller.default_to (Controller.field inh body (js "tables")) (JArr []))
      (match file with Some f => Some (up_buffer f) | None => None end)
      (Controller.default_to (Controller.field inh body (js "options")) (JObj [])) = Ok buf ->
  Controller.field inh body (js "mode") = JStr (js "email") ->
  truthy (Controller.field inh body (js "emailAddress")) = false ->
  Controller.generateExcel inh gen env M ts nl dt hh hm ht ns b64 now body file
  = Ok (RJson 400 (JObj
      [(js "error", JStr (js "Email address required for email mode"));
       (js "message", JStr (js "Please provide a valid email address in the emailAddress field"))])).
Proof.
  intros Hg Hm Ha. unfold Controller.generateExcel. rewrite Hg, Hm, Ha. reflexivity.
Qed.

End Modes.

(** ** Witnesses *)

Lemma mapping_value_falsy_data_witness :
  truthy JNull = false /\
  mapping_value object_host JNull sample_formula_mapping = CFormula (js "A2*2") (JNum (Num.of_Z 0)).
Proof.
  split; [reflexivity|].
  exact (mapping_value_falsy_data object_host JNull sample_formula_mapping eq_refl).
Defined.

Lemma createTable_start_cell_witness :
  match_cell_ref (js "1A") = None /\
  createTable object_host sample_library (new_worksheet (js "Sheet1"))
    {| tc_sheet := js "Sheet1"; tc_tableName := js "T"; tc_startCell := js "1A";
       tc_columns := [js "P"]; tc_style := None |} (JArr [JObj []])
  = Throw (ErrorObj (js "Error") (js "Invalid start cell: " ++ js "1A")).
Proof.
  split; [reflexivity|].
  apply (proj2 (createTable_start_cell object_host sample_library (new_worksheet (js "Sheet1"))
          {| tc_sheet := js "Sheet1"; tc_tableName := js "T"; tc_startCell := js "1A";
             tc_columns := [js "P"]; tc_style := None |}) [JObj []]).
  - discriminate.
  - simpl. lia.
  - reflexivity.
Defined.



Lemma bulk_default_file_names_witness :
  exists r1 r2,
    bulk_item object_host sample_generate 0 (JObj [(js "jsonData", JObj [])]) = Ok r1
    /\ bulk_item object_host sample_generate 1 (JObj [(js "jsonData", JObj [])]) = Ok r2
    /\ br_fileName r1 = JStr (js "generated_1.xlsx")
    /\ br_fileName r1 <> br_fileName r2.
Proof.
  lazymatch goal with
  | |- exists a b, ?l1 = Ok a /\ ?l2 = Ok b /\ _ =>
      let r1 := eval vm_compute in l1 in
      let r2 := eval vm_compute in l2 in
      lazymatch r1 with Ok ?w1 => lazymatch r2 with Ok ?w2 => exists w1, w2 end end
  end.
  assert (E1 : bulk_item object_host sample_generate 0 (JObj [(js "jsonData", JObj [])]) = Ok _)
    by (vm_compute; reflexivity).
  assert (E2 : bulk_item object_host sample_generate 1 (JObj [(js "jsonData", JObj [])]) = Ok _)
    by (vm_compute; reflexivity).
  split; [exact E1|]. split; [exact E2|]. split; [reflexivity|].
  apply (proj2 (bulk_default_file_names object_host sample_generate 0 1 _ _ _ _ E1 E2
                  eq_refl eq_refl)).
  discriminate.
Defined.

Lemma generateWorkbook_tables_without_data_witness :
  generateWorkbook object_host (fun s => s) sample_library JNull [sample_formula_mapping]
    [sample_table_P] (Some (js "PK")) no_options
  = Throw (ErrorObj (js "Error")
             (js "Failed to generate Excel workbook: Cannot read properties of "
              ++ js_null_name JNull ++ js " (reading 'tableData')"))
  /\ generateWorkbook object_host (fun s => s) sample_library JUndefined []
    [sample_table_P] None no_options
  = Throw (ErrorObj (js "Error")
             (js "Failed to generate Excel workbook: Cannot read properties of "
              ++ js_null_name JUndefined ++ js " (reading 'tableData')")).
Proof.
  split.
  - eapply (generateWorkbook_tables_without_data object_host (fun s => s) sample_library JNull
             [sample_formula_mapping] sample_table_P [] (Some (js "PK")) no_options).
    + left; reflexivity.
    + reflexivity.
    + reflexivity.
    + reflexivity.
  - eapply (generateWorkbook_tables_without_data object_host (fun s => s) sample_library
             JUndefined [] sample_table_P [] None no_options).
    + right; reflexivity.
    + reflexivity.
    + reflexivity.
    + reflexivity.
Defined.

Lemma sendEmailWithAttachment_outcome_witness :
  env_or empty_env (js "EMAIL_USER") [] = [] /\
  sendEmailWithAttachment empty_env sample_mailer sample_to_string [] [] [] [] []
    (JStr (js "ops@example.com")) (js "PK") JUndefined JUndefined JUndefined
  = Throw (ErrorObj (js "Error")
      (js "Failed to send email: "
       ++ js "Email credentials not configured. Please set EMAIL_USER and EMAIL_PASS in .env file")).
Proof.
  split; [reflexivity|].
  apply (proj2 (sendEmailWithAttachment_outcome empty_env sample_mailer sample_to_string
                  [] [] [] [] [] (JStr (js "ops@example.com")) (js "PK")
                  JUndefined JUndefined JUndefined)).
  left; reflexivity.
Defined.

Lemma sendBulkEmails_partition_witness :
  env_or empty_env (js "EMAIL_USER") [] = [] /\
  sendBulkEmails empty_env sample_mailer sample_to_string [] [] [] [] []
    [JStr (js "a@example.com"); JStr (js "b@example.com")] (js "PK")
    JUndefined JUndefined JUndefined
  = Ok ([], map (fun r => (r, js "Failed to send email: "
              ++ js "Email credentials not configured. Please set EMAIL_USER and EMAIL_PASS in .env file"))
            [JStr (js "a@example.com"); JStr (js "b@example.com")]).
Proof.
  split; [reflexivity|].
  apply (proj2 (sendBulkEmails_partition empty_env sample_mailer sample_to_string
                  [] [] [] [] [] [JStr (js "a@example.com"); JStr (js "b@example.com")]
                  (js "PK") JUndefined JUndefined JUndefined)).
  left; reflexivity.
Defined.

Lemma testEmailConfiguration_never_throws_witness :
  testEmailConfiguration empty_env sample_mailer
  = Ok (false, js "Email configuration error: "
               ++ js "Email credentials not configured. Please set EMAIL_USER and EMAIL_PASS in .env file")
  /\ testEmailConfiguration mail_env sample_mailer
     = Ok (true, js "Email configuration is valid and ready to use").
Proof.
  split.
  - destruct (testEmailConfiguration_never_throws empty_env sample_mailer)
      as (ok & msg & H1 & _ & _ & H4).
    destruct (H4 (or_introl eq_refl)) as [-> ->]. exact H1.
  - destruct (testEmailConfiguration_never_throws mail_env sample_mailer)
      as (ok & msg & H1 & H2 & H3 & _).
    assert (Hok : ok = true).
    { apply H2. exists {| ec_host := js "smtp.gmail.com"; ec_port := Num.of_Z 587; ec_secure := false;
                          ec_user := js "api@example.com"; ec_pass := js "secret" |}.
      split; [vm_compute; reflexivity|reflexivity]. }
    rewrite <- (H3 Hok), <- Hok. exact H1.
Defined.

Lemma generateExcel_generation_failure_witness :
  gen_fail (JUndefined) (JUndefined) (JArr []) None (JObj []) = Throw sample_failure /\
  Controller.generateExcel object_host gen_fail empty_env sample_mailer sample_to_string
    [] [] [] [] [] (fun _ => []) (fun _ => []) (js "2026-01-01T00:00:00.000Z")
    [(js "mode", JStr (js "email")); (js "emailAddress", JStr (js "ops@example.com"))] None
  = Ok (RJson 500 (JObj
      [(js "error", JStr (js "Failed to generate Excel file"));
       (js "message", JStr (js "jsonData is required"));
       (js "timestamp", JStr (js "2026-01-01T00:00:00.000Z"))])).
Proof.
  split; [reflexivity|].
  rewrite (generateExcel_generation_failure object_host gen_fail empty_env sample_mailer
             sample_to_string [] [] [] [] [] (fun _ => []) (fun _ => [])
             (js "2026-01-01T00:00:00.000Z")
             [(js "mode", JStr (js "email")); (js "emailAddress", JStr (js "ops@example.com"))]
             None sample_failure eq_refl).
  reflexivity.
Defined.

Lemma downloadExcel_sends_file_witness :
  Controller.downloadExcel object_host gen_ok empty_env sample_mailer sample_to_string
    [] [] [] [] [] (fun _ => []) (fun _ => []) [] [(js "fileName", JStr (js "report.xlsx"))] None
  = Ok (RSend [(js "Content-Type", JStr xlsx_content_type);
               (js "Content-Disposition",
                JStr (js "attachment; filename=" ++ [34] ++ js "report.xlsx" ++ [34]));
               (js "Content-Length", num 2)] (js "PK"))
  /\ Controller.downloadExcel object_host gen_ok empty_env sample_mailer sample_to_string
    [] [] [] [] [] (fun _ => []) (fun _ => []) [] [(js "fileName", JStr (js "r" ++ [10] ++ js ".xlsx"))] None
  = Ok (RJson 500 (JObj
      [(js "error", JStr (js "Failed to generate Excel file"));
       (js "message", JStr (js "Invalid character in header content ["
                            ++ [34] ++ js "Content-Disposition" ++ [34] ++ js "]"));
       (js "timestamp", JStr [])])).
Proof.
  split.
  - rewrite (downloadExcel_sends_file object_host gen_ok empty_env sample_mailer sample_to_string
               [] [] [] [] [] (fun _ => []) (fun _ => []) [] (fun p q k => eq_refl)
               [(js "fileName", JStr (js "report.xlsx"))] None (js "PK") (js "report.xlsx")
               eq_refl eq_refl).
    reflexivity.
  - rewrite (downloadExcel_sends_file object_host gen_ok empty_env sample_mailer sample_to_string
               [] [] [] [] [] (fun _ => []) (fun _ => []) [] (fun p q k => eq_refl)
               [(js "fileName", JStr (js "r" ++ [10] ++ js ".xlsx"))] None (js "PK")
               (js "r" ++ [10] ++ js ".xlsx") eq_refl eq_refl).
    reflexivity.
Defined.

Lemma emailExcel_requires_address_witness :
  truthy (Controller.field object_host [(js "emailAddress", JStr [])] (js "emailAddress")) = false /\
  Controller.emailExcel object_host gen_ok mail_env sample_mailer sample_to_string
    [] [] [] [] [] (fun _ => []) (fun _ => []) [] [(js "emailAddress", JStr [])] None
  = Ok (RJson 400 (JObj
      [(js "error", JStr (js "Email address required"));
       (js "message", JStr (js "Please provide a valid email address"))])).
Proof.
  split; [reflexivity|].
  apply (emailExcel_requires_address object_host gen_ok mail_env sample_mailer sample_to_string
           [] [] [] [] [] (fun _ => []) (fun _ => []) [] (fun p q k => eq_refl)).
  reflexivity.
Defined.

Lemma emailExcel_without_credentials_witness :
  Controller.emailExcel object_host gen_ok empty_env sample_mailer sample_to_string
    [] [] [] [] [] (fun _ => []) (fun _ => []) []
    [(js "emailAddress", JStr (js "ops@example.com"))] None
  = Ok (RJson 500 (JObj
      [(js "error", JStr (js "Failed to generate Excel file"));
       (js "message", JStr (js "Failed to send email: "
          ++ js "Email credentials not configured. Please set EMAIL_USER and EMAIL_PASS in .env file"));
       (js "timestamp", JStr [])])).
Proof.
  apply (emailExcel_without_credentials object_host gen_ok empty_env sample_mailer sample_to_string
           [] [] [] [] [] (fun _ => []) (fun _ => []) [] (fun p q k => eq_refl)
           [(js "emailAddress", JStr (js "ops@example.com"))] None (js "PK")).
  - reflexivity.
  - reflexivity.
  - left; reflexivity.
Defined.

Lemma uploadTemplate_responses_witness :
  lib_load sample_library [] = inr (ErrorObj (js "Error")
                      (js "Can't find end of central directory : is this a zip file ?")) /\
  Controller.uploadTemplate sample_library (fun _ => []) [] (fun _ => 0) (fun _ => 0) (fun _ => [])
    (Some {| up_buffer := []; up_originalname := js "empty.xlsx"; up_size := 0%nat;
             up_mimetype := [] |})
  = Ok (RJson 400 (JObj
      [(js "error", JStr (js "Invalid template file"));
       (js "message", JStr (js "Can't find end of central directory : is this a zip file ?"));
       (js "details", JStr (js "Please ensure the file is a valid Excel workbook"))])) /\
  lib_load sample_library (up_buffer sample_upload) = inl [new_worksheet (js "Sheet1")] /\
  exists body,
    Controller.uploadTemplate sample_library (fun _ => []) [] (fun _ => 0) (fun _ => 0)
      (fun _ => []) (Some sample_upload) = Ok (RJson 200 (JObj body))
    /\ assoc_last (js "success") body = Some (JBool true).
Proof.
  split; [reflexivity|]. split.
  - apply (proj1 (proj2 (uploadTemplate_responses sample_library (fun _ => []) [] (fun _ => 0)
             (fun _ => 0) (fun _ => [])
             {| up_buffer := []; up_originalname := js "empty.xlsx"; up_size := 0%nat;
                up_mimetype := [] |}))
            (ErrorObj (js "Error") (js "Can't find end of central directory : is this a zip file ?"))).
    reflexivity.
  - split; [reflexivity|]. eexists. split.
    + apply (proj2 (proj2 (uploadTemplate_responses sample_library (fun _ => []) [] (fun _ => 0)
               (fun _ => 0) (fun _ => []) sample_upload))).
      reflexivity.
    + reflexivity.
Defined.

Lemma validateTemplate_handler_responses_witness :
  Controller.validateTemplate sample_library (fun _ => []) [] (fun _ => 0) (fun _ => 0)
    (fun _ => [])
    (Some {| up_buffer := []; up_originalname := js "empty.xlsx"; up_size := 0%nat;
             up_mimetype := [] |})
  = Ok (RJson 400 (JObj
      [(js "success", JBool false);
       (js "error", JStr (js "Template validation failed"));
       (js "message", JStr (js "Can't find end of central directory : is this a zip file ?"));
       (js "details", JObj
          [(js "fileName", JStr (js "empty.xlsx"));
           (js "fileSize", JStr (Controller.file_size (fun _ => []) 0));
           (js "validatedAt", JStr [])])])) /\
  exists body,
    Controller.validateTemplate sample_library (fun _ => []) [] (fun _ => 0) (fun _ => 0)
      (fun _ => []) (Some sample_upload) = Ok (RJson 200 (JObj body))
    /\ assoc_last (js "success") body = Some (JBool true).
Proof.
  split.
  - apply (proj1 (proj2 (validateTemplate_handler_responses sample_library (fun _ => []) []
             (fun _ => 0) (fun _ => 0) (fun _ => [])
             {| up_buffer := []; up_originalname := js "empty.xlsx"; up_size := 0%nat;
                up_mimetype := [] |}))
            (ErrorObj (js "Error") (js "Can't find end of central directory : is this a zip file ?"))).
    reflexivity.
  - eexists. split.
    + apply (proj2 (proj2 (validateTemplate_handler_responses sample_library (fun _ => []) []
               (fun _ => 0) (fun _ => 0) (fun _ => []) sample_upload))).
      reflexivity.
    + reflexivity.
Defined.

Lemma allowed_origins_from_env_witness :
  Server.allowed_origins empty_env = [js "http://localhost:3000"; js "http://localhost:8000"]
  /\ join_on 44 (Server.allowed_origins origins_env) = js "https://a.example,https://b.example"
  /\ Server.allowed_origins origins_env = [js "https://a.example"; js "https://b.example"].
Proof.
  split; [apply (proj1 (allowed_origins_from_env empty_env)); reflexivity|].
  split; [|reflexivity].
  apply (proj2 (allowed_origins_from_env origins_env) (js "https://a.example,https://b.example")).
  reflexivity.
Defined.

Lemma error_handler_hides_message_witness :
  Server.error_handler object_host empty_env
    (JObj [(js "name", JStr (js "Error")); (js "message", JStr (js "db password leaked"))])
  = Ok (RJson 500 (JObj [(js "error", JStr (js "Internal Server Error"));
                         (js "message", JStr (js "Something went wrong"))]))
  /\ Server.error_handler object_host empty_env
    (JObj [(js "code", JStr (js "LIMIT_FILE_SIZE"))])
  = Ok (RJson 413 (JObj [(js "error", JStr (js "File too large"));
                         (js "maxSize", JStr (js "10MB"))])).
Proof.
  split.
  - rewrite error_handler_hides_message by (reflexivity || discriminate). reflexivity.
  - rewrite error_handler_hides_message by (reflexivity || discriminate). reflexivity.
Defined.

Lemma upload_size_limit_witness :
  Middleware.validateTemplate empty_env (fun _ => []) (Some sample_upload) = Middleware.Next
  /\ Middleware.validateTemplate (size_env (js "1000kb")) (fun _ => []) (Some sample_upload)
     = Middleware.Respond 413 (JObj
         [(js "error", JStr (js "File too large"));
          (js "message", JStr (js "File size must be less than "
             ++ [] ++ js "MB"))])
  /\ Middleware.validateTemplate (size_env (js "unlimited")) (fun _ => []) (Some sample_upload)
     = Middleware.Next.
Proof.
  split; [|split].
  - rewrite (proj1 (proj2 (proj2 (upload_size_limit empty_env (fun _ => []) sample_upload))))
      by (reflexivity || (simpl; lia)).
    reflexivity.
  - rewrite (proj1 (proj2 (upload_size_limit (size_env (js "1000kb")) (fun _ => []) sample_upload))
               (js "1000") (js "kb") 1000 eq_refl ltac:(discriminate) eq_refl
               ltac:(intros c t E; injection E as <- <-; split; [reflexivity|discriminate])
               ltac:(lia) ltac:(simpl; lia)).
    reflexivity.
  - apply (proj2 (proj2 (proj2 (upload_size_limit (size_env (js "unlimited")) (fun _ => [])
             sample_upload))) 117 (js "nlimited")); try reflexivity; discriminate.
Defined.

Lemma file_size_rounds_to_kilobytes_witness :
  Controller.file_size small_number_string 1536 = js "2 KB"
  /\ Controller.file_size small_number_string 1535 = js "1 KB"
  /\ Controller.file_size small_number_string 511 = js "0 KB".
Proof.
  split; [|split];
    (rewrite file_size_rounds_to_kilobytes by (simpl; lia); vm_compute; reflexivity).
Defined.

Lemma generateExcel_json_mode_witness :
  Controller.generateExcel object_host gen_ok empty_env sample_mailer sample_to_string
    [] [] [] [] [] small_number_string (fun _ => js "UEs=") []
    [(js "mode", JStr (js "json")); (js "fileName", JStr (js "out.xlsx"))] None
  = Ok (RJson 200 (JObj
      [(js "success", JBool true);
       (js "message", JStr (js "Excel file generated successfully"));
       (js "data", JObj
          [(js "fileName", JStr (js "out.xlsx"));
           (js "fileSize", JStr (js "0 KB"));
           (js "base64", JStr (js "UEs="))])])).
Proof.
  rewrite (generateExcel_json_mode object_host gen_ok empty_env sample_mailer sample_to_string
             [] [] [] [] [] small_number_string (fun _ => js "UEs=") []
             [(js "mode", JStr (js "json")); (js "fileName", JStr (js "out.xlsx"))] None
             (js "PK") eq_refl eq_refl eq_refl ltac:(simpl; lia)).
  vm_compute. reflexivity.
Defined.

Lemma generateExcel_email_mode_no_address_witness :
  Controller.generateExcel object_host gen_ok mail_env sample_mailer sample_to_string
    [] [] [] [] [] small_number_string (fun _ => []) [] [(js "mode", JStr (js "email"))] None
  = Ok (RJson 400 (JObj
      [(js "error", JStr (js "Email address required for email mode"));
       (js "message", JStr (js "Please provide a valid email address in the emailAddress field"))])).
Proof.
  exact (generateExcel_email_mode_no_address object_host gen_ok mail_env sample_mailer
           sample_to_string [] [] [] [] [] small_number_string (fun _ => []) []
           [(js "mode", JStr (js "email"))] None (js "PK") eq_refl eq_refl eq_refl).
Defined.
